(** * ollama-agent: the query pipeline of [IntelligentAgent] and [AIModel]

    A shallow embedding of
    - [src/ollama_agent/core/agent.py]: [handle_json_fields],
      [handle_tool_call], [small_model_handle_tool_response],
      [handle_user_query];
    - [src/ollama_agent/core/ai_model_lib.py]: [load_memory], [chat],
      [generate_response], [function_call_avaliablity].

    Conventions.
    - A Python [str] is a sequence of Unicode code points: [pystr] is
      [list N].  Literals are written through [str] (UTF-8 decoding of a
      Rocq string) and [qstr] (the same, with every apostrophe standing for
      a double quote, so that JSON texts stay readable).
    - Python values that come out of [json.loads] are the inductive [json];
      [JNull] is Python's [None].
    - A call that can raise has a result of type [outcome A]: a value or
      an exception, which is an instance of Python's [Exception].
    - The language-model runtime, the tool channel and the memory file are
      the fields of an environment record and of a world state that is
      threaded through the calls.  Calls to [print] and [print_debug] write
      to the terminal only and are left out.
    - [re] and [json] are modelled for what the agent uses of them; a
      [float] read by [json.loads] is kept as its lexeme, and the limits of
      the interpreter that the decoder can hit (digits of an [int],
      nesting depth) raise as they do there.
    - The interpreter is CPython 3.11 with its defaults; its messages are
      those of that version. *)

From Stdlib Require Import ZArith NArith List String Ascii Bool Lia.
From stdpp Require Import base list.
Import ListNotations.

Set Warnings "-register-all".

Local Open Scope N_scope.
Local Open Scope list_scope.

(** ** Python strings *)

Module PyStr.

Definition pystr := list N.

(** UTF-8 decoding of the bytes of a Rocq literal (well-formed input). *)
Fixpoint utf8_decode (bs : list N) : pystr :=
  match bs with
  | [] => []
  | b :: r =>
      if b <? 128 then b :: utf8_decode r
      else if b <? 224 then
        match r with
        | b1 :: r' => ((b - 192) * 64 + (b1 - 128)) :: utf8_decode r'
        | _ => []
        end
      else if b <? 240 then
        match r with
        | b1 :: b2 :: r' =>
            ((b - 224) * 4096 + (b1 - 128) * 64 + (b2 - 128)) :: utf8_decode r'
        | _ => []
        end
      else
        match r with
        | b1 :: b2 :: b3 :: r' =>
            ((b - 240) * 262144 + (b1 - 128) * 4096 + (b2 - 128) * 64 + (b3 - 128))
              :: utf8_decode r'
        | _ => []
        end
  end.

Definition str (s : string) : pystr :=
  utf8_decode (map N_of_ascii (list_ascii_of_string s)).

(** [qstr]: as [str], reading each apostrophe (39) as a double quote (34). *)
Definition qstr (s : string) : pystr :=
  map (fun c => if c =? 39 then 34 else c) (str s).

Definition dquote : N := 34.
Definition newline : N := 10.

(** [a == b] on strings *)
Fixpoint pystr_eqb (a b : pystr) : bool :=
  match a, b with
  | [], [] => true
  | x :: a', y :: b' => (x =? y) && pystr_eqb a' b'
  | _, _ => false
  end.

(** [s.startswith(p)] *)
Fixpoint startswith (p s : pystr) : bool :=
  match p, s with
  | [], _ => true
  | a :: p', b :: s' => (a =? b) && startswith p' s'
  | _ :: _, [] => false
  end.

(** [needle in hay] on strings *)
Fixpoint contains (needle hay : pystr) : bool :=
  startswith needle hay ||
  match hay with
  | [] => false
  | _ :: hay' => contains needle hay'
  end.

(** [str.isspace] on one code point; also the class [\s] of [re] on [str]
    patterns. *)
Definition isspace (c : N) : bool :=
  ((9 <=? c) && (c <=? 13)) || ((28 <=? c) && (c <=? 32)) ||
  (c =? 133) || (c =? 160) || (c =? 5760) ||
  ((8192 <=? c) && (c <=? 8202)) || (c =? 8232) || (c =? 8233) ||
  (c =? 8239) || (c =? 8287) || (c =? 12288).

Fixpoint lstrip (s : pystr) : pystr :=
  match s with
  | c :: s' => if isspace c then lstrip s' else s
  | [] => []
  end.

(** [s.strip()] *)
Definition strip (s : pystr) : pystr := rev (lstrip (rev (lstrip s))).

(** [c.lower()] for an ASCII code point *)
Definition lower_char (c : N) : N :=
  if (65 <=? c) && (c <=? 90) then c + 32 else c.

(** [str.lower] outside ASCII.  Exactly two code points outside ASCII
    lower into ASCII, and they are written out in [lower_at]: U+0130
    (capital I with dot above) gives [i] and U+0307, U+212A (the Kelvin
    sign) gives [k].  Every other code point outside ASCII gives one code
    point outside ASCII; which one depends on the Unicode tables of the
    interpreter and, for the capital sigma, on the letters around it.
    [lower_other] stands for that code point, given the text before
    (nearest first) and after it: it is sealed, so that nothing is known
    of it but the bound. *)
Definition lower_other :
  {f : pystr -> N -> pystr -> N | forall before c after, 128 <= f before c after}.
Proof. exists (fun _ c _ => N.max c 128). intros before c after. lia. Qed.

(** What [s.lower()] holds for the code point [c] of [s]. *)
Definition lower_at (before : pystr) (c : N) (after : pystr) : pystr :=
  if c <? 128 then [lower_char c]
  else if c =? 304 then [105; 775]
  else if c =? 8490 then [107]
  else [proj1_sig lower_other before c after].

Fixpoint lower_from (before : pystr) (s : pystr) : pystr :=
  match s with
  | [] => []
  | c :: s' => lower_at before c s' ++ lower_from (c :: before) s'
  end.

(** [s.lower()] *)
Definition lower (s : pystr) : pystr := lower_from [] s.

(** [sep.join(parts)] *)
Fixpoint join (sep : pystr) (parts : list pystr) : pystr :=
  match parts with
  | [] => []
  | [p] => p
  | p :: rest => p ++ sep ++ join sep rest
  end.

(** [str(n)] for a Python [int] *)
Definition digit_char (d : N) : N := 48 + d.

Fixpoint digits_fuel (fuel : nat) (n : N) (acc : pystr) : pystr :=
  match fuel with
  | O => acc
  | S f =>
      let acc' := digit_char (n mod 10) :: acc in
      if n <? 10 then acc' else digits_fuel f (n / 10) acc'
  end.

Definition str_of_N (n : N) : pystr := digits_fuel (S (N.to_nat (N.log2 n))) n [].

Definition str_of_Z (z : Z) : pystr :=
  match z with
  | Zneg p => 45 :: str_of_N (Npos p)
  | _ => str_of_N (Z.to_N z)
  end.

End PyStr.
Import PyStr.

#[global] Arguments str : simpl never.
#[global] Arguments qstr : simpl never.
#[global] Arguments pystr_eqb : simpl nomatch.


(** ** Regular expressions: the fragment of [re] used by the agent

    Patterns are concatenations of literals, character classes, greedy and
    lazy repetitions of a class, an optional sub-pattern and one capturing
    group.  The matcher is the backtracking search of [re]: alternatives are
    tried in priority order (greedy: longest first, lazy: shortest first)
    and the first complete match wins. *)

Module Re.

Inductive regex : Type :=
| Eps
| Chr (c : N)
| Cls (p : N -> bool)
| Star (p : N -> bool)
| Plus (p : N -> bool)
| LazyStar (p : N -> bool)
| Opt (r : regex)
| Grp (r : regex)
| Cat (r1 r2 : regex).

Fixpoint Lit (s : pystr) : regex :=
  match s with
  | [] => Eps
  | c :: s' => Cat (Chr c) (Lit s')
  end.

Fixpoint Seq (rs : list regex) : regex :=
  match rs with
  | [] => Eps
  | r :: rs' => Cat r (Seq rs')
  end.

Section Matcher.
Context {A : Type}.

Fixpoint star_greedy (p : N -> bool) (s : pystr) (k : pystr -> option A) : option A :=
  match s with
  | c :: s' =>
      if p c then
        match star_greedy p s' k with
        | Some a => Some a
        | None => k s
        end
      else k s
  | [] => k []
  end.

Fixpoint star_lazy (p : N -> bool) (s : pystr) (k : pystr -> option A) : option A :=
  match k s with
  | Some a => Some a
  | None =>
      match s with
      | c :: s' => if p c then star_lazy p s' k else None
      | [] => None
      end
  end.

(** [rmatch r s cap k]: match [r] at the head of [s]; [cap] is the text of
    group 1 so far; [k] continues on the rest of the input. *)
Fixpoint rmatch (r : regex) (s : pystr) (cap : option pystr)
    (k : pystr -> option pystr -> option A) : option A :=
  match r with
  | Eps => k s cap
  | Chr c =>
      match s with
      | x :: s' => if x =? c then k s' cap else None
      | [] => None
      end
  | Cls p =>
      match s with
      | x :: s' => if p x then k s' cap else None
      | [] => None
      end
  | Star p => star_greedy p s (fun s' => k s' cap)
  | Plus p =>
      match s with
      | x :: s' => if p x then star_greedy p s' (fun s'' => k s'' cap) else None
      | [] => None
      end
  | LazyStar p => star_lazy p s (fun s' => k s' cap)
  | Opt r' =>
      match rmatch r' s cap k with
      | Some a => Some a
      | None => k s cap
      end
  | Grp r' =>
      rmatch r' s cap
        (fun s' _ => k s' (Some (take (length s - length s') s)))
  | Cat r1 r2 => rmatch r1 s cap (fun s' cap' => rmatch r2 s' cap' k)
  end.

End Matcher.

(** A match object: [group(0)], [group(1)] and the text after the match. *)
Record match_obj : Type := MatchObj {
  group0 : pystr;
  group1 : option pystr;
  after : pystr
}.

Definition match_at (r : regex) (s : pystr) : option match_obj :=
  rmatch r s None
    (fun rest cap => Some (MatchObj (take (length s - length rest) s) cap rest)).

(** [re.search(r, s)]: the first position, from the left, with a match. *)
Fixpoint search (r : regex) (s : pystr) : option match_obj :=
  match match_at r s with
  | Some m => Some m
  | None =>
      match s with
      | [] => None
      | _ :: s' => search r s'
      end
  end.

(** [re.sub(r, repl, s)] for a pattern whose matches are never empty and a
    replacement without group references: the matches are replaced from
    the left, without overlap.  [skip] counts the characters of the
    current match still to be dropped. *)
Fixpoint sub_from (r : regex) (repl : pystr) (s : pystr) (skip : nat) : pystr :=
  match s with
  | [] => []
  | c :: s' =>
      match skip with
      | S n => sub_from r repl s' n
      | O =>
          match match_at r s with
          | Some m => repl ++ sub_from r repl s' (length (group0 m) - 1)
          | None => c :: sub_from r repl s' O
          end
      end
  end.

Definition sub (r : regex) (repl : pystr) (s : pystr) : pystr :=
  sub_from r repl s O.

(** The words of a pattern (what a match can consume). *)
Fixpoint lang (r : regex) (w : pystr) : Prop :=
  match r with
  | Eps => w = []
  | Chr c => w = [c]
  | Cls p => exists c, w = [c] /\ p c = true
  | Star p => Forall (fun c => p c = true) w
  | Plus p => w <> [] /\ Forall (fun c => p c = true) w
  | LazyStar p => Forall (fun c => p c = true) w
  | Opt r' => w = [] \/ lang r' w
  | Grp r' => lang r' w
  | Cat r1 r2 => exists w1 w2, w = w1 ++ w2 /\ lang r1 w1 /\ lang r2 w2
  end.

End Re.
Import Re.

(** ** The patterns of [handle_json_fields] *)

Definition not_in (cs : list N) (c : N) : bool :=
  negb (existsb (N.eqb c) cs).

Definition any_char (c : N) : bool := true.

Definition lbrace : N := 123.
Definition rbrace : N := 125.
Definition rbracket : N := 93.
Definition comma : N := 44.
Definition colon : N := 58.
Definition backtick : N := 96.

Definition key_tool_name : pystr := dquote :: str "tool_name" ++ [dquote].
Definition key_query : pystr := dquote :: str "query" ++ [dquote].
Definition fence : pystr := [backtick; backtick; backtick].

(** [r'\{[^{}]*"tool_name"[^{}]*\}'] *)
Definition json_pattern : regex :=
  Seq [Chr lbrace; Star (not_in [lbrace; rbrace]); Lit key_tool_name;
       Star (not_in [lbrace; rbrace]); Chr rbrace].

(** [r'```(?:json)?\s*\n?(.*?)\n?```'] with [re.DOTALL] *)
Definition code_block_pattern : regex :=
  Seq [Lit fence; Opt (Lit (str "json")); Star isspace; Opt (Chr newline);
       Grp (LazyStar any_char); Opt (Chr newline); Lit fence].

(** [r'\{[^}]*"tool_name"[^}]*\}'] *)
Definition flexible_pattern : regex :=
  Seq [Chr lbrace; Star (not_in [rbrace]); Lit key_tool_name;
       Star (not_in [rbrace]); Chr rbrace].

(** [r',\s*}'] and [r',\s*]'] *)
Definition comma_brace_pattern : regex := Seq [Chr comma; Star isspace; Chr rbrace].
Definition comma_bracket_pattern : regex := Seq [Chr comma; Star isspace; Chr rbracket].

(** [r'"tool_name"\s*:\s*"([^"]+)"'] and [r'"query"\s*:\s*"([^"]+)"'] *)
Definition field_pattern (key : pystr) : regex :=
  Seq [Lit key; Star isspace; Chr colon; Star isspace; Chr dquote;
       Grp (Plus (not_in [dquote])); Chr dquote].

Definition tool_pattern : regex := field_pattern key_tool_name.
Definition query_pattern : regex := field_pattern key_query.

(** ** Python values and [json.loads] *)

Module Json.

Inductive json : Type :=
| JNull
| JBool (b : bool)
| JInt (z : Z)
| JFloat (lexeme : pystr)
| JStr (s : pystr)
| JList (l : list json)
| JDict (d : list (pystr * json)).

(** A [dict] keeps its keys in insertion order; assigning to a key that is
    present replaces the value in place. *)
Fixpoint dict_set (k : pystr) (v : json) (d : list (pystr * json)) : list (pystr * json) :=
  match d with
  | [] => [(k, v)]
  | (k', v') :: d' =>
      if pystr_eqb k k' then (k, v) :: d' else (k', v') :: dict_set k v d'
  end.

Fixpoint dict_get (k : pystr) (d : list (pystr * json)) : option json :=
  match d with
  | [] => None
  | (k', v) :: d' => if pystr_eqb k k' then Some v else dict_get k d'
  end.

(** The whitespace of the JSON grammar: space, tab, line feed, carriage
    return. *)
Definition json_ws (c : N) : bool :=
  (c =? 32) || (c =? 9) || (c =? 10) || (c =? 13).

Fixpoint skip_ws (s : pystr) : pystr :=
  match s with
  | c :: s' => if json_ws c then skip_ws s' else s
  | [] => []
  end.

Definition isdigit (c : N) : bool := (48 <=? c) && (c <=? 57).

Fixpoint span (p : N -> bool) (s : pystr) : pystr * pystr :=
  match s with
  | c :: s' =>
      if p c then let (a, b) := span p s' in (c :: a, b) else ([], s)
  | [] => ([], [])
  end.

Definition hex_val (c : N) : option N :=
  if isdigit c then Some (c - 48)
  else if (97 <=? c) && (c <=? 102) then Some (c - 87)
  else if (65 <=? c) && (c <=? 70) then Some (c - 55)
  else None.

Definition hex4 (a b c d : N) : option N :=
  match hex_val a, hex_val b, hex_val c, hex_val d with
  | Some x, Some y, Some z, Some w => Some (((x * 16 + y) * 16 + z) * 16 + w)
  | _, _, _, _ => None
  end.

Definition is_high_surrogate (u : N) : bool := (55296 <=? u) && (u <=? 56319).
Definition is_low_surrogate (u : N) : bool := (56320 <=? u) && (u <=? 57343).
Definition join_surrogates (hi lo : N) : N :=
  65536 + (hi - 55296) * 1024 + (lo - 56320).

(** The one-character escapes after a backslash. *)
Definition unescape (c : N) : option N :=
  if c =? 34 then Some 34          (* quote *)
  else if c =? 92 then Some 92     (* backslash *)
  else if c =? 47 then Some 47     (* slash *)
  else if c =? 98 then Some 8      (* b: backspace *)
  else if c =? 102 then Some 12    (* f: form feed *)
  else if c =? 110 then Some 10    (* n: line feed *)
  else if c =? 114 then Some 13    (* r: carriage return *)
  else if c =? 116 then Some 9     (* t: tab *)
  else None.

Definition push (c : N) (r : option (pystr * pystr)) : option (pystr * pystr) :=
  match r with
  | Some (s, rest) => Some (c :: s, rest)
  | None => None
  end.

(** The body of a string, after its opening quote (strict mode: a raw
    control character is an error). *)
Fixpoint scanstring (s : pystr) : option (pystr * pystr) :=
  match s with
  | [] => None
  | c :: r =>
      if c =? 34 then Some ([], r)
      else if c =? 92 then
        match r with
        | [] => None
        | e :: r1 =>
            if e =? 117 then
              match r1 with
              | a :: b :: c2 :: d :: r2 =>
                  match hex4 a b c2 d with
                  | None => None
                  | Some u =>
                      if is_high_surrogate u then
                        match r2 with
                        | b1 :: u1 :: a' :: b' :: c' :: d' :: r3 =>
                            if (b1 =? 92) && (u1 =? 117) then
                              match hex4 a' b' c' d' with
                              | None => None
                              | Some u2 =>
                                  if is_low_surrogate u2
                                  then push (join_surrogates u u2) (scanstring r3)
                                  else push u (scanstring r2)
                              end
                            else push u (scanstring r2)
                        | _ => push u (scanstring r2)
                        end
                      else push u (scanstring r2)
                  end
              | _ => None
              end
            else
              match unescape e with
              | Some x => push x (scanstring r1)
              | None => None
              end
        end
      else if c <? 32 then None
      else push c (scanstring r)
  end.

Definition N_of_digits (ds : pystr) : N :=
  fold_left (fun a d => 10 * a + (d - 48)) ds 0.

(** The optional fraction: a dot and at least one digit. *)
Definition scan_frac (s : pystr) : pystr * pystr :=
  match s with
  | c :: r =>
      if c =? 46 then
        match span isdigit r with
        | ([], _) => ([], s)
        | (ds, r') => (c :: ds, r')
        end
      else ([], s)
  | [] => ([], s)
  end.

(** The optional exponent: [e] or [E], an optional sign, at least one digit. *)
Definition scan_exp (s : pystr) : pystr * pystr :=
  match s with
  | c :: r =>
      if (c =? 101) || (c =? 69) then
        let (sign, r1) :=
          match r with
          | g :: r' => if (g =? 45) || (g =? 43) then ([g], r') else ([], r)
          | [] => ([], r)
          end in
        match span isdigit r1 with
        | ([], _) => ([], s)
        | (ds, r') => (c :: sign ++ ds, r')
        end
      else ([], s)
  | [] => ([], s)
  end.

(** The limits of the interpreter that the decoder can hit; neither is a
    [json.JSONDecodeError]:
    - an integer literal of more than [int_max_str_digits] digits (the
      conversion of [int] refuses it with a [ValueError]; the sign is not
      counted, and a literal with a fraction or an exponent is a [float],
      which has no such limit);
    - objects and arrays nested beyond the recursion budget (a
      [RecursionError], raised on entering the object or the array). *)
Inductive limit : Type :=
| IntTooLong (digits : nat)
| TooDeep (in_object : bool).

(** [sys.get_int_max_str_digits()], as the interpreter starts. *)
Definition int_max_str_digits : nat := 4300.

(** The result of the recursive scanner: a value and the rest of the input,
    a decoding error, a limit of the interpreter, or fuel exhausted
    (excluded by [scan_fuel]). *)
Inductive scan (A : Type) : Type :=
| Scanned (a : A) (rest : pystr)
| DecodeError
| LimitHit (l : limit)
| OutOfFuel.
Arguments Scanned {A} a rest.
Arguments DecodeError {A}.
Arguments LimitHit {A} l.
Arguments OutOfFuel {A}.

(** A number: an optional minus sign, then [0] or a nonzero digit followed
    by digits, then an optional fraction and an optional exponent.  It is
    an [int] without fraction and exponent, a [float] (kept as its lexeme)
    otherwise. *)
Definition scan_number (s : pystr) : scan json :=
  let (neg, s1) :=
    match s with
    | c :: r => if c =? 45 then (true, r) else (false, s)
    | [] => (false, s)
    end in
  let int_part :=
    match s1 with
    | d :: r =>
        if d =? 48 then Some ([d], r)
        else if isdigit d then let (ds, r') := span isdigit r in Some (d :: ds, r')
        else None
    | [] => None
    end in
  match int_part with
  | None => DecodeError
  | Some (ip, r) =>
      let (frac, r1) := scan_frac r in
      let (ex, r2) := scan_exp r1 in
      match frac, ex with
      | [], [] =>
          if (int_max_str_digits <? length ip)%nat then LimitHit (IntTooLong (length ip))
          else
            let n := Z.of_N (N_of_digits ip) in
            Scanned (JInt (if neg then (- n)%Z else n)) r2
      | _, _ => Scanned (JFloat ((if neg then [45] else []) ++ ip ++ frac ++ ex)) r2
      end
  end.

Definition scan_literal (s : pystr) : scan json :=
  if startswith (str "null") s then Scanned JNull (drop 4 s)
  else if startswith (str "true") s then Scanned (JBool true) (drop 4 s)
  else if startswith (str "false") s then Scanned (JBool false) (drop 5 s)
  else if startswith (str "NaN") s then Scanned (JFloat (str "NaN")) (drop 3 s)
  else if startswith (str "Infinity") s then Scanned (JFloat (str "Infinity")) (drop 8 s)
  else if startswith (str "-Infinity") s then Scanned (JFloat (str "-Infinity")) (drop 9 s)
  else scan_number s.

(** [depth] is what is left of the recursion budget: entering an object
    or an array takes one level of it. *)
Fixpoint scan_once (fuel depth : nat) (s : pystr) : scan json :=
  match fuel with
  | O => OutOfFuel
  | S f =>
      match s with
      | [] => DecodeError
      | c :: r =>
          if c =? 34 then
            match scanstring r with
            | Some (x, r') => Scanned (JStr x) r'
            | None => DecodeError
            end
          else if c =? 123 then
            match depth with
            | O => LimitHit (TooDeep true)
            | S d =>
                match skip_ws r with
                | c' :: r' =>
                    if c' =? 125 then Scanned (JDict []) r'
                    else scan_members f d (c' :: r') []
                | [] => DecodeError
                end
            end
          else if c =? 91 then
            match depth with
            | O => LimitHit (TooDeep false)
            | S d =>
                match skip_ws r with
                | c' :: r' =>
                    if c' =? 93 then Scanned (JList []) r'
                    else scan_elems f d (c' :: r') []
                | [] => DecodeError
                end
            end
          else scan_literal s
      end
  end
with scan_members (fuel depth : nat) (s : pystr) (acc : list (pystr * json)) : scan json :=
  match fuel with
  | O => OutOfFuel
  | S f =>
      match s with
      | [] => DecodeError
      | c :: r =>
          if c =? 34 then
            match scanstring r with
            | None => DecodeError
            | Some (key, r1) =>
                match skip_ws r1 with
                | c1 :: r2 =>
                    if c1 =? 58 then
                      match scan_once f depth (skip_ws r2) with
                      | Scanned v r3 =>
                          let acc' := dict_set key v acc in
                          match skip_ws r3 with
                          | c3 :: r4 =>
                              if c3 =? 125 then Scanned (JDict acc') r4
                              else if c3 =? 44 then scan_members f depth (skip_ws r4) acc'
                              else DecodeError
                          | [] => DecodeError
                          end
                      | DecodeError => DecodeError
                      | LimitHit l => LimitHit l
                      | OutOfFuel => OutOfFuel
                      end
                    else DecodeError
                | [] => DecodeError
                end
            end
          else DecodeError
      end
  end
with scan_elems (fuel depth : nat) (s : pystr) (acc : list json) : scan json :=
  match fuel with
  | O => OutOfFuel
  | S f =>
      match scan_once f depth s with
      | Scanned v r1 =>
          let acc' := acc ++ [v] in
          match skip_ws r1 with
          | c :: r2 =>
              if c =? 93 then Scanned (JList acc') r2
              else if c =? 44 then scan_elems f depth (skip_ws r2) acc'
              else DecodeError
          | [] => DecodeError
          end
      | DecodeError => DecodeError
      | LimitHit l => LimitHit l
      | OutOfFuel => OutOfFuel
      end
  end.

(** The recursion budget of a call of the decoder: how deep objects and
    arrays may nest before the interpreter raises [RecursionError].  It
    depends on the interpreter (its recursion limit, 1000 by default) and
    on the frames in use at the call, not on the text.  The program never
    lowers the limit and calls the decoder from a shallow stack, so
    [guaranteed_depth] levels are taken to be available; what is
    available beyond them, [spare_depth], is sealed: no proof reads its
    value, so every statement below holds for every budget of at least
    [guaranteed_depth]. *)
Definition guaranteed_depth : nat := 100.

Definition spare_depth : nat.
Proof. exact 0%nat. Qed.

Definition recursion_budget : nat := (guaranteed_depth + spare_depth)%nat.

(** What [json.loads] gives: a value, a [json.JSONDecodeError], or the
    exception of a limit of the interpreter. *)
Inductive decoded : Type :=
| Decoded (v : json)
| NotJson
| Exceeded (l : limit).

(** [json.loads(s)].  A leading byte-order mark, an empty input and
    trailing non-blank data are decoding errors.  The fuel is twice the
    length of the input, which the scanner never exhausts. *)
Definition json_loads (s : pystr) : decoded :=
  if startswith [65279] s then NotJson
  else
    match scan_once (2 * length s + 2) recursion_budget (skip_ws s) with
    | Scanned v rest =>
        match skip_ws rest with
        | [] => Decoded v
        | _ :: _ => NotJson
        end
    | LimitHit l => Exceeded l
    | _ => NotJson
    end.

(** The decimal lexeme of a [float] denotes [m * 10 ^ e] (up to the sign):
    [m] is read from the digits of the integer part and of the fraction,
    [e] is the exponent less the number of digits of the fraction. *)
Definition float_parts (lexeme : pystr) : N * Z :=
  let body :=
    match lexeme with
    | c :: r => if c =? 45 then r else lexeme
    | [] => []
    end in
  let (ip, r1) := span isdigit body in
  let (fr, r2) :=
    match r1 with
    | c :: r => if c =? 46 then span isdigit r else ([], r1)
    | [] => ([], [])
    end in
  let ex :=
    match r2 with
    | _ :: g :: r =>
        if g =? 45 then (- Z.of_N (N_of_digits r))%Z
        else if g =? 43 then Z.of_N (N_of_digits r)
        else Z.of_N (N_of_digits (g :: r))
    | _ => 0%Z
    end in
  (N_of_digits (ip ++ fr), (ex - Z.of_nat (length fr))%Z).

(** [float(lexeme) != 0].  The conversion rounds to the nearest [float],
    ties to even: the result is zero exactly when the value is at most
    [2 ^ -1075], half of the least positive [float].  [NaN] and the
    infinities are not zero. *)
Definition float_nonzero (lexeme : pystr) : bool :=
  if startswith (str "NaN") lexeme || startswith (str "Infinity") lexeme
     || startswith (str "-Infinity") lexeme
  then true
  else
    let (m, e) := float_parts lexeme in
    if (0 <=? e)%Z then negb (m =? 0)
    else (10 ^ (- e) <? Z.of_N m * 2 ^ 1075)%Z.

(** Python's truth value of a value *)
Definition truthy (v : json) : bool :=
  match v with
  | JNull => false
  | JBool b => b
  | JInt z => negb (z =? 0)%Z
  | JFloat lexeme => float_nonzero lexeme
  | JStr s => negb (pystr_eqb s [])
  | JList l => match l with [] => false | _ => true end
  | JDict d => match d with [] => false | _ => true end
  end.

Definition is_dict (v : json) : bool :=
  match v with JDict _ => true | _ => false end.

(** [type(v).__name__] *)
Definition type_name (v : json) : pystr :=
  match v with
  | JNull => str "NoneType"
  | JBool _ => str "bool"
  | JInt _ => str "int"
  | JFloat _ => str "float"
  | JStr _ => str "str"
  | JList _ => str "list"
  | JDict _ => str "dict"
  end.

End Json.
Import Json.

(** ** Exceptions *)

Module Exn.

(** The classes of [Exception] that the pipeline raises or catches by
    name; [Other] is any further subclass of [Exception]. *)
Inductive exn_class : Type :=
| ResponseError        (* ollama._types.ResponseError *)
| ConnectionError
| FileNotFoundError
| OSError
| JSONDecodeError
| ValueError
| TypeError
| KeyError
| IndexError
| AttributeError
| Other (name : pystr).

(** An exception instance: its class and [str(e)]. *)
Record exn : Type := Exn { exn_cls : exn_class; exn_str : pystr }.

Inductive outcome (A : Type) : Type :=
| Ret (a : A)
| Raise (e : exn).
Arguments Ret {A} a.
Arguments Raise {A} e.

Definition is_ResponseError (e : exn) : bool :=
  match exn_cls e with ResponseError => true | _ => false end.

Definition is_FileNotFoundError (e : exn) : bool :=
  match exn_cls e with FileNotFoundError => true | _ => false end.

Definition bind {A B : Type} (m : outcome A) (f : A -> outcome B) : outcome B :=
  match m with
  | Ret a => f a
  | Raise e => Raise e
  end.

End Exn.
Import Exn.

Notation "x <- m ;; k" := (bind m (fun x => k))
  (at level 100, m at next level, right associativity).

(** The exception that [json.loads] raises at a limit of the interpreter:
    a plain [ValueError] for the integer, a [RecursionError] for the
    nesting.  Neither is a [json.JSONDecodeError]. *)
Definition limit_exn (l : limit) : exn :=
  match l with
  | IntTooLong digits =>
      Exn ValueError
        (str "Exceeds the limit (4300 digits) for integer string conversion: value has "
         ++ str_of_N (N.of_nat digits)
         ++ str " digits; use sys.set_int_max_str_digits() to increase the limit")
  | TooDeep in_object =>
      Exn (Other (str "RecursionError"))
        (str "maximum recursion depth exceeded while decoding a JSON " ++
         (if in_object then str "object" else str "array") ++
         str " from a unicode string")
  end.

(** ** [IntelligentAgent.handle_json_fields] *)

(** [v.get(key, default)]: only a [dict] has the method. *)
Definition py_get (v : json) (key : pystr) (default : json) : outcome json :=
  match v with
  | JDict d =>
      Ret (match dict_get key d with Some x => x | None => default end)
  | _ =>
      Raise (Exn AttributeError
               ([39] ++ type_name v ++ str "' object has no attribute 'get'"))
  end.

Definition has_json_markers (text : pystr) : bool :=
  contains (str "```json") (lower text) ||
  contains fence text ||
  (contains [lbrace] text && contains key_tool_name text).

(** The three searches for a candidate, in the order of the source: the
    flat object, the body of a fenced block, the looser object. *)
Definition find_candidate (text : pystr) : option pystr :=
  match search json_pattern text with
  | Some json_match => Some (strip (group0 json_match))
  | None =>
      match search code_block_pattern text with
      | Some json_match =>
          Some (strip (match group1 json_match with Some g => g | None => [] end))
      | None =>
          match search flexible_pattern text with
          | Some flexible_match => Some (strip (group0 flexible_match))
          | None => None
          end
      end
  end.

(** The two [re.sub] calls that remove a comma before a closing brace or
    bracket. *)
Definition clean_json_text (json_text : pystr) : pystr :=
  let json_text := sub comma_brace_pattern [rbrace] json_text in
  sub comma_bracket_pattern [rbracket] json_text.

(** The handler of [json.JSONDecodeError]: [tool_name] and, when present,
    [query] are read from [text] by two searches. *)
Definition regex_fallback (text : pystr) : json * json :=
  let tool_match := search tool_pattern text in
  let query_match := search query_pattern text in
  match tool_match with
  | Some tm =>
      let tool_name := match group1 tm with Some g => g | None => [] end in
      let args :=
        match query_match with
        | Some qm =>
            [(str "query", JStr (match group1 qm with Some g => g | None => [] end))]
        | None => []
        end in
      (JStr tool_name, JDict args)
  | None => (JNull, JDict [])
  end.

Definition handle_json_fields (text : pystr) : outcome (json * json) :=
  match find_candidate text with
  | None =>
      if negb (has_json_markers text)
      then Ret (JNull, JDict [])     (* plain text *)
      else Ret (JNull, JDict [])     (* markers, but no JSON structure *)
  | Some json_text =>
      let json_text := clean_json_text json_text in
      match json_loads json_text with
      | Decoded extracted_json =>
          tool_name <- py_get extracted_json (str "tool_name") JNull ;;
          args <- py_get extracted_json (str "args") (JDict []) ;;
          Ret (tool_name, args)
      | NotJson => Ret (regex_fallback text)     (* except json.JSONDecodeError *)
      | Exceeded l => Raise (limit_exn l)        (* not caught here *)
      end
  end.

(** ** State and exceptions: the monad of the effectful code *)

Module SE.

(** A computation over a state [S] that returns or raises; the state
    changes made before a [raise] are kept. *)
Definition SE (S A : Type) : Type := S -> outcome A * S.

Definition ret {S A : Type} (a : A) : SE S A := fun s => (Ret a, s).

Definition raise {S A : Type} (e : exn) : SE S A := fun s => (Raise e, s).

Definition sbind {S A B : Type} (m : SE S A) (f : A -> SE S B) : SE S B :=
  fun s =>
    match m s with
    | (Ret a, s') => f a s'
    | (Raise e, s') => (Raise e, s')
    end.

(** [try: m  except Exception as e: h e] *)
Definition try_except {S A : Type} (m : SE S A) (h : exn -> SE S A) : SE S A :=
  fun s =>
    match m s with
    | (Ret a, s') => (Ret a, s')
    | (Raise e, s') => h e s'
    end.

Definition get {S : Type} : SE S S := fun s => (Ret s, s).
Definition modify {S : Type} (f : S -> S) : SE S unit := fun s => (Ret tt, f s).
Definition lift {S A : Type} (o : outcome A) : SE S A := fun s => (o, s).
Definition when {S : Type} (b : bool) (m : SE S unit) : SE S unit :=
  if b then m else ret tt.

End SE.
Import SE.

Notation "x <~ m ;; k" := (sbind m (fun x => k))
  (at level 100, m at next level, right associativity).
Notation "m ;;; k" := (sbind m (fun _ => k))
  (at level 100, right associativity).

(** ** The world outside the process *)

Module World.

(** A conversation turn, one record of the persisted snapshot. *)
Record turn : Type := Turn { role : pystr; content : pystr }.

(** The memory file [data/memory.json]: its content when it exists, and
    the fault, if any, that opening it for reading (or decoding it) and
    opening it for writing raises.  A write either raises when the file
    is opened, and the file is as it was, or stores the whole history: a
    fault that strikes after the file is opened, while it is being
    written, is not modelled. *)
Record disk : Type := Disk {
  memory_file : option (list turn);
  read_fault : option exn;
  write_fault : option exn
}.

(** What [chat] reads of the runtime's reply: [message.content],
    [eval_count] ([None] when the reply carries a null) and the native
    [message.tool_calls] (function name and arguments). *)
Record chat_response : Type := ChatResponse {
  message_content : pystr;
  eval_count : option Z;
  tool_calls : list (pystr * json)
}.

(** A part of a tool result, as far as [handle_tool_call] inspects it. *)
Record content_item : Type := ContentItem {
  ci_type : option pystr;      (* the attribute [type], when there is one *)
  ci_text : option pystr;      (* the attribute [text], when there is one *)
  ci_uri : option pystr;       (* the attribute [uri], when there is one *)
  ci_class : pystr;            (* [type(item).__name__] *)
  ci_str : pystr               (* [str(item)] *)
}.

(** The object returned by [call_tool]. *)
Record tool_result : Type := ToolResult {
  tr_content : option (list content_item);   (* the attribute [content] *)
  tr_structured : option json;               (* [structuredContent] *)
  tr_str : pystr                             (* [str(result)] *)
}.

(** The calls that leave the process, in order. *)
Inductive event : Type :=
| EvProbe (model : pystr)
| EvChat (model : pystr) (messages : list turn)
| EvGenerate (model prompt system : pystr)
| EvCallTool (tool_name args : json)
| EvReadMemory
| EvWriteMemory (h : list turn).

Record world : Type := World { w_disk : disk; w_trace : list event }.

(** The external collaborators and the literal texts of [agent.py]:
    - [ollama_probe]: the synthetic tool-enabled request of the probe;
    - [ollama_chat], [ollama_generate]: [Client.chat] and [Client.generate];
    - [mcp_call_tool]: [ClientSession.call_tool] ([None] is a possible
      return value);
    - [str_other]: [str(v)] for a value [v] that is not a [str];
    - the three system instructions ([text_instruction] takes
      [list_of_tools]).  No property depends on their wording. *)
Record env : Type := Env {
  ollama_probe : pystr -> outcome unit;
  ollama_chat : pystr -> list turn -> outcome chat_response;
  ollama_generate : pystr -> pystr -> pystr -> outcome pystr;
  mcp_call_tool : json -> json -> outcome (option tool_result);
  str_other : json -> pystr;
  native_instruction : pystr;
  text_instruction : pystr -> pystr;
  formatter_instruction : pystr
}.

End World.
Import World.

(** ** Python list slices *)

(** [l[start:]] *)
Definition slice_from {A : Type} (start : Z) (l : list A) : list A :=
  let n := Z.of_nat (length l) in
  let i := if (start <? 0)%Z then Z.max (n + start) 0 else Z.min start n in
  drop (Z.to_nat i) l.

(** ** [AIModel] *)

Module AIModel.

(** The fields of the object that the pipeline reads or writes.  The
    sampling parameters are stored by [__init__] and never sent; the tool
    list is always empty in the pipeline. *)
Record t : Type := Make {
  model_name : pystr;
  system_instruction : pystr;
  max_history_length : Z;
  history : list turn
}.

Definition set_history (h : list turn) (m : t) : t :=
  Make (model_name m) (system_instruction m) (max_history_length m) h.

(** The state of a method: [self] and the world. *)
Definition st : Type := t * world.

Definition self_history : SE st (list turn) := fun s => (Ret (history (fst s)), s).
Definition assign_history (h : list turn) : SE st unit :=
  modify (fun s : st => (set_history h (fst s), snd s)).

Definition emit_ev (ev : event) : SE st unit :=
  modify (fun s : st => (fst s, World (w_disk (snd s)) (w_trace (snd s) ++ [ev]))).

Definition file_not_found : exn :=
  Exn FileNotFoundError (str "[Errno 2] No such file or directory: 'data/memory.json'").

(** [with open(self.memory_file, 'r') as f: json.load(f)] *)
Definition read_memory : SE st (list turn) :=
  emit_ev EvReadMemory ;;;
  fun s =>
    match read_fault (w_disk (snd s)) with
    | Some e => (Raise e, s)
    | None =>
        match memory_file (w_disk (snd s)) with
        | Some h => (Ret h, s)
        | None => (Raise file_not_found, s)
        end
    end.

(** [with open(self.memory_file, 'w') as f: json.dump(h, f, indent=2)] *)
Definition write_memory (h : list turn) : SE st unit :=
  emit_ev (EvWriteMemory h) ;;;
  fun s =>
    let d := w_disk (snd s) in
    match write_fault d with
    | Some e => (Raise e, s)
    | None =>
        (Ret tt, (fst s, World (Disk (Some h) (read_fault d) (write_fault d))
                               (w_trace (snd s))))
    end.

Definition size_of_memory (h : list turn) : Z := Z.of_nat (length h).

(** The truncation of [load_memory]: [self.history[-self.max_history_length:]] *)
Definition truncate_on_load (max_len : Z) (h : list turn) : list turn :=
  if (size_of_memory h >? max_len)%Z then slice_from (- max_len) h else h.

Definition load_memory : SE st bool :=
  try_except
    (h <~ read_memory ;;
     assign_history h ;;;
     m <~ get ;;
     let max_len := max_history_length (fst m) in
     if (size_of_memory h >? max_len)%Z then
       assign_history (slice_from (- max_len) h) ;;;
       h' <~ self_history ;;
       write_memory h' ;;;
       ret true
     else ret true)
    (fun e =>
       if is_FileNotFoundError e then
         (* create a new empty memory file *)
         assign_history [] ;;;
         write_memory [] ;;;
         ret true
       else
         (* except Exception: return False *)
         ret false).

(** [AIModel(model_name=..., system_instruction=...)]: [__init__] starts
    with an empty history and ends with [self.load_memory()], whose result
    it ignores; [max_history_length] defaults to 15.  The data directory
    is taken to exist. *)
Definition init (name instruction : pystr) (max_len : Z) : SE world t :=
  fun w =>
    match load_memory (Make name instruction max_len [], w) with
    | (Ret _, (m, w')) => (Ret m, w')
    | (Raise e, (_, w')) => (Raise e, w')
    end.

Definition default_max_history_length : Z := 15.

(** [self.history[-1] = t] *)
Definition set_last (x : turn) (h : list turn) : outcome (list turn) :=
  match h with
  | [] => Raise (Exn IndexError (str "list assignment index out of range"))
  | _ :: _ => Ret (take (length h - 1) h ++ [x])
  end.

(** [self.history[1]['content'] = c], under the guard [len(self.history) > 1] *)
Definition set_content_1 (c : pystr) (h : list turn) : list turn :=
  if (1 <? length h)%nat then alter (fun x => Turn (role x) c) 1%nat h else h.

Definition has_system_role (h : list turn) : bool :=
  existsb (fun msg => pystr_eqb (role msg) (str "system")) h.

(** [history.insert(0, system turn)] when no turn has the role [system] *)
Definition ensure_system (instruction : pystr) (h : list turn) : list turn :=
  if has_system_role h then h else Turn (str "system") instruction :: h.

(** The truncation of [chat]:
    [[self.history[0]] + self.history[-(self.max_history_length-1):]] *)
Definition truncate_after_append (max_len : Z) (h : list turn) : outcome (list turn) :=
  if (size_of_memory h >? max_len)%Z then
    match h with
    | [] => Raise (Exn IndexError (str "list index out of range"))
    | h0 :: _ => Ret ([h0] ++ slice_from (- (max_len - 1)) h)
    end
  else Ret h.

(** [str(self.no_of_tokens)] *)
Definition str_of_count (c : option Z) : pystr :=
  match c with
  | Some z => str_of_Z z
  | None => str "None"
  end.

Definition chat_failure : pystr := str "Error: Failed to get response from model".

Definition chat (E : env) (message : pystr) (isCallTool : bool) : SE st pystr :=
  if pystr_eqb message [] then
    raise (Exn ValueError (str "Messages string cannot be empty."))
  else
    when isCallTool
      (h <~ self_history ;;
       h' <~ lift (set_last (Turn (str "assistant") message) h) ;;
       assign_history h') ;;;
    (* Load latest memory state *)
    load_memory ;;;
    (* Check if system role exists in history, if not add it *)
    s <~ get ;;
    assign_history (ensure_system (system_instruction (fst s)) (history (fst s))) ;;;
    (* Append user message to history *)
    h <~ self_history ;;
    assign_history (h ++ [Turn (str "user") message]) ;;;
    messages <~ self_history ;;
    emit_ev (EvChat (model_name (fst s)) messages) ;;;
    response <~ lift (ollama_chat E (model_name (fst s)) messages) ;;
    try_except
      (let assistant_message := message_content response in
       let no_of_tokens := eval_count response in
       h <~ self_history ;;
       assign_history (set_content_1 (str_of_count no_of_tokens) h) ;;;
       (* Append assistant response to history *)
       h <~ self_history ;;
       assign_history (h ++ [Turn (str "assistant") assistant_message]) ;;;
       (* Check if history exceeds max length and truncate if needed *)
       h <~ self_history ;;
       h' <~ lift (truncate_after_append (max_history_length (fst s)) h) ;;
       assign_history h' ;;;
       (* Save updated history to memory *)
       write_memory h' ;;;
       ret assistant_message)
      (fun _ => ret chat_failure).

(** [generate_response]: one call without memory. *)
Definition generate_response (E : env) (prompt : pystr) : SE st pystr :=
  s <~ get ;;
  emit_ev (EvGenerate (model_name (fst s)) prompt (system_instruction (fst s))) ;;;
  lift (ollama_generate E (model_name (fst s)) prompt (system_instruction (fst s))).

(** The static method [function_call_avaliablity]. *)
Definition function_call_avaliablity (E : env) (model : pystr) : SE world bool :=
  modify (fun w => World (w_disk w) (w_trace w ++ [EvProbe model])) ;;;
  try_except
    (lift (ollama_probe E model) ;;; ret true)
    (fun e => if is_ResponseError e then ret false else raise e).

(** Run a method on an object held in a local variable. *)
Definition call {A : Type} (m : t) (method : SE st A) : SE world (A * t) :=
  fun w =>
    match method (m, w) with
    | (Ret a, (m', w')) => (Ret (a, m'), w')
    | (Raise e, (_, w')) => (Raise e, w')
    end.

End AIModel.

(** ** [IntelligentAgent] *)

Module Agent.

Record t : Type := Make {
  Big_model : pystr;
  Small_model : pystr;
  list_of_tools : pystr
}.

Definition emit_ev (ev : event) : SE world unit :=
  modify (fun w => World (w_disk w) (w_trace w ++ [ev])).

Definition invalid_call : pystr := str "Invalid tool name or arguments.".
Definition no_signal : pystr := str "🚫 No relevant results from tool call.".
Definition empty_looking : list pystr := [str "[]"; str "No results"; []].

Definition in_list (x : pystr) (l : list pystr) : bool := existsb (pystr_eqb x) l.

Definition resource_text (item : content_item) : pystr :=
  str "[Resource: " ++
  (match ci_uri item with Some u => u | None => str "Unknown" end) ++ str "]".

(** [getattr(content_item, 'text', str(content_item))] *)
Definition text_or_str (item : content_item) : pystr :=
  match ci_text item with Some x => x | None => ci_str item end.

(** One pass of the loop over [result.content]: the text appended to
    [text_parts] for an item. *)
Definition render_item (item : content_item) : pystr :=
  match ci_type item with
  | Some ty =>
      if pystr_eqb ty (str "text") then text_or_str item
      else if pystr_eqb ty (str "image") then str "[Image content]"
      else if pystr_eqb ty (str "audio") then str "[Audio content]"
      else if pystr_eqb ty (str "resource") then resource_text item
      else ci_str item
  | None =>
      let content_type_name := ci_class item in
      if pystr_eqb content_type_name (str "TextContent") then text_or_str item
      else if contains (str "Image") content_type_name then str "[Image content]"
      else if contains (str "Audio") content_type_name then str "[Audio content]"
      else if contains (str "Resource") content_type_name then resource_text item
      else ci_str item
  end.

Definition extracted_text_of (items : list content_item) : pystr :=
  let text_parts := map render_item items in
  match text_parts with
  | [] => str "No text content found"
  | _ :: _ => join [newline] text_parts
  end.

(** The last resort of the normalization: [str(result)], unless it looks
    empty. *)
Definition last_resort (result : tool_result) : json :=
  let result_str := tr_str result in
  if negb (in_list result_str empty_looking) then JStr result_str
  else JStr no_signal.

(** The normalization of a channel result (everything after the call). *)
Definition normalize (result : option tool_result) : json :=
  match result with
  | None => JStr no_signal
  | Some result =>
      match tr_content result with
      | Some (item :: items) =>
          let extracted_text := extracted_text_of (item :: items) in
          if negb (pystr_eqb extracted_text []) &&
             negb (in_list extracted_text empty_looking)
          then JStr extracted_text
          else last_resort result
      | _ =>
          match tr_structured result with
          | Some structured =>
              if truthy structured then
                match structured with
                | JDict d =>
                    match dict_get (str "result") d with
                    | Some r => r
                    | None => last_resort result
                    end
                | _ => last_resort result
                end
              else last_resort result
          | None => last_resort result
          end
      end
  end.

Definition handle_tool_call (E : env) (tool_name args : json) : SE world json :=
  if negb (truthy tool_name) || negb (is_dict args) then
    ret (JStr invalid_call)
  else
    emit_ev (EvCallTool tool_name args) ;;;
    result <~ lift (mcp_call_tool E tool_name args) ;;
    ret (normalize result).

(** The [TypeError] of [tool_response + f"..."] when [tool_response] is
    not a [str]. *)
Definition concat_type_error (v : json) : exn :=
  match v with
  | JList _ => Exn TypeError (qstr "can only concatenate list (not 'str') to list")
  | _ =>
      Exn TypeError
        (str "unsupported operand type(s) for +: '" ++ type_name v ++ str "' and 'str'")
  end.

Definition no_model : pystr := str "No model specified for processing tool response.".

(** The second pass.  The prompt sent to the small model is
    [tool_response] itself; [processed_prompt] is built and only shown in
    debug mode. *)
Definition small_model_handle_tool_response (E : env) (self : t)
    (tool_response : json) (model userprompt : pystr) : SE world pystr :=
  let model := if negb (pystr_eqb model []) then model else Small_model self in
  if pystr_eqb model [] then ret no_model
  else
    match tool_response with
    | JStr text =>
        let processed_prompt :=
          text ++ [newline; newline] ++ str " User Prompt: " ++ userprompt in
        aimodel <~ AIModel.init model (formatter_instruction E)
                     AIModel.default_max_history_length ;;
        r <~ AIModel.call aimodel (AIModel.generate_response E text) ;;
        ret (fst r)
    | v => raise (concat_type_error v)
    end.

Definition tool_tag : pystr := str "🔍 **Tool Call Result:**" ++ [newline; newline].
Definition direct_tag : pystr := str "💭 **Direct Response:**" ++ [newline; newline].
Definition error_tag : pystr := str "❌ **Error processing query:** ".

(** [str(v)] inside an f-string *)
Definition py_str (E : env) (v : json) : pystr :=
  match v with
  | JStr x => x
  | _ => str_other E v
  end.

(** [v[key]] *)
Definition py_index (v : json) (key : pystr) : outcome json :=
  match v with
  | JDict d =>
      match dict_get key d with
      | Some x => Ret x
      | None => Raise (Exn KeyError ([39] ++ key ++ [39]))
      end
  | JStr _ => Raise (Exn TypeError (str "string indices must be integers, not 'str'"))
  | JList _ => Raise (Exn TypeError (str "list indices must be integers or slices, not str"))
  | _ => Raise (Exn TypeError ([39] ++ type_name v ++ str "' object is not subscriptable"))
  end.

(** [for tool in calltools]: the items that the loop visits. *)
Definition py_iter (v : json) : outcome (list json) :=
  match v with
  | JList l => Ret l
  | JDict d => Ret (map (fun kv => JStr (fst kv)) d)
  | JStr x => Ret (map (fun c => JStr [c]) x)
  | _ => Raise (Exn TypeError ([39] ++ type_name v ++ str "' object is not iterable"))
  end.

(** The loop over the native tool calls: each call is dispatched, the
    result of the last one is kept. *)
Fixpoint dispatch_all (E : env) (tools : list json) (tools_result : json) : SE world json :=
  match tools with
  | [] => ret tools_result
  | tool :: rest =>
      fn <~ lift (py_index tool (str "function")) ;;
      name <~ lift (py_index fn (str "name")) ;;
      fn' <~ lift (py_index tool (str "function")) ;;
      arguments <~ lift (py_index fn' (str "arguments")) ;;
      r <~ handle_tool_call E name arguments ;;
      dispatch_all E rest r
  end.

(** [response_data.get('message', {}).get('content', default)] *)
Definition message_content_of (response_data default : json) : outcome json :=
  message <- py_get response_data (str "message") (JDict []) ;;
  py_get message (str "content") default.

(** The common tail of both branches: extraction from the content, then
    either dispatch and second pass, or the direct answer. *)
Definition extract_and_answer (E : env) (self : t) (user_query : pystr)
    (actual_content : json) : SE world pystr :=
  extracted_json <~
    lift (match actual_content with
          | JStr text => handle_json_fields text
          | v => Raise (Exn TypeError
                          (str "expected string or bytes-like object, got '" ++
                           type_name v ++ [39]))
          end) ;;
  match fst extracted_json with
  | JNull =>
      (* Return the direct AI response if no tool call is needed *)
      ret (direct_tag ++ py_str E actual_content)
  | tool_name =>
      let args := snd extracted_json in
      tool_result <~ handle_tool_call E tool_name args ;;
      (* Process the tool result with the small model *)
      tool_result <~ small_model_handle_tool_response E self tool_result
                       (Small_model self) user_query ;;
      ret (tool_tag ++ tool_result)
  end.

(** The content read from a reply that is a [str]: the reply is tried as
    JSON; without success it is the content itself. *)
Definition content_of_text (text : pystr) : outcome json :=
  match json_loads text with
  | Decoded response_data => message_content_of response_data (JStr text)
  | NotJson => Ret (JStr text)            (* except json.JSONDecodeError *)
  | Exceeded l => Raise (limit_exn l)     (* not caught here *)
  end.

(** What the source does with the value returned by [chat]: a [dict] is
    read directly (and, on the native path, its [tool_calls] are
    dispatched); a [str] is first tried as JSON. *)
Definition interpret_response (E : env) (self : t) (native : bool)
    (user_query : pystr) (aimodel_response : json) : SE world pystr :=
  match aimodel_response with
  | JDict _ =>
      actual_content <~ lift (message_content_of aimodel_response (JStr [])) ;;
      if native then
        (* Check for native function calls first *)
        calltools <~ lift (message <- py_get aimodel_response (str "message") (JDict []) ;;
                           py_get message (str "tool_calls") (JList [])) ;;
        if truthy calltools then
          tools <~ lift (py_iter calltools) ;;
          match tools with
          | [] => raise (Exn (Other (str "UnboundLocalError"))
                           (str "cannot access local variable 'tools_result' where it is not associated with a value"))
          | _ :: _ =>
              tools_result <~ dispatch_all E tools JNull ;;
              ret (tool_tag ++ py_str E tools_result)
          end
        else extract_and_answer E self user_query actual_content
      else extract_and_answer E self user_query actual_content
  | JStr text =>
      (* If it's a string, try to parse it *)
      actual_content <~ lift (content_of_text text) ;;
      extract_and_answer E self user_query actual_content
  | v =>
      raise (Exn TypeError
               (str "the JSON object must be str, bytes or bytearray, not " ++ type_name v))
  end.

(** One branch of [handle_user_query]: a fresh [AIModel] with the
    instruction of the branch, one [chat], and the interpretation of its
    reply.  [chat] returns a [str]. *)
Definition run_branch (E : env) (self : t) (native : bool) (instruction : pystr)
    (user_query : pystr) : SE world pystr :=
  aimodel <~ AIModel.init (Big_model self) instruction
               AIModel.default_max_history_length ;;
  r <~ AIModel.call aimodel (AIModel.chat E user_query false) ;;
  let aimodel_response := JStr (fst r) in
  interpret_response E self native user_query aimodel_response.

(** The body of the [try] of [handle_user_query]: the probe selects the
    branch. *)
Definition handle_user_query_body (E : env) (self : t) (user_query : pystr)
    : SE world pystr :=
  native <~ AIModel.function_call_avaliablity E (Big_model self) ;;
  if native then
    run_branch E self true (native_instruction E) user_query
  else
    (* fallback path *)
    run_branch E self false (text_instruction E (list_of_tools self)) user_query.

(** [handle_user_query]: the body under [except Exception as e]. *)
Definition handle_user_query (E : env) (self : t) (user_query : pystr)
    : SE world pystr :=
  try_except (handle_user_query_body E self user_query)
    (fun e => ret (error_tag ++ exn_str e)).

(** The probe does not stop the query: it succeeds or fails with a
    [ResponseError]. *)
Definition probe_passes (E : env) (self : t) : Prop :=
  forall e, ollama_probe E (Big_model self) = Raise e -> is_ResponseError e = true.

End Agent.

(** ** The wire shape of a tool call *)

Module Wire.

(** Modelled from the spec: the free-text wire shape of an invocation,
    an object with the key [tool_name] and the key [args] holding a flat
    object.  The source has no renderer; this one writes what
    [json.dumps(..., ensure_ascii=False)] writes for such an object
    (separators comma-space and colon-space; quotes, backslashes and
    control characters escaped). *)
Record invocation : Type := Invocation {
  inv_name : pystr;
  inv_args : list (pystr * json)
}.

Definition hex_digit (d : N) : N := if d <? 10 then 48 + d else 87 + d.

Definition escape_char (c : N) : pystr :=
  if c =? 34 then [92; 34]
  else if c =? 92 then [92; 92]
  else if c =? 10 then [92; 110]
  else if c =? 13 then [92; 114]
  else if c =? 9 then [92; 116]
  else if c =? 8 then [92; 98]
  else if c =? 12 then [92; 102]
  else if c <? 32 then [92; 117; 48; 48; hex_digit (c / 16); hex_digit (c mod 16)]
  else [c].

Definition render_string (x : pystr) : pystr :=
  [dquote] ++ concat (map escape_char x) ++ [dquote].

(** A flat value: no nested object or array. *)
Definition flat_value (v : json) : bool :=
  match v with
  | JList _ | JDict _ => false
  | _ => true
  end.

Definition render_scalar (v : json) : pystr :=
  match v with
  | JNull => str "null"
  | JBool true => str "true"
  | JBool false => str "false"
  | JInt z => str_of_Z z
  | JFloat lexeme => lexeme
  | JStr x => render_string x
  | JList _ | JDict _ => []
  end.

Definition render_member (kv : pystr * json) : pystr :=
  render_string (fst kv) ++ str ": " ++ render_scalar (snd kv).

Definition render_args (args : list (pystr * json)) : pystr :=
  [lbrace] ++ join (str ", ") (map render_member args) ++ [rbrace].

Definition render (inv : invocation) : pystr :=
  [lbrace] ++ key_tool_name ++ str ": " ++ render_string (inv_name inv) ++
  str ", " ++ render_string (str "args") ++ str ": " ++ render_args (inv_args inv) ++
  [rbrace].

Definition flat (inv : invocation) : bool :=
  forallb (fun kv => flat_value (snd kv)) (inv_args inv).

(** The result that the round trip promises. *)
Definition extracted (inv : invocation) : outcome (json * json) :=
  Ret (JStr (inv_name inv), JDict (inv_args inv)).

End Wire.

(** ** The specification's reading of the turn sequence *)

Module TurnLog.

(** Append-only except for truncation, as the specification words it: the
    turns after a successful [chat] are turns that were stored before, the
    system turn put in front when absent, and the two new turns at the
    end, in this order and with some turns discarded. *)
Definition append_only_except_truncation
    (instruction : pystr) (stored : list turn) (user assistant : turn)
    (after : list turn) : Prop :=
  sublist after (AIModel.ensure_system instruction stored ++ [user; assistant]).

(** Two sequences that differ at most in the content of the turn at
    index 1. *)
Definition same_but_content_1 (a b : list turn) : Prop :=
  length b = length a /\
  (forall i : nat, i <> 1%nat -> b !! i = a !! i) /\
  (role <$> b) = (role <$> a).

End TurnLog.

(** ** Concrete runs *)

Module Scenario.

(** A world whose runtime supports tools and answers every chat with
    [reply], whose small model answers [formatted], and whose channel
    answers every call with [tool]. *)
Definition runtime (reply : chat_response) (tool : outcome (option tool_result))
    (formatted : pystr) : env :=
  Env (fun _ => Ret tt)
      (fun _ _ => Ret reply)
      (fun _ _ _ => Ret formatted)
      (fun _ _ => tool)
      (fun _ => str "<value>")
      (str "<native instruction>")
      (fun tools => str "<text instruction> " ++ tools)
      (str "<formatter instruction>").

Definition agent : Agent.t :=
  Agent.Make (str "gemma3:12b") (str "gemma3:1b") (str "1. google_search(query)").

Definition big_model : AIModel.t :=
  AIModel.Make (str "gemma3:12b") (str "Be brief.") AIModel.default_max_history_length [].

Definition stored : list turn :=
  [Turn (str "system") (str "Be brief."); Turn (str "user") (str "hello")].

Definition text_result (text : pystr) : tool_result :=
  ToolResult
    (Some [ContentItem (Some (str "text")) (Some text) None (str "TextContent")
             (str "type='text' text='" ++ text ++ str "'")])
    None
    (str "meta=None content=[TextContent(type='text', text='" ++ text ++
     str "')] structuredContent=None isError=False").

Definition disk_full : exn := Exn OSError (str "[Errno 28] No space left on device").
Definition corrupt : exn :=
  Exn JSONDecodeError (str "Expecting value: line 1 column 1 (char 0)").
Definition unreachable : exn := Exn ConnectionError (str "Failed to connect to Ollama.").

(** The client raises [ResponseError] for every error reply of the
    runtime, with the text and the status of the reply: here the reply to
    a request that names a model that is not installed, and the reply to
    a tool-enabled request for a model without tool support. *)
Definition model_not_found : exn :=
  Exn ResponseError (str "model 'gemma3:12b' not found (status code: 404)").
Definition tools_unsupported : exn :=
  Exn ResponseError
    (str "registry.ollama.ai/library/gemma3:12b does not support tools (status code: 400)").
Definition channel_closed : exn := Exn (Other (str "McpError")) (str "Connection closed").

End Scenario.

(** ** Clearing the memory: [AIModel.clear_memory] and [MemoryManager] *)

Module Clearing.

(** The turns that a clear keeps: the roles [system] and [token_count]. *)
Definition kept_role (msg : turn) : bool :=
  pystr_eqb (role msg) (str "system") || pystr_eqb (role msg) (str "token_count").

(** [message['content'] = "0"] for a turn of role [token_count] *)
Definition reset_count (msg : turn) : turn :=
  if pystr_eqb (role msg) (str "token_count") then Turn (role msg) (str "0") else msg.

(** The loop of both [clear_memory] functions. *)
Fixpoint cleared (history : list turn) : list turn :=
  match history with
  | [] => []
  | message :: rest =>
      if kept_role message then reset_count message :: cleared rest
      else cleared rest
  end.

(** [AIModel.clear_memory]: the history is filtered, then written; the
    write is not guarded. *)
Definition clear_memory : SE AIModel.st unit :=
  h <~ AIModel.self_history ;;
  AIModel.assign_history (cleared h) ;;;
  h' <~ AIModel.self_history ;;
  AIModel.write_memory h'.

End Clearing.

(** [MemoryManager] works on a memory file of its own (see [Paths]
    below): in this module the disk of the world is that file. *)
Module MemoryManager.

Definition emit_ev (ev : event) : SE world unit :=
  modify (fun w => World (w_disk w) (w_trace w ++ [ev])).

(** [with open(self.memory_file, 'r') as f: history = json.load(f)] *)
Definition read_file : SE world (list turn) :=
  emit_ev EvReadMemory ;;;
  fun w =>
    match read_fault (w_disk w) with
    | Some e => (Raise e, w)
    | None =>
        match memory_file (w_disk w) with
        | Some h => (Ret h, w)
        | None => (Raise AIModel.file_not_found, w)
        end
    end.

(** [with open(self.memory_file, 'w') as f: json.dump(history, f, indent=2)] *)
Definition write_file (h : list turn) : SE world unit :=
  emit_ev (EvWriteMemory h) ;;;
  fun w =>
    let d := w_disk w in
    match write_fault d with
    | Some e => (Raise e, w)
    | None => (Ret tt, World (Disk (Some h) (read_fault d) (write_fault d)) (w_trace w))
    end.

Definition clear_memory (keep_system_prompt : bool) : SE world bool :=
  try_except
    (history <~ read_file ;;
     let history :=
       if keep_system_prompt then Clearing.cleared history else [] in
     write_file history ;;;
     ret true)
    (fun e =>
       if is_FileNotFoundError e then
         (* No memory file found - creating empty memory *)
         write_file [] ;;;
         ret true
       else ret false).

(** The dictionary returned by [get_memory_stats]. *)
Record stats : Type := Stats {
  total_messages : nat;
  user_messages : nat;
  assistant_messages : nat;
  system_messages : nat
}.

Definition count_role (r : pystr) (history : list turn) : nat :=
  length (List.filter (fun m => pystr_eqb (role m) r) history).

(** [get_memory_stats]: [None] is the empty dictionary returned when the
    file is missing or unreadable. *)
Definition get_memory_stats : SE world (option stats) :=
  try_except
    (history <~ read_file ;;
     ret (Some (Stats (length history)
                  (count_role (str "user") history)
                  (count_role (str "assistant") history)
                  (count_role (str "system") history))))
    (fun _ => ret None).

End MemoryManager.

(** ** [ModelConfigLoader] and the configuration of the agent *)

Module Config.

Definition is_KeyError (e : exn) : bool :=
  match exn_cls e with KeyError => true | _ => false end.

Definition params (temperature : pystr) (max_tokens : Z) : json :=
  JDict [(str "temperature", JFloat temperature); (str "max_tokens", JInt max_tokens)].

(** [ModelConfigLoader._get_fallback_config] *)
Definition _get_fallback_config : json :=
  JDict
    [(str "models",
      JDict [(str "big",
              JDict [(str "name", JStr (str "gemma3:12b"));
                     (str "parameters", params (str "0.1") 1000)]);
             (str "small",
              JDict [(str "name", JStr (str "gemma3:1b"));
                     (str "parameters", params (str "0.1") 500)])]);
     (str "settings",
      JDict [(str "default_big_model", JStr (str "gemma3:12b"));
             (str "default_small_model", JStr (str "gemma3:1b"));
             (str "fallback_model", JStr (str "gemma3:1b"))])].

(** [ModelConfigLoader._load_config]: [file] is the outcome of opening
    and reading the configuration file.  A missing file and a text that
    is not JSON give the fallback configuration; any other failure
    propagates. *)
Definition _load_config (file : outcome pystr) : outcome json :=
  match file with
  | Ret text =>
      match json_loads text with
      | Decoded config => Ret config
      | NotJson => Ret _get_fallback_config
      | Exceeded l => Raise (limit_exn l)
      end
  | Raise e => if is_FileNotFoundError e then Ret _get_fallback_config else Raise e
  end.

(** [try: body  except KeyError: handler] *)
Definition except_KeyError {A : Type} (body handler : outcome A) : outcome A :=
  match body with
  | Ret a => Ret a
  | Raise e => if is_KeyError e then handler else Raise e
  end.

(** [self.config['models'][model_type]] *)
Definition model_entry (config : json) (model_type : pystr) : outcome json :=
  models <- Agent.py_index config (str "models") ;;
  Agent.py_index models model_type.

Definition get_model_name (config : json) (model_type : pystr) : outcome json :=
  except_KeyError
    (entry <- model_entry config model_type ;; Agent.py_index entry (str "name"))
    (settings <- Agent.py_index config (str "settings") ;;
     Agent.py_index settings (str "fallback_model")).

Definition get_model_parameters (config : json) (model_type : pystr) : outcome json :=
  except_KeyError
    (entry <- model_entry config model_type ;; Agent.py_index entry (str "parameters"))
    (Ret (params (str "0.1") 500)).

Definition get_model_use_cases (config : json) (model_type : pystr) : outcome json :=
  except_KeyError
    (entry <- model_entry config model_type ;; py_get entry (str "use_cases") (JList []))
    (Ret (JList [])).

Definition get_default_models (config : json) : outcome json :=
  settings <- py_get config (str "settings") (JDict []) ;;
  big <- py_get settings (str "default_big_model") (JStr (str "gemma3:12b")) ;;
  small <- py_get settings (str "default_small_model") (JStr (str "gemma3:1b")) ;;
  fallback <- py_get settings (str "fallback_model") (JStr (str "gemma3:1b")) ;;
  Ret (JDict [(str "big", big); (str "small", small); (str "fallback", fallback)]).

(** The fallback of [IntelligentAgent._load_model_config]. *)
Definition agent_fallback_config : json :=
  JDict
    [(str "models",
      JDict [(str "big", JDict [(str "parameters", params (str "0.1") 1000)]);
             (str "small", JDict [(str "parameters", params (str "0.1") 500)])]);
     (str "settings",
      JDict [(str "default_big_model", JStr (str "gemma3:12b"));
             (str "default_small_model", JStr (str "gemma3:1b"))])].

(** [IntelligentAgent._load_model_config]: only a missing file gives the
    fallback; a text that is not JSON raises [json.JSONDecodeError], whose
    message is [decode_message]. *)
Definition _load_model_config (decode_message : pystr) (file : outcome pystr)
    : outcome json :=
  match file with
  | Ret text =>
      match json_loads text with
      | Decoded config => Ret config
      | NotJson => Raise (Exn JSONDecodeError decode_message)
      | Exceeded l => Raise (limit_exn l)
      end
  | Raise e => if is_FileNotFoundError e then Ret agent_fallback_config else Raise e
  end.

(** [a or b], where [b] is evaluated only when [a] is falsy. *)
Definition or_else (a : json) (b : outcome json) : outcome json :=
  if truthy a then Ret a else b.

(** The attributes set by [IntelligentAgent.__init__]. *)
Record agent_object : Type := AgentObject {
  ao_Big_model : json;
  ao_Small_model : json;
  ao_list_of_tools : json;
  ao_avaliable_functions : json;
  ao_big_model_params : json;
  ao_small_model_params : json
}.

(** [IntelligentAgent.__init__] *)
Definition agent_init (decode_message : pystr) (file : outcome pystr)
    (Big_model Small_model : json)
    (avaliable_functions list_of_tools : json) : outcome agent_object :=
  model_config <- _load_model_config decode_message file ;;
  big <- or_else Big_model
           (settings <- Agent.py_index model_config (str "settings") ;;
            Agent.py_index settings (str "default_big_model")) ;;
  small <- or_else Small_model
             (settings <- Agent.py_index model_config (str "settings") ;;
              Agent.py_index settings (str "default_small_model")) ;;
  big_params <- (entry <- model_entry model_config (str "big") ;;
                 Agent.py_index entry (str "parameters")) ;;
  small_params <- (entry <- model_entry model_config (str "small") ;;
                   Agent.py_index entry (str "parameters")) ;;
  Ret (AgentObject big small list_of_tools avaliable_functions big_params small_params).

End Config.

(** ** [run_intelligent_agent]: the tool definitions *)

Module Discovery.

(** A tool as the channel lists it: [inputSchema] is a dictionary. *)
Record mcp_tool : Type := McpTool {
  t_name : pystr;
  t_description : option pystr;
  t_inputSchema : list (pystr * json)
}.

(** [v.items()] *)
Definition py_items (v : json) : outcome (list (pystr * json)) :=
  match v with
  | JDict d => Ret d
  | _ =>
      Raise (Exn AttributeError
               ([39] ++ type_name v ++ str "' object has no attribute 'items'"))
  end.

(** [x in container] for a [str] [x] *)
Definition py_contains (container : json) (x : pystr) : outcome bool :=
  match container with
  | JList l =>
      Ret (existsb (fun v => match v with JStr y => pystr_eqb x y | _ => false end) l)
  | JDict d => Ret (match dict_get x d with Some _ => true | None => false end)
  | JStr s => Ret (contains x s)
  | v =>
      Raise (Exn TypeError
               (str "argument of type '" ++ type_name v ++ str "' is not iterable"))
  end.

(** The loop over the properties of a schema: each argument gets its type
    (default [string]) and description; it is listed as required when the
    schema has the key [required] and names it there. *)
Fixpoint arguments_loop (schema : list (pystr * json)) (items : list (pystr * json))
    (properties : list (pystr * json)) (required_args : list json)
    : outcome (list (pystr * json) * list json) :=
  match items with
  | [] => Ret (properties, required_args)
  | (arg_name, arg_info) :: rest =>
      ty <- py_get arg_info (str "type") (JStr (str "string")) ;;
      description <- py_get arg_info (str "description") (JStr []) ;;
      let properties :=
        dict_set arg_name
          (JDict [(str "type", ty); (str "description", description)]) properties in
      is_required <-
        match dict_get (str "required") schema with
        | Some required => py_contains required arg_name
        | None => Ret false
        end ;;
      arguments_loop schema rest properties
        (if is_required then required_args ++ [JStr arg_name] else required_args)
  end.

Definition description_value (tool : mcp_tool) : json :=
  match t_description tool with Some d => JStr d | None => JNull end.

(** The entry of [tool_defs] for a tool. *)
Definition tool_definition (tool : mcp_tool) : outcome json :=
  let schema := t_inputSchema tool in
  pr <-
    match schema, dict_get (str "properties") schema with
    | _ :: _, Some props =>
        items <- py_items props ;;
        arguments_loop schema items [] []
    | _, _ => Ret ([], [])
    end ;;
  let parameters :=
    [(str "type", JStr (str "object")); (str "properties", JDict (fst pr))] ++
    match snd pr with
    | [] => []
    | _ :: _ => [(str "required", JList (snd pr))]
    end in
  Ret (JDict [(str "type", JStr (str "function"));
              (str "function",
               JDict [(str "name", JStr (t_name tool));
                      (str "description", description_value tool);
                      (str "parameters", JDict parameters)])]).

(** The texts [name (type)] of the arguments of a tool. *)
Fixpoint argument_texts (E : env) (items : list (pystr * json)) : outcome (list pystr) :=
  match items with
  | [] => Ret []
  | (arg_name, arg_info) :: rest =>
      ty <- py_get arg_info (str "type") (JStr (str "unknown")) ;;
      texts <- argument_texts E rest ;;
      Ret ((arg_name ++ str " (" ++ Agent.py_str E ty ++ str ")") :: texts)
  end.

(** The entry of [tool_list_items] for the tool at index [i]. *)
Definition tool_list_item (E : env) (i : nat) (tool : mcp_tool) : outcome pystr :=
  items <-
    match t_inputSchema tool with
    | _ :: _ =>
        props <- Agent.py_index (JDict (t_inputSchema tool)) (str "properties") ;;
        py_items props
    | [] => Ret []
    end ;;
  texts <- argument_texts E items ;;
  Ret (str_of_Z (Z.of_nat i + 1) ++ str ". " ++ t_name tool ++ str " : " ++
       match t_description tool with Some d => d | None => str "None" end ++
       [newline] ++ str "   Args: " ++ join (str ", ") texts).

(** The loop over the listed tools, from index [i]. *)
Fixpoint discover (E : env) (i : nat) (tools : list mcp_tool)
    : outcome (list json * list pystr) :=
  match tools with
  | [] => Ret ([], [])
  | tool :: rest =>
      tool_def <- tool_definition tool ;;
      item <- tool_list_item E i tool ;;
      more <- discover E (S i) rest ;;
      Ret (tool_def :: fst more, item :: snd more)
  end.


(** The name that a tool definition carries. *)
Definition definition_name (tool_def : json) : option json :=
  match tool_def with
  | JDict d =>
      match dict_get (str "function") d with
      | Some (JDict f) => dict_get (str "name") f
      | _ => None
      end
  | _ => None
  end.

End Discovery.

(** ** The tool server: [execute_cli_command] *)

Module Server.

Definition dangerous_commands : list pystr :=
  [str "rm -rf"; str "del /f /s /q"; str "format"; str "fdisk"; str "mkfs";
   str "shutdown"; str "reboot"; str "halt"; str "poweroff"; str "sudo rm";
   str "dd if="; str "chmod 777"; str "chown -R"].

(** What [subprocess.run] gives back. *)
Record completed : Type := Completed {
  returncode : Z;
  stdout : pystr;
  stderr : pystr
}.

(** The operating system under the server: [platform.system() ==
    "Windows"], [os.path.exists], [os.getcwd] and [subprocess.run] with its
    argument list, working directory and timeout. *)
Record system : Type := System {
  is_windows : bool;
  path_exists : pystr -> bool;
  getcwd : pystr;
  subprocess_run : list pystr -> pystr -> Z -> outcome completed
}.

(** [subprocess.TimeoutExpired] and [PermissionError] are the classes
    [Other] of these names. *)
Definition is_class (name : pystr) (e : exn) : bool :=
  match exn_cls e with
  | Other n => pystr_eqb n name
  | _ => false
  end.

Definition rule : pystr := repeat 45 50.

Definition security_message (command : pystr) : pystr :=
  str "❌ Security: Command '" ++ command ++
  str "' contains potentially dangerous operations and cannot be executed.".

(** The loop over the fragments: one of them occurs in the lowered
    command. *)
Definition is_dangerous (command : pystr) : bool :=
  existsb (fun dangerous => contains dangerous (lower command)) dangerous_commands.

Definition format_output (command cwd : pystr) (result : completed) : pystr :=
  str "💻 CLI Command Execution" ++ [newline] ++
  str "Command: " ++ command ++ [newline] ++
  str "Working Directory: " ++ cwd ++ [newline] ++
  str "Exit Code: " ++ str_of_Z (returncode result) ++ [newline] ++
  rule ++ [newline; newline] ++
  (if pystr_eqb (stdout result) [] then []
   else str "📄 Output:" ++ [newline] ++ stdout result ++ [newline]) ++
  (if pystr_eqb (stderr result) [] then []
   else str "⚠️ Error Output:" ++ [newline] ++ stderr result ++ [newline]) ++
  (if (returncode result =? 0)%Z then str "✅ Command executed successfully"
   else str "❌ Command failed with exit code " ++ str_of_Z (returncode result)).

(** [execute_cli_command]: the text returned and the subprocess started,
    if any (argument list and working directory). *)
Definition execute_cli_command (sys : system) (command working_directory : pystr)
    (timeout : Z) : pystr * option (list pystr * pystr) :=
  if is_dangerous command then (security_message command, None)
  else
    let cwd :=
      if negb (pystr_eqb working_directory []) && path_exists sys working_directory
      then working_directory else getcwd sys in
    let argv :=
      if is_windows sys then [str "cmd"; str "/c"; command]
      else [str "bash"; str "-c"; command] in
    (match subprocess_run sys argv cwd timeout with
     | Ret result => format_output command cwd result
     | Raise e =>
         if is_class (str "TimeoutExpired") e then
           str "⏰ Command '" ++ command ++ str "' timed out after " ++
           str_of_Z timeout ++ str " seconds"
         else if is_FileNotFoundError e then
           str "❌ Command not found: '" ++ command ++
           str "'. Make sure the command exists and is in your PATH."
         else if is_class (str "PermissionError") e then
           str "❌ Permission denied: Cannot execute '" ++ command ++
           str "'. Check your permissions."
         else
           str "❌ Error executing command '" ++ command ++ str "': " ++ exn_str e
     end,
     Some (argv, cwd)).

End Server.

(** ** The files that the modules open *)

Module Paths.

(** An absolute path, as the list of its components; the root is the
    empty list.  [__file__] of an imported module is absolute. *)
Definition path : Type := list pystr.

(** [Path.parent] and [os.path.dirname]: the parent of the root is the root. *)
Definition parent (p : path) : path := removelast p.
Definition dirname (p : path) : path := removelast p.

(** [p / name] and [os.path.join(p, name)] for a single component *)
Definition joinpath (p : path) (name : pystr) : path := p ++ [name].

(** [__file__] of a module of the directory [core]. *)
Definition module_file (core : path) (name : pystr) : path := joinpath core name.

(** [AIModel.__init__]: [self.memory_file] *)
Definition AIModel_memory_file (file : path) : path :=
  let script_dir := parent (parent (parent (parent file))) in
  let data_dir := joinpath script_dir (str "data") in
  joinpath data_dir (str "memory.json").

(** [MemoryManager.__init__]: [self.memory_file] *)
Definition MemoryManager_memory_file (file : path) : path :=
  let script_dir := parent (parent (parent file)) in
  let data_dir := joinpath script_dir (str "data") in
  joinpath data_dir (str "memory.json").

(** [ModelConfigLoader.__init__]: the default [self.config_path] *)
Definition loader_config_path (file : path) : path :=
  joinpath (joinpath (parent (parent file)) (str "config")) (str "models.json").

(** [IntelligentAgent._load_model_config]: the default [config_path] *)
Definition agent_config_path (file : path) : path :=
  joinpath (dirname (dirname file)) (str "model.json").

End Paths.

(** ** Views used by the statements *)

Module View.

(** An entry of [message.tool_calls], as the native branch reads it. *)
Definition tool_call (call : json * json) : json :=
  JDict [(str "function",
          JDict [(str "name", fst call); (str "arguments", snd call)])].

Definition call_event (call : json * json) : event :=
  EvCallTool (fst call) (snd call).

(** The events of the memory file. *)
Definition memory_event (ev : event) : Prop :=
  match ev with
  | EvReadMemory | EvWriteMemory _ => True
  | _ => False
  end.

(** The events that a call of a method adds to the trace. *)
Definition new_events (before after : world) : list event :=
  drop (length (w_trace before)) (w_trace after).

Definition has_role (r : pystr) (msg : turn) : bool := pystr_eqb (role msg) r.

(** The [parameters] of a tool definition. *)
Definition definition_parameters (tool_def : json) : option (list (pystr * json)) :=
  match tool_def with
  | JDict d =>
      match dict_get (str "function") d with
      | Some (JDict f) =>
          match dict_get (str "parameters") f with
          | Some (JDict p) => Some p
          | _ => None
          end
      | _ => None
      end
  | _ => None
  end.

(** A memory within the bound whose first turn is a system turn. *)
Definition well_kept (max_len : Z) (h : list turn) : Prop :=
  (AIModel.size_of_memory h <= max_len)%Z /\
  exists t rest, h = t :: rest /\ role t = str "system".

(** The same object with another [system_instruction]. *)
Definition with_instruction (instruction : pystr) (m : AIModel.t) : AIModel.t :=
  AIModel.Make (AIModel.model_name m) instruction (AIModel.max_history_length m)
    (AIModel.history m).

(** The roles that [chat] writes. *)
Definition chat_role (msg : turn) : bool :=
  has_role (str "user") msg || has_role (str "assistant") msg || has_role (str "system") msg.

End View.

(** * Properties *)

(** ** Strings *)

Lemma pystr_eqb_eq a b : pystr_eqb a b = true <-> a = b.
Proof.
  revert b. induction a as [|x a IH]; intros [|y b]; simpl; split;
    try discriminate; try reflexivity.
  - intros H. apply andb_true_iff in H as [H1 H2].
    apply N.eqb_eq in H1. apply IH in H2. congruence.
  - intros H. injection H as -> ->. rewrite N.eqb_refl. now apply IH.
Qed.

Lemma pystr_eqb_refl a : pystr_eqb a a = true.
Proof. now apply pystr_eqb_eq. Qed.

Lemma startswith_app p s : startswith p (p ++ s) = true.
Proof.
  induction p as [|c p IH]; simpl; [reflexivity|].
  now rewrite N.eqb_refl, IH.
Qed.

Lemma contains_cons needle c hay :
  contains needle (c :: hay) = startswith needle (c :: hay) || contains needle hay.
Proof. reflexivity. Qed.

(** [needle in hay] holds as soon as [hay] has [needle] as an infix. *)
Lemma contains_infix needle pre post :
  contains needle (pre ++ needle ++ post) = true.
Proof.
  induction pre as [|c pre IH].
  - change ([] ++ needle ++ post) with (needle ++ post).
    destruct (needle ++ post) eqn:Hn.
    + destruct needle; [reflexivity|discriminate].
    + rewrite contains_cons, <- Hn, startswith_app. reflexivity.
  - change ((c :: pre) ++ needle ++ post) with (c :: (pre ++ needle ++ post)).
    rewrite contains_cons, IH. apply orb_true_r.
Qed.

Example str_of_Z_samples :
  str_of_Z 0 = str "0" /\ str_of_Z 1024 = str "1024" /\ str_of_Z (-37) = str "-37" /\
  str_of_Z 999999 = str "999999".
Proof. repeat split; reflexivity. Qed.

Example qstr_sample : qstr "{'a'}" = [123; 34; 97; 34; 125].
Proof. reflexivity. Qed.

Example strip_sample : strip (str "  a b
 ") = str "a b".
Proof. reflexivity. Qed.

(** ** [json.loads] never runs out of fuel *)

Ltac break_hyp H :=
  match type of H with
  | context [match ?x with _ => _ end] => destruct x eqn:?
  | context [if ?x then _ else _] => destruct x eqn:?
  end.

Lemma skip_ws_length s : (length (skip_ws s) <= length s)%nat.
Proof.
  induction s as [|c s IH]; cbn [skip_ws length]; [lia|].
  destruct (json_ws c); cbn [length]; lia.
Qed.

Lemma skip_ws_cons_length s c r :
  skip_ws s = c :: r -> (length r < length s)%nat.
Proof.
  intros H. pose proof (skip_ws_length s) as Hl. rewrite H in Hl.
  cbn [length] in Hl. lia.
Qed.

Lemma push_some c o x r :
  push c o = Some (x, r) -> exists x', o = Some (x', r).
Proof.
  destruct o as [[x' r']|]; cbn; [|discriminate].
  intros H. injection H as _ <-. eauto.
Qed.

Lemma scanstring_length_aux (n : nat) :
  forall s, (length s <= n)%nat ->
  forall x r, scanstring s = Some (x, r) -> (length r < length s)%nat.
Proof.
  induction n as [|n IH]; intros s Hn x r H.
  - destruct s; [discriminate|cbn in Hn; lia].
  - destruct s as [|c s]; [discriminate|].
    cbn [scanstring] in H. cbn [length] in *.
    repeat (break_hyp H; try discriminate; cbn [length] in * );
      try (injection H as <- <-; cbn [length]; lia);
      try (apply push_some in H as [x' H];
           apply IH in H; cbn [length] in *; lia).
Qed.

Lemma scanstring_length s x r :
  scanstring s = Some (x, r) -> (length r < length s)%nat.
Proof. now apply (scanstring_length_aux (length s)). Qed.

Lemma span_length p s a b : span p s = (a, b) -> (length b <= length s)%nat.
Proof.
  revert a b. induction s as [|c s IH]; cbn [span]; intros a b H.
  - injection H as <- <-. cbn. lia.
  - destruct (p c).
    + destruct (span p s) as [a' b'] eqn:Hs. injection H as <- <-.
      specialize (IH _ _ eq_refl). cbn [length]. lia.
    + injection H as <- <-. cbn [length]. lia.
Qed.

Lemma scan_frac_length s f r : scan_frac s = (f, r) -> (length r <= length s)%nat.
Proof.
  unfold scan_frac. intros H.
  destruct s as [|c s]; [injection H as <- <-; cbn; lia|].
  destruct (c =? 46); [|injection H as <- <-; lia].
  destruct (span isdigit s) as [ds r'] eqn:Hs. apply span_length in Hs.
  destruct ds; injection H as <- <-; cbn [length]; lia.
Qed.

Lemma scan_exp_length s f r : scan_exp s = (f, r) -> (length r <= length s)%nat.
Proof.
  unfold scan_exp. intros H.
  destruct s as [|c s]; [injection H as <- <-; cbn; lia|].
  destruct ((c =? 101) || (c =? 69)); [|injection H as <- <-; lia].
  destruct (match s with
            | g :: r' => if (g =? 45) || (g =? 43) then ([g], r') else ([], s)
            | [] => ([], s)
            end) as [sign r1] eqn:Hs.
  assert (Hr1 : (length r1 <= length s)%nat).
  { destruct s as [|g s']; [injection Hs as <- <-; lia|].
    destruct ((g =? 45) || (g =? 43)); injection Hs as <- <-; cbn [length]; lia. }
  destruct (span isdigit r1) as [ds r'] eqn:Hd. apply span_length in Hd.
  destruct ds; injection H as <- <-; cbn [length]; lia.
Qed.

Lemma scan_number_length s v r :
  scan_number s = Scanned v r -> (length r < length s)%nat.
Proof.
  unfold scan_number. intros H.
  destruct (match s with
            | c :: r0 => if c =? 45 then (true, r0) else (false, s)
            | [] => (false, s)
            end) as [neg s1] eqn:Hneg.
  assert (Hs1 : (length s1 <= length s)%nat).
  { destruct s as [|c s']; [injection Hneg as <- <-; lia|].
    destruct (c =? 45); injection Hneg as <- <-; cbn [length]; lia. }
  destruct (match s1 with
            | d :: r0 =>
                if d =? 48 then Some ([d], r0)
                else if isdigit d
                     then let (ds, r') := span isdigit r0 in Some (d :: ds, r')
                     else None
            | [] => None
            end) as [[ip r0]|] eqn:Hint; [|discriminate].
  assert (Hr0 : (length r0 < length s1)%nat).
  { destruct s1 as [|d s1']; [discriminate|].
    destruct (d =? 48); [injection Hint as <- <-; cbn [length]; lia|].
    destruct (isdigit d); [|discriminate].
    destruct (span isdigit s1') as [ds r'] eqn:Hd. apply span_length in Hd.
    injection Hint as <- <-. cbn [length]. lia. }
  destruct (scan_frac r0) as [frac r1] eqn:Hf. apply scan_frac_length in Hf.
  destruct (scan_exp r1) as [ex r2] eqn:He. apply scan_exp_length in He.
  destruct frac, ex; try (injection H as <- <-; lia).
  destruct (int_max_str_digits <? length ip)%nat; [discriminate|].
  injection H as <- <-. lia.
Qed.

Lemma startswith_drop_length p s :
  p <> [] -> startswith p s = true -> (length (drop (length p) s) < length s)%nat.
Proof.
  intros Hp H. destruct p as [|a p]; [contradiction|].
  destruct s as [|b s]; [discriminate|].
  rewrite length_drop. cbn [length]. lia.
Qed.

Lemma scan_literal_length s v r :
  scan_literal s = Scanned v r -> (length r < length s)%nat.
Proof.
  unfold scan_literal. intros H.
  repeat match type of H with
  | context [if startswith ?p s then _ else _] =>
      let Hp := fresh "Hp" in
      destruct (startswith p s) eqn:Hp;
      [injection H as <- <-;
       apply (startswith_drop_length p s); [vm_compute; discriminate|exact Hp]|]
  end.
  now apply (scan_number_length s v r).
Qed.

(** The scanner consumes input, and fuel above twice the length of the
    input is never exhausted, whatever the recursion budget. *)
Lemma scan_fuel (fuel : nat) :
  forall depth s,
    (forall v r, scan_once fuel depth s = Scanned v r -> (length r < length s)%nat) /\
    (forall acc v r, scan_members fuel depth s acc = Scanned v r ->
                     (length r < length s)%nat) /\
    (forall acc v r, scan_elems fuel depth s acc = Scanned v r ->
                     (length r < length s)%nat) /\
    ((2 * length s + 1 <= fuel)%nat -> scan_once fuel depth s <> OutOfFuel) /\
    (forall acc, (2 * length s + 2 <= fuel)%nat ->
                 scan_members fuel depth s acc <> OutOfFuel) /\
    (forall acc, (2 * length s + 2 <= fuel)%nat ->
                 scan_elems fuel depth s acc <> OutOfFuel).
Proof.
  induction fuel as [|f IH]; intros depth s.
  { repeat split; intros; try discriminate; lia. }
  assert (IHonce : forall d s v r,
             scan_once f d s = Scanned v r -> (length r < length s)%nat)
    by (intros d0 s0; apply (IH d0 s0)).
  assert (IHmem : forall d s acc v r,
             scan_members f d s acc = Scanned v r -> (length r < length s)%nat)
    by (intros d0 s0; apply (IH d0 s0)).
  assert (IHel : forall d s acc v r,
             scan_elems f d s acc = Scanned v r -> (length r < length s)%nat)
    by (intros d0 s0; apply (IH d0 s0)).
  assert (Fonce : forall d s, (2 * length s + 1 <= f)%nat -> scan_once f d s <> OutOfFuel)
    by (intros d0 s0; apply (IH d0 s0)).
  assert (Fmem : forall d s acc, (2 * length s + 2 <= f)%nat ->
                                 scan_members f d s acc <> OutOfFuel)
    by (intros d0 s0; apply (IH d0 s0)).
  assert (Fel : forall d s acc, (2 * length s + 2 <= f)%nat ->
                                scan_elems f d s acc <> OutOfFuel)
    by (intros d0 s0; apply (IH d0 s0)).
  clear IH.
  repeat split.
  - (* scan_once consumes *)
    intros v r H. cbn [scan_once] in H.
    destruct s as [|c s]; [discriminate|]. cbn [length].
    destruct (c =? 34).
    { destruct (scanstring s) as [[x r']|] eqn:Hs; [|discriminate].
      injection H as <- <-. apply scanstring_length in Hs. lia. }
    destruct (c =? 123).
    { destruct depth as [|d]; [discriminate|].
      destruct (skip_ws s) as [|c' r'] eqn:Hw; [discriminate|].
      apply skip_ws_cons_length in Hw as Hl.
      destruct (c' =? 125); [injection H as <- <-; lia|].
      apply IHmem in H. cbn [length] in H. lia. }
    destruct (c =? 91).
    { destruct depth as [|d]; [discriminate|].
      destruct (skip_ws s) as [|c' r'] eqn:Hw; [discriminate|].
      apply skip_ws_cons_length in Hw as Hl.
      destruct (c' =? 93); [injection H as <- <-; lia|].
      apply IHel in H. cbn [length] in H. lia. }
    apply scan_literal_length in H. cbn [length] in H. lia.
  - (* scan_members consumes *)
    intros acc v r H. cbn [scan_members] in H.
    destruct s as [|c s]; [discriminate|]. cbn [length].
    destruct (c =? 34); [|discriminate].
    destruct (scanstring s) as [[key r1]|] eqn:Hs; [|discriminate].
    apply scanstring_length in Hs.
    destruct (skip_ws r1) as [|c1 r2] eqn:Hw1; [discriminate|].
    apply skip_ws_cons_length in Hw1.
    destruct (c1 =? 58); [|discriminate].
    destruct (scan_once f depth (skip_ws r2)) as [v0 r3| | |] eqn:Hv; try discriminate.
    apply IHonce in Hv. pose proof (skip_ws_length r2).
    destruct (skip_ws r3) as [|c3 r4] eqn:Hw3; [discriminate|].
    apply skip_ws_cons_length in Hw3.
    destruct (c3 =? 125); [injection H as <- <-; lia|].
    destruct (c3 =? 44); [|discriminate].
    apply IHmem in H. pose proof (skip_ws_length r4). lia.
  - (* scan_elems consumes *)
    intros acc v r H. cbn [scan_elems] in H.
    destruct (scan_once f depth s) as [v0 r1| | |] eqn:Hv; try discriminate.
    apply IHonce in Hv.
    destruct (skip_ws r1) as [|c r2] eqn:Hw; [discriminate|].
    apply skip_ws_cons_length in Hw.
    destruct (c =? 93); [injection H as <- <-; lia|].
    destruct (c =? 44); [|discriminate].
    apply IHel in H. pose proof (skip_ws_length r2). lia.
  - (* scan_once has fuel *)
    intros Hf. cbn [scan_once].
    destruct s as [|c s]; [discriminate|]. cbn [length] in Hf.
    destruct (c =? 34).
    { destruct (scanstring s) as [[x r']|]; discriminate. }
    destruct (c =? 123).
    { destruct depth as [|d]; [discriminate|].
      destruct (skip_ws s) as [|c' r'] eqn:Hw; [discriminate|].
      destruct (c' =? 125); [discriminate|].
      apply Fmem. pose proof (skip_ws_length s) as Hl. rewrite Hw in Hl. lia. }
    destruct (c =? 91).
    { destruct depth as [|d]; [discriminate|].
      destruct (skip_ws s) as [|c' r'] eqn:Hw; [discriminate|].
      destruct (c' =? 93); [discriminate|].
      apply Fel. pose proof (skip_ws_length s) as Hl. rewrite Hw in Hl. lia. }
    unfold scan_literal.
    repeat match goal with
    | |- context [if startswith ?p ?x then _ else _] =>
        destruct (startswith p x); [discriminate|]
    end.
    unfold scan_number.
    repeat match goal with
    | |- context [match ?x with _ => _ end] => destruct x; try discriminate
    | |- context [if ?x then _ else _] => destruct x; try discriminate
    end.
  - (* scan_members has fuel *)
    intros acc Hf. cbn [scan_members].
    destruct s as [|c s]; [discriminate|]. cbn [length] in Hf.
    destruct (c =? 34); [|discriminate].
    destruct (scanstring s) as [[key r1]|] eqn:Hs; [|discriminate].
    apply scanstring_length in Hs.
    destruct (skip_ws r1) as [|c1 r2] eqn:Hw1; [discriminate|].
    apply skip_ws_cons_length in Hw1.
    destruct (c1 =? 58); [|discriminate].
    pose proof (skip_ws_length r2).
    destruct (scan_once f depth (skip_ws r2)) as [v0 r3| | |] eqn:Hv.
    + apply IHonce in Hv.
      destruct (skip_ws r3) as [|c3 r4] eqn:Hw3; [discriminate|].
      apply skip_ws_cons_length in Hw3.
      destruct (c3 =? 125); [discriminate|].
      destruct (c3 =? 44); [|discriminate].
      apply Fmem. pose proof (skip_ws_length r4). lia.
    + discriminate.
    + discriminate.
    + exfalso. revert Hv. apply Fonce. lia.
  - (* scan_elems has fuel *)
    intros acc Hf. cbn [scan_elems].
    destruct (scan_once f depth s) as [v0 r1| | |] eqn:Hv.
    + apply IHonce in Hv.
      destruct (skip_ws r1) as [|c r2] eqn:Hw; [discriminate|].
      apply skip_ws_cons_length in Hw.
      destruct (c =? 93); [discriminate|].
      destruct (c =? 44); [|discriminate].
      apply Fel. pose proof (skip_ws_length r2). lia.
    + discriminate.
    + discriminate.
    + exfalso. revert Hv. apply Fonce. lia.
Qed.

(** [json_loads] is total: the scan it starts ends with a value, with a
    decoding error or at a limit of the interpreter. *)
Lemma json_loads_scan_ends s :
  scan_once (2 * length s + 2) recursion_budget (skip_ws s) <> OutOfFuel.
Proof.
  apply scan_fuel. pose proof (skip_ws_length s). lia.
Qed.

Example json_loads_samples :
  json_loads (qstr " {'a': [1, -2.5e3, true, null], 'a': 'sé'} ")
    = Decoded (JDict [(str "a", JStr (str "sé"))]) /\
  json_loads (qstr "{'a': 1,}") = NotJson /\
  json_loads (qstr "[1, 2") = NotJson /\
  json_loads (str "4") = Decoded (JInt 4) /\
  json_loads [] = NotJson /\
  json_loads (repeat 49 4300) <> NotJson /\
  json_loads (45 :: repeat 49 4301) = Exceeded (IntTooLong 4301) /\
  json_loads (str "[1 2, " ++ repeat 49 4301) = NotJson /\
  json_loads (repeat 49 4301 ++ str ".5") = Decoded (JFloat (repeat 49 4301 ++ str ".5")).
Proof.
  do 5 (split; [vm_compute; reflexivity|]).
  split; [vm_compute; discriminate|].
  do 2 (split; [vm_compute; reflexivity|]).
  vm_compute. reflexivity.
Qed.

(** Zero as a [float]: an underflow to zero is falsy, a tie at half of the
    least positive [float] rounds to zero, and anything above it does
    not. *)
Example float_truth_samples :
  truthy (JFloat (str "0.0")) = false /\
  truthy (JFloat (str "-0e7")) = false /\
  truthy (JFloat (str "1e-400")) = false /\
  truthy (JFloat (str "2.4703282292062327e-324")) = false /\
  truthy (JFloat (str "2.4703282292062328e-324")) = true /\
  truthy (JFloat (str "4.9e-324")) = true /\
  truthy (JFloat (str "1E400")) = true /\
  truthy (JFloat (str "NaN")) = true.
Proof. repeat split; vm_compute; reflexivity. Qed.

(** ** The matcher only returns words of the pattern *)

Section MatcherSound.
Context {A : Type}.

Lemma star_greedy_sound p s (k : pystr -> option A) a :
  star_greedy p s k = Some a ->
  exists w rest, s = w ++ rest /\ Forall (fun c => p c = true) w /\ k rest = Some a.
Proof.
  induction s as [|c s IH]; simpl; intros H.
  - exists [], []. auto.
  - destruct (p c) eqn:Hp.
    + destruct (star_greedy p s k) as [a'|] eqn:Hs.
      * injection H as ->.
        destruct (IH eq_refl) as (w & rest & -> & Hw & Hk).
        exists (c :: w), rest. repeat split; auto.
      * exists [], (c :: s). auto.
    + exists [], (c :: s). auto.
Qed.

Lemma star_lazy_sound p s (k : pystr -> option A) a :
  star_lazy p s k = Some a ->
  exists w rest, s = w ++ rest /\ Forall (fun c => p c = true) w /\ k rest = Some a.
Proof.
  induction s as [|c s IH]; simpl; intros H.
  - destruct (k []) eqn:Hk; [|discriminate].
    exists [], []. injection H as ->. auto.
  - destruct (k (c :: s)) eqn:Hk.
    + injection H as ->. exists [], (c :: s). auto.
    + destruct (p c) eqn:Hp; [|discriminate].
      destruct (IH H) as (w & rest & -> & Hw & Hk').
      exists (c :: w), rest. repeat split; auto.
Qed.

End MatcherSound.

Lemma rmatch_sound {A : Type} r :
  forall s cap (k : pystr -> option pystr -> option A) a,
    rmatch r s cap k = Some a ->
    exists w rest cap', s = w ++ rest /\ lang r w /\ k rest cap' = Some a.
Proof.
  induction r as [|c|p|p|p|p|r IH|r IH|r1 IH1 r2 IH2]; simpl; intros s cap k a H.
  - exists [], s, cap. auto.
  - destruct s as [|x s]; [discriminate|].
    destruct (x =? c) eqn:Hx; [|discriminate].
    apply N.eqb_eq in Hx. subst x. exists [c], s, cap. auto.
  - destruct s as [|x s]; [discriminate|].
    destruct (p x) eqn:Hx; [|discriminate].
    exists [x], s, cap. repeat split; eauto.
  - apply star_greedy_sound in H as (w & rest & -> & Hw & Hk).
    exists w, rest, cap. auto.
  - destruct s as [|x s]; [discriminate|].
    destruct (p x) eqn:Hx; [|discriminate].
    apply star_greedy_sound in H as (w & rest & -> & Hw & Hk).
    exists (x :: w), rest, cap. repeat split; auto; discriminate.
  - apply star_lazy_sound in H as (w & rest & -> & Hw & Hk).
    exists w, rest, cap. auto.
  - destruct (rmatch r s cap k) as [a'|] eqn:Hr.
    + injection H as ->.
      destruct (IH _ _ _ _ Hr) as (w & rest & cap' & -> & Hw & Hk).
      exists w, rest, cap'. auto.
    + exists [], s, cap. auto.
  - destruct (IH _ _ _ _ H) as (w & rest & cap' & -> & Hw & Hk).
    exists w, rest, (Some (take (length (w ++ rest) - length rest) (w ++ rest))). auto.
  - destruct (IH1 _ _ _ _ H) as (w1 & rest1 & cap1 & -> & Hw1 & Hk1).
    destruct (IH2 _ _ _ _ Hk1) as (w2 & rest2 & cap2 & -> & Hw2 & Hk2).
    exists (w1 ++ w2), rest2, cap2. rewrite <- app_assoc. repeat split; eauto.
Qed.

Lemma take_app_minus (w rest : pystr) :
  take (length (w ++ rest) - length rest) (w ++ rest) = w.
Proof.
  rewrite length_app.
  replace (length w + length rest - length rest)%nat with (length w) by lia.
  now rewrite take_app_length.
Qed.

Lemma match_at_sound r s m :
  match_at r s = Some m -> s = group0 m ++ after m /\ lang r (group0 m).
Proof.
  unfold match_at. intros H.
  apply rmatch_sound in H as (w & rest & cap' & -> & Hw & Hk).
  injection Hk as <-. simpl. now rewrite take_app_minus.
Qed.

Lemma search_sound r s m :
  search r s = Some m ->
  exists pre, s = pre ++ group0 m ++ after m /\ lang r (group0 m).
Proof.
  induction s as [|c s IH]; simpl; intros H.
  - destruct (match_at r []) eqn:Hm; [|discriminate].
    injection H as ->. apply match_at_sound in Hm as [Hs Hl]. exists []. auto.
  - destruct (match_at r (c :: s)) eqn:Hm.
    + injection H as ->. apply match_at_sound in Hm as [Hs Hl]. exists []. auto.
    + destruct (IH H) as (pre & -> & Hl). exists (c :: pre). auto.
Qed.

Lemma lang_Lit x w : lang (Lit x) w -> w = x.
Proof.
  revert w. induction x as [|c x IH]; simpl; intros w H; [assumption|].
  destruct H as (w1 & w2 & -> & -> & H2). simpl. f_equal. now apply IH.
Qed.

(** A search that succeeds shows the literal pieces of its pattern in the
    text. *)
Lemma search_brace_key_found (cls1 cls2 : N -> bool) text m :
  search (Seq [Chr lbrace; Star cls1; Lit key_tool_name; Star cls2; Chr rbrace]) text
    = Some m ->
  contains [lbrace] text = true /\ contains key_tool_name text = true.
Proof.
  intros H. apply search_sound in H as (pre & -> & Hl).
  destruct Hl as (w1 & r1 & Hw & Hw1 & Hl). change (w1 = [lbrace]) in Hw1. subst w1.
  destruct Hl as (w2 & r2 & -> & _ & Hl).
  destruct Hl as (w3 & r3 & -> & Hw3 & _).
  apply lang_Lit in Hw3. subst w3. rewrite Hw. split.
  - apply (contains_infix [lbrace] pre).
  - replace (pre ++ ([lbrace] ++ w2 ++ key_tool_name ++ r3) ++ after m)
      with ((pre ++ [lbrace] ++ w2) ++ key_tool_name ++ (r3 ++ after m)).
    + apply contains_infix.
    + now rewrite <- !app_assoc.
Qed.

Lemma search_code_block_found text m :
  search code_block_pattern text = Some m -> contains fence text = true.
Proof.
  intros H. apply search_sound in H as (pre & -> & Hl).
  destruct Hl as (w1 & r1 & Hw & Hw1 & _).
  apply lang_Lit in Hw1. subst w1. rewrite Hw.
  rewrite <- app_assoc. apply contains_infix.
Qed.

(** ** [handle_json_fields]: plain prose *)

(** The flag computed in the no-candidate branch selects between two
    identical returns. *)
Lemma has_json_markers_unused text :
  find_candidate text = None -> handle_json_fields text = Ret (JNull, JDict []).
Proof.
  intros H. unfold handle_json_fields. rewrite H.
  now destruct (negb (has_json_markers text)).
Qed.

Lemma no_markers_no_candidate text :
  contains fence text = false ->
  contains [lbrace] text && contains key_tool_name text = false ->
  find_candidate text = None.
Proof.
  intros Hf Hb. unfold find_candidate.
  destruct (search json_pattern text) as [m|] eqn:H1.
  { apply search_brace_key_found in H1 as [Ha Hk]. now rewrite Ha, Hk in Hb. }
  destruct (search code_block_pattern text) as [m|] eqn:H2.
  { apply search_code_block_found in H2. congruence. }
  destruct (search flexible_pattern text) as [m|] eqn:H3.
  { apply search_brace_key_found in H3 as [Ha Hk]. now rewrite Ha, Hk in Hb. }
  reflexivity.
Qed.

Lemma lower_char_backtick x : (backtick =? lower_char x) = (backtick =? x).
Proof.
  unfold backtick, lower_char.
  destruct ((65 <=? x) && (x <=? 90)) eqn:Hx; [|reflexivity].
  apply andb_true_iff in Hx as [H1 H2]. apply N.leb_le in H1, H2.
  transitivity false; [apply N.eqb_neq; lia | symmetry; apply N.eqb_neq; lia].
Qed.

(** What [lower] holds for a code point is a backtick exactly when the
    code point is one; otherwise it holds no backtick at all. *)
Lemma lower_at_backtick before c after :
  (c = backtick /\ lower_at before c after = [backtick]) \/
  (c <> backtick /\
   exists x xs, lower_at before c after = x :: xs /\ x <> backtick /\
                Forall (fun y => y <> backtick) xs).
Proof.
  unfold lower_at, backtick.
  destruct (N.ltb_spec c 128) as [Hlt|Hge].
  - destruct (N.eq_dec c 96) as [->|Hn]; [left; split; reflexivity|].
    right. split; [exact Hn|]. exists (lower_char c), [].
    split; [reflexivity|]. split; [|constructor].
    unfold lower_char.
    destruct (N.leb_spec 65 c); destruct (N.leb_spec c 90); cbn [andb]; lia.
  - right. split; [lia|].
    destruct (c =? 304).
    { exists 105, [775]. split; [reflexivity|]. split; [lia|].
      constructor; [lia|constructor]. }
    destruct (c =? 8490).
    { exists 107, []. split; [reflexivity|]. split; [lia|constructor]. }
    exists (proj1_sig lower_other before c after), [].
    split; [reflexivity|]. split; [|constructor].
    pose proof (proj2_sig lower_other before c after) as Hb. lia.
Qed.

Lemma startswith_ticks_lower n before t :
  startswith (repeat backtick n) (lower_from before t)
  = startswith (repeat backtick n) t.
Proof.
  revert before t. induction n as [|n IH]; intros before t; [reflexivity|].
  destruct t as [|c t]; [reflexivity|].
  cbn [repeat lower_from].
  destruct (lower_at_backtick before c t) as [[-> ->]|[Hc (x & xs & -> & Hx & _)]].
  - cbn [app startswith]. rewrite IH. reflexivity.
  - cbn [app startswith].
    replace (backtick =? x) with false by (symmetry; apply N.eqb_neq; congruence).
    replace (backtick =? c) with false by (symmetry; apply N.eqb_neq; congruence).
    reflexivity.
Qed.

Lemma startswith_fence_lower t : startswith fence (lower t) = startswith fence t.
Proof. apply (startswith_ticks_lower 3 [] t). Qed.

Lemma contains_fence_skip xs s :
  Forall (fun y => y <> backtick) xs -> contains fence (xs ++ s) = contains fence s.
Proof.
  intros Hxs. induction Hxs as [|y xs Hy _ IH]; [reflexivity|].
  cbn [app]. rewrite contains_cons, IH.
  unfold fence at 1. cbn [startswith].
  replace (backtick =? y) with false by (symmetry; apply N.eqb_neq; congruence).
  reflexivity.
Qed.

Lemma contains_fence_lower_from before t :
  contains fence (lower_from before t) = contains fence t.
Proof.
  revert before. induction t as [|c t IH]; intros before; [reflexivity|].
  pose proof (startswith_ticks_lower 3 before (c :: t)) as Hs.
  change (repeat backtick 3) with fence in Hs.
  cbn [lower_from] in *.
  destruct (lower_at_backtick before c t) as [[Hc Hl]|[Hc (x & xs & Hl & Hx & Hxs)]];
    rewrite Hl in *; cbn [app] in *.
  - rewrite !contains_cons, IH, Hs. reflexivity.
  - rewrite !contains_cons, Hs.
    rewrite (contains_fence_skip xs _ Hxs), IH. reflexivity.
Qed.

(** Lowering a text neither creates nor removes a fence. *)
Lemma contains_fence_lower t : contains fence (lower t) = contains fence t.
Proof. apply contains_fence_lower_from. Qed.

Lemma startswith_app_l p q s : startswith (p ++ q) s = true -> startswith p s = true.
Proof.
  revert s. induction p as [|a p IH]; intros s H; [reflexivity|].
  destruct s as [|b s]; [discriminate|].
  simpl in *. apply andb_true_iff in H as [H1 H2].
  now rewrite H1, (IH _ H2).
Qed.

Lemma contains_app_l p q s : contains (p ++ q) s = true -> contains p s = true.
Proof.
  induction s as [|c s IH]; intros H.
  - destruct p; [reflexivity|discriminate].
  - rewrite contains_cons in *. apply orb_true_iff in H as [H|H].
    + now rewrite (startswith_app_l _ _ _ H).
    + rewrite (IH H). apply orb_true_r.
Qed.

(** The first disjunct of the flag implies the second. *)
Lemma json_fence_is_fence text :
  contains (str "```json") (lower text) = true -> contains fence text = true.
Proof.
  intros H. rewrite <- contains_fence_lower.
  now apply (contains_app_l fence (str "json")).
Qed.

(** C8. A text that contains no fence marker and does not contain both an
    opening brace and the key ["tool_name"] is classified as plain prose:
    the extractor returns normally, with [None] as tool name and an empty
    arguments mapping.  *)
Theorem plain_prose_is_no_call text :
  contains fence text = false ->
  contains [lbrace] text && contains key_tool_name text = false ->
  has_json_markers text = false /\
  handle_json_fields text = Ret (JNull, JDict []).
Proof.
  intros Hf Hb. split.
  - unfold has_json_markers. rewrite Hf, Hb.
    destruct (contains (str "```json") (lower text)) eqn:Hl; [|reflexivity].
    apply json_fence_is_fence in Hl. congruence.
  - apply has_json_markers_unused. now apply no_markers_no_candidate.
Qed.

Lemma plain_prose_is_no_call_witness :
  has_json_markers (str "The sky is blue today.") = false /\
  handle_json_fields (str "The sky is blue today.") = Ret (JNull, JDict []).
Proof. apply plain_prose_is_no_call; reflexivity. Defined.

(** ** [handle_json_fields]: cleaning, parsing, recovery *)

Section TrailingComma.
Variable close : N.
Hypothesis close_not_space : isspace close = false.
Hypothesis close_not_comma : close <> comma.

Let pattern : regex := Seq [Chr comma; Star isspace; Chr close].

(** The longest run of blanks is taken when the closing character follows
    it: no shorter run is followed by the closing character. *)
Lemma star_greedy_blanks {A : Type} ws b (k : pystr -> option A) :
  Forall (fun c => isspace c = true) ws ->
  star_greedy isspace (ws ++ close :: b)
    (fun s' => match s' with
               | x :: s'' => if x =? close then k s'' else None
               | [] => None
               end) = k b.
Proof.
  intros Hws. induction Hws as [|w ws Hw Hws IH]; simpl.
  - rewrite close_not_space, N.eqb_refl. reflexivity.
  - rewrite Hw, IH. destruct (k b) eqn:Hk; [reflexivity|].
    destruct (w =? close) eqn:Hc; [|reflexivity].
    apply N.eqb_eq in Hc. subst w. congruence.
Qed.


Lemma match_at_trailing_comma ws b :
  Forall (fun c => isspace c = true) ws ->
  match_at pattern (comma :: ws ++ close :: b)
    = Some (MatchObj (comma :: ws ++ [close]) None b).
Proof.
  intros Hws. unfold match_at, pattern. cbn [Seq rmatch].
  rewrite N.eqb_refl.
  rewrite (star_greedy_blanks ws b
             (fun s'' => Some (MatchObj (take (length (comma :: ws ++ close :: b) - length s'')
                                           (comma :: ws ++ close :: b)) None s'')) Hws).
  do 2 f_equal.
  replace (comma :: ws ++ close :: b) with ((comma :: ws ++ [close]) ++ b).
  - apply take_app_minus.
  - simpl. now rewrite <- app_assoc.
Qed.


Lemma match_at_not_comma c s :
  c <> comma -> match_at pattern (c :: s) = None.
Proof.
  intros Hc. unfold match_at, pattern. cbn [Seq rmatch].
  destruct (c =? comma) eqn:H; [|reflexivity].
  apply N.eqb_eq in H. contradiction.
Qed.

Lemma sub_from_skip repl x b :
  sub_from pattern repl (x ++ b) (length x) = sub_from pattern repl b O.
Proof. induction x as [|c x IH]; [reflexivity|]. simpl. exact IH. Qed.

Lemma sub_from_no_comma repl a s :
  Forall (fun c => c <> comma) a ->
  sub_from pattern repl (a ++ s) O = a ++ sub_from pattern repl s O.
Proof.
  intros Ha. induction Ha as [|c a Hc _ IH]; [reflexivity|].
  cbn [app sub_from]. rewrite (match_at_not_comma c (a ++ s) Hc).
  now rewrite IH.
Qed.



(** A comma, blanks and the closing character become the closing
    character alone. *)
Lemma sub_trailing_comma a ws b :
  Forall (fun c => c <> comma) a ->
  Forall (fun c => isspace c = true) ws ->
  sub pattern [close] (a ++ comma :: ws ++ close :: b)
    = a ++ close :: sub pattern [close] b.
Proof.
  intros Ha Hws. unfold sub. rewrite sub_from_no_comma by assumption.
  f_equal. cbn [sub_from]. rewrite match_at_trailing_comma by assumption.
  cbn [group0 app]. f_equal.
  replace (length (comma :: ws ++ [close]) - 1)%nat with (length (ws ++ [close]))
    by (simpl; lia).
  replace (ws ++ close :: b) with ((ws ++ [close]) ++ b) by now rewrite <- app_assoc.
  apply sub_from_skip.
Qed.






End TrailingComma.

Lemma sub_comma_brace a ws b :
  Forall (fun c => c <> comma) a ->
  Forall (fun c => isspace c = true) ws ->
  sub comma_brace_pattern [rbrace] (a ++ comma :: ws ++ rbrace :: b)
    = a ++ rbrace :: sub comma_brace_pattern [rbrace] b.
Proof. apply sub_trailing_comma; first [reflexivity|discriminate]. Qed.

Lemma sub_comma_bracket a ws b :
  Forall (fun c => c <> comma) a ->
  Forall (fun c => isspace c = true) ws ->
  sub comma_bracket_pattern [rbracket] (a ++ comma :: ws ++ rbracket :: b)
    = a ++ rbracket :: sub comma_bracket_pattern [rbracket] b.
Proof. apply sub_trailing_comma; first [reflexivity|discriminate]. Qed.













(** Every candidate is cleaned, then parsed; the recovery by the two
    searches runs when, and only when, the parse fails with a decoding
    error; the exception of a limit of the interpreter is not caught. *)
Lemma handle_json_fields_candidate text cand :
  find_candidate text = Some cand ->
  handle_json_fields text =
    match json_loads (clean_json_text cand) with
    | Decoded extracted_json =>
        tool_name <- py_get extracted_json (str "tool_name") JNull ;;
        args <- py_get extracted_json (str "args") (JDict []) ;;
        Ret (tool_name, args)
    | NotJson => Ret (regex_fallback text)
    | Exceeded l => Raise (limit_exn l)
    end.
Proof. intros H. unfold handle_json_fields. now rewrite H. Qed.


Example trailing_comma_flat_object :
  handle_json_fields (qstr "{'tool_name':'google_search', 'query':'AI news', }")
  = Ret (JStr (str "google_search"), JDict []).
Proof. vm_compute. reflexivity. Qed.

Example clean_json_text_sample :
  clean_json_text (qstr "{'a': [1, 2, ], 'b': 3 ,
}") = qstr "{'a': [1, 2], 'b': 3 }".
Proof. vm_compute. reflexivity. Qed.



(** ** [handle_json_fields] on the wire shape *)

Example fenced_wire_shape_is_extracted :
  let inv := Wire.Invocation (str "list_directory") [(str "path", JStr (str "data"))] in
  handle_json_fields (str "```json" ++ [newline] ++ Wire.render inv ++ [newline] ++ fence)
    = Wire.extracted inv.
Proof. vm_compute. reflexivity. Qed.

Example wire_shape_with_query_only :
  let inv := Wire.Invocation (str "google_search") [(str "query", JStr (str "AI news"))] in
  handle_json_fields (Wire.render inv) = Wire.extracted inv.
Proof. vm_compute. reflexivity. Qed.

(** C1 (the code departs from the claim). The invocation of
    [list_directory] with the flat arguments [{path: data}], rendered in
    the wire shape, is not extracted back: no flat candidate exists, the
    looser candidate stops at the first closing brace and does not parse,
    and the recovery keeps the tool name and drops every argument but
    [query]. *)
Theorem roundtrip_drops_arguments :
  let inv := Wire.Invocation (str "list_directory") [(str "path", JStr (str "data"))] in
  Wire.flat inv = true /\
  Wire.render inv = qstr "{'tool_name': 'list_directory', 'args': {'path': 'data'}}" /\
  search json_pattern (Wire.render inv) = None /\
  find_candidate (Wire.render inv)
    = Some (qstr "{'tool_name': 'list_directory', 'args': {'path': 'data'}") /\
  handle_json_fields (Wire.render inv) = Ret (JStr (str "list_directory"), JDict []) /\
  handle_json_fields (Wire.render inv) <> Wire.extracted inv.
Proof.
  cbv zeta.
  do 5 (split; [vm_compute; reflexivity|]).
  vm_compute. discriminate.
Qed.

(** ** [handle_tool_call] *)

(** C10. When the tool name is [None] or empty (falsy), or the arguments
    are not a mapping, [handle_tool_call] returns the fixed message; the
    world is unchanged, so no call reaches the channel, whatever the
    channel would do. *)
Theorem invalid_call_is_rejected (E : env) (tool_name args : json) (w : world) :
  truthy tool_name = false \/ is_dict args = false ->
  Agent.handle_tool_call E tool_name args w
    = (Ret (JStr (str "Invalid tool name or arguments.")), w).
Proof.
  intros H. unfold Agent.handle_tool_call.
  destruct H as [-> | ->]; [reflexivity|].
  now rewrite orb_true_r.
Qed.

Lemma invalid_call_is_rejected_witness :
  let E := Env (fun _ => Ret tt)
               (fun _ _ => Raise (Exn ConnectionError (str "down")))
               (fun _ _ _ => Raise (Exn ConnectionError (str "down")))
               (fun _ _ => Raise (Exn ConnectionError (str "channel closed")))
               (fun _ => []) [] (fun x => x) [] in
  let w := World (Disk None None None) [] in
  Agent.handle_tool_call E (JStr []) (JDict []) w
    = (Ret (JStr (str "Invalid tool name or arguments.")), w) /\
  Agent.handle_tool_call E (JStr (str "list_directory")) (JList []) w
    = (Ret (JStr (str "Invalid tool name or arguments.")), w).
Proof.
  split.
  - apply invalid_call_is_rejected. left. reflexivity.
  - apply invalid_call_is_rejected. right. reflexivity.
Defined.

(** A valid call reaches the channel once and returns the normalized
    result; a failure of the channel propagates. *)
Lemma handle_tool_call_valid (E : env) tool_name args w :
  truthy tool_name = true -> is_dict args = true ->
  Agent.handle_tool_call E tool_name args w =
    (match mcp_call_tool E tool_name args with
     | Ret result => Ret (Agent.normalize result)
     | Raise e => Raise e
     end,
     World (w_disk w) (w_trace w ++ [EvCallTool tool_name args])).
Proof.
  intros Ht Ha. unfold Agent.handle_tool_call. rewrite Ht, Ha. simpl.
  unfold sbind, Agent.emit_ev, modify, lift, ret.
  destruct (mcp_call_tool E tool_name args); reflexivity.
Qed.

(** The parts of a result are rendered one by one and joined by line
    feeds. *)
Lemma normalize_content item items content structured rendering :
  content = item :: items ->
  Agent.in_list (Agent.extracted_text_of content) Agent.empty_looking = false ->
  Agent.normalize (Some (ToolResult (Some content) structured rendering))
    = JStr (join [newline] (map Agent.render_item content)).
Proof.
  intros -> H. unfold Agent.normalize. cbn [tr_content].
  rewrite H.
  assert (Hne : pystr_eqb (Agent.extracted_text_of (item :: items)) [] = false).
  { unfold Agent.in_list, Agent.empty_looking in H. cbn [existsb] in H.
    apply orb_false_iff in H as [_ H]. apply orb_false_iff in H as [_ H].
    now apply orb_false_iff in H as [H _]. }
  rewrite Hne. reflexivity.
Qed.

Lemma render_item_cases item :
  (ci_type item = Some (str "text") ->
     Agent.render_item item = match ci_text item with Some x => x | None => ci_str item end) /\
  (ci_type item = Some (str "image") -> Agent.render_item item = str "[Image content]") /\
  (ci_type item = Some (str "audio") -> Agent.render_item item = str "[Audio content]") /\
  (ci_type item = Some (str "resource") ->
     Agent.render_item item =
       str "[Resource: " ++ match ci_uri item with Some u => u | None => str "Unknown" end
         ++ str "]") /\
  (forall ty, ci_type item = Some ty ->
     ~ In ty [str "text"; str "image"; str "audio"; str "resource"] ->
     Agent.render_item item = ci_str item).
Proof.
  unfold Agent.render_item. repeat split.
  - intros ->. reflexivity.
  - intros ->. reflexivity.
  - intros ->. reflexivity.
  - intros ->. reflexivity.
  - intros ty -> Hn. simpl in Hn.
    repeat match goal with
    | |- context [pystr_eqb ty ?x] =>
        let Heq := fresh "Heq" in
        destruct (pystr_eqb ty x) eqn:Heq;
        [apply pystr_eqb_eq in Heq; exfalso; apply Hn; subst; auto 6|]
    end.
    reflexivity.
Qed.

(** When the joined text looks empty, the function goes on to
    [str(result)]: the no-signal message is returned only if that
    rendering looks empty too. *)
Lemma normalize_empty_looking_content item items structured rendering :
  Agent.in_list (Agent.extracted_text_of (item :: items)) Agent.empty_looking = true ->
  Agent.normalize (Some (ToolResult (Some (item :: items)) structured rendering))
    = if Agent.in_list rendering Agent.empty_looking
      then JStr Agent.no_signal else JStr rendering.
Proof.
  intros H. unfold Agent.normalize. cbn [tr_content]. rewrite H.
  rewrite andb_false_r. unfold Agent.last_resort. cbn [tr_str].
  now destruct (Agent.in_list rendering Agent.empty_looking).
Qed.

(** C7 (the code departs from the claim). A channel result whose single
    text part is [No results] is normalized to the text [No results], an
    empty-looking output; [handle_tool_call] then returns [str(result)],
    not the no-signal message. *)
Theorem empty_looking_content_returns_rendering :
  let item :=
    ContentItem (Some (str "text")) (Some (str "No results")) None (str "TextContent")
      (qstr "type='text' text='No results' annotations=None") in
  let result :=
    ToolResult (Some [item]) None
      (qstr "meta=None content=[TextContent(type='text', text='No results', annotations=None)] structuredContent=None isError=False") in
  let E := Env (fun _ => Ret tt)
               (fun _ _ => Ret (ChatResponse [] None []))
               (fun _ _ _ => Ret [])
               (fun _ _ => Ret (Some result))
               (fun _ => []) [] (fun x => x) [] in
  let w := World (Disk None None None) [] in
  Agent.extracted_text_of [item] = str "No results" /\
  Agent.in_list (Agent.extracted_text_of [item]) Agent.empty_looking = true /\
  fst (Agent.handle_tool_call E (JStr (str "google_search"))
         (JDict [(str "query", JStr (str "zzz"))]) w) = Ret (JStr (tr_str result)) /\
  fst (Agent.handle_tool_call E (JStr (str "google_search"))
         (JDict [(str "query", JStr (str "zzz"))]) w) <> Ret (JStr Agent.no_signal).
Proof.
  cbv zeta.
  split; [vm_compute; reflexivity|].
  split; [vm_compute; reflexivity|].
  split; [vm_compute; reflexivity|].
  vm_compute. discriminate.
Qed.

Example text_part_is_returned :
  Agent.normalize
    (Some (ToolResult
             (Some [ContentItem (Some (str "text")) (Some (str "42")) None
                      (str "TextContent") (str "...")])
             None (str "...")))
  = JStr (str "42").
Proof. vm_compute. reflexivity. Qed.

Example no_result_object_is_no_signal :
  Agent.normalize None = JStr (str "🚫 No relevant results from tool call.").
Proof. vm_compute. reflexivity. Qed.

(** ** The capability probe *)

(** C4, as amended. The probe returns [False] exactly when its request
    fails with the [ResponseError] of the client, whatever the error
    reply of the runtime behind it; a failure of any other class
    propagates, and a request that succeeds gives [True]. *)
Theorem probe_false_only_on_response_error (E : env) (model : pystr) (w : world) :
  (fst (AIModel.function_call_avaliablity E model w) = Ret false <->
     exists e, ollama_probe E model = Raise e /\ is_ResponseError e = true) /\
  (forall e, ollama_probe E model = Raise e -> is_ResponseError e = false ->
     fst (AIModel.function_call_avaliablity E model w) = Raise e) /\
  (forall u, ollama_probe E model = Ret u ->
     fst (AIModel.function_call_avaliablity E model w) = Ret true).
Proof.
  unfold AIModel.function_call_avaliablity, sbind, try_except, modify, lift, ret, raise.
  destruct (ollama_probe E model) as [u|e] eqn:Hp; cbn.
  - repeat split.
    + discriminate.
    + intros (e & He & _). discriminate.
    + intros e He. discriminate.
  - destruct (is_ResponseError e) eqn:Hr; cbn; repeat split.
    + intros _. eauto.
    + intros e' He'. injection He' as <-. congruence.
    + discriminate.
    + discriminate.
    + intros (e' & He' & Hr'). injection He' as <-. congruence.
    + intros e' He' _. congruence.
    + discriminate.
Qed.

(** C4, the claim as worded fails. The runtime answers the request of
    the probe for a model that is not installed with status 404, which
    the client raises as a [ResponseError]: the failure is not of the
    unsupported-feature kind, and yet the probe returns [False] and
    nothing propagates. *)
Lemma probe_false_on_missing_model :
  let E := Env (fun _ => Raise Scenario.model_not_found)
               (fun _ _ => Ret (ChatResponse [] None []))
               (fun _ _ _ => Ret [])
               (fun _ _ => Ret None)
               (fun _ => []) [] (fun x => x) [] in
  let w := World (Disk None None None) [] in
  let r := AIModel.function_call_avaliablity E (str "gemma3:12b") w in
  ollama_probe E (str "gemma3:12b") = Raise Scenario.model_not_found /\
  Scenario.model_not_found <> Scenario.tools_unsupported /\
  fst r = Ret false /\
  fst r <> Raise Scenario.model_not_found /\
  w_trace (snd r) = [EvProbe (str "gemma3:12b")].
Proof.
  cbv zeta.
  split; [reflexivity|].
  split; [vm_compute; discriminate|].
  split; [vm_compute; reflexivity|].
  split; [vm_compute; discriminate|].
  vm_compute. reflexivity.
Qed.

(** ** Truncation of the conversation memory *)

Lemma slice_from_last {A : Type} (k : nat) (l : list A) :
  (0 < k <= length l)%nat ->
  slice_from (- Z.of_nat k) l = drop (length l - k) l.
Proof.
  intros Hk. unfold slice_from.
  destruct (Z.ltb_spec (- Z.of_nat k) 0) as [_|H]; [|lia].
  f_equal. lia.
Qed.

Lemma length_slice_from_last {A : Type} (k : nat) (l : list A) :
  (0 < k <= length l)%nat -> length (slice_from (- Z.of_nat k) l) = k.
Proof.
  intros Hk. rewrite slice_from_last by assumption.
  rewrite length_drop. lia.
Qed.

Lemma slice_from_sublist {A : Type} (start : Z) (l : list A) :
  sublist (slice_from start l) l.
Proof. unfold slice_from. apply sublist_drop. Qed.

(** The truncation of [load_memory] keeps the last [max_len] turns. *)
Lemma truncate_on_load_length max_len h :
  (1 <= max_len)%Z ->
  (Z.of_nat (length (AIModel.truncate_on_load max_len h)) <= max_len)%Z.
Proof.
  intros Hm. unfold AIModel.truncate_on_load, AIModel.size_of_memory.
  destruct (Z.gtb_spec (Z.of_nat (length h)) max_len) as [Hgt|Hle]; [|lia].
  replace max_len with (Z.of_nat (Z.to_nat max_len)) at 1 by lia.
  rewrite length_slice_from_last by lia. lia.
Qed.

(** Its first turn goes: with one turn too many, the result is the tail. *)
Lemma truncate_on_load_drops_head max_len t rest :
  (1 <= max_len)%Z -> Z.of_nat (length rest) = max_len ->
  AIModel.truncate_on_load max_len (t :: rest) = rest.
Proof.
  intros Hm Hl. unfold AIModel.truncate_on_load, AIModel.size_of_memory.
  destruct (Z.gtb_spec (Z.of_nat (length (t :: rest))) max_len) as [_|Hle];
    [|simpl length in Hle; lia].
  replace max_len with (Z.of_nat (length rest)) by lia.
  assert (Hr : (0 < length rest)%nat) by lia.
  rewrite slice_from_last by (simpl; lia).
  simpl length. replace (S (length rest) - length rest)%nat with 1%nat by lia.
  reflexivity.
Qed.

(** The truncation of [chat], for a bound of at least 2: the size is the
    bound and the first turn stays. *)
Lemma truncate_after_append_exceeding max_len h :
  (2 <= max_len)%Z -> (AIModel.size_of_memory h > max_len)%Z ->
  exists h',
    AIModel.truncate_after_append max_len h = Ret h' /\
    Z.of_nat (length h') = max_len /\
    head h' = head h /\
    sublist h' h.
Proof.
  intros Hm Hs. unfold AIModel.truncate_after_append.
  destruct (Z.gtb_spec (AIModel.size_of_memory h) max_len) as [_|Hle]; [|lia].
  unfold AIModel.size_of_memory in Hs.
  destruct h as [|h0 t]; [simpl in Hs; lia|].
  eexists. split; [reflexivity|].
  replace (max_len - 1)%Z with (Z.of_nat (Z.to_nat (max_len - 1))) by lia.
  assert (Hk : (0 < Z.to_nat (max_len - 1) <= length t)%nat)
    by (simpl length in Hs; lia).
  split; [|split].
  - rewrite length_app, length_slice_from_last by (simpl length; lia).
    simpl length. lia.
  - reflexivity.
  - rewrite slice_from_last by (simpl length; lia).
    simpl length.
    replace (S (length t) - Z.to_nat (max_len - 1))%nat
      with (S (length t - Z.to_nat (max_len - 1))) by lia.
    cbn [drop app]. apply sublist_skip, sublist_drop.
Qed.

Lemma truncate_after_append_within max_len h :
  (AIModel.size_of_memory h <= max_len)%Z ->
  AIModel.truncate_after_append max_len h = Ret h.
Proof.
  intros Hs. unfold AIModel.truncate_after_append.
  destruct (Z.gtb_spec (AIModel.size_of_memory h) max_len); [lia|reflexivity].
Qed.

(** For any bound, the truncation of [chat] never fails on a non-empty
    history and yields a subsequence that starts with the same turn. *)
Lemma truncate_after_append_sublist max_len h :
  h <> [] ->
  exists h',
    AIModel.truncate_after_append max_len h = Ret h' /\
    (sublist h' h \/ exists h0 t, h = h0 :: t /\ h' = h0 :: h0 :: t).
Proof.
  intros Hne. unfold AIModel.truncate_after_append.
  destruct (AIModel.size_of_memory h >? max_len)%Z; [|eauto].
  destruct h as [|h0 t]; [contradiction|].
  eexists. split; [reflexivity|].
  unfold slice_from.
  destruct (- (max_len - 1) <? 0)%Z.
  - destruct (Z.to_nat (Z.max (Z.of_nat (length (h0 :: t)) + - (max_len - 1)) 0))
      as [|k] eqn:Hk.
    + right. exists h0, t. split; reflexivity.
    + left. cbn [drop app]. apply sublist_skip, sublist_drop.
  - destruct (Z.to_nat (Z.min (- (max_len - 1)) (Z.of_nat (length (h0 :: t)))))
      as [|k] eqn:Hk.
    + right. exists h0, t. split; reflexivity.
    + left. cbn [drop app]. apply sublist_skip, sublist_drop.
Qed.

Example truncate_after_append_bound_1 :
  let h := [Turn (str "system") (str "S"); Turn (str "user") (str "a");
            Turn (str "assistant") (str "b")] in
  AIModel.truncate_after_append 1 h = Ret (Turn (str "system") (str "S") :: h).
Proof. vm_compute. reflexivity. Qed.

(** C2 (the code departs from the claim). A memory file of 16 turns whose
    first turn is the system turn exceeds the default bound of 15.
    [load_memory] truncates it to its last 15 turns: the size is the
    bound, but the system turn is gone from the object and from the file;
    the truncation of [chat] on the same sequence keeps it. *)
Theorem load_truncation_drops_system_turn :
  let system_turn := Turn (str "system") (str "You are a helpful assistant.") in
  let rest := concat (repeat [Turn (str "user") (str "ping");
                              Turn (str "assistant") (str "pong")] 7)
              ++ [Turn (str "user") (str "ping")] in
  let file := system_turn :: rest in
  let self := AIModel.Make (str "gemma3:12b") (str "You are a helpful assistant.")
                AIModel.default_max_history_length [] in
  let w := World (Disk (Some file) None None) [] in
  let after := snd (AIModel.load_memory (self, w)) in
  length file = 16%nat /\
  head file = Some system_turn /\
  AIModel.history (fst after) = rest /\
  length (AIModel.history (fst after)) = 15%nat /\
  head (AIModel.history (fst after)) = Some (Turn (str "user") (str "ping")) /\
  memory_file (w_disk (snd after)) = Some rest /\
  AIModel.has_system_role rest = false /\
  (exists kept, AIModel.truncate_after_append 15 file = Ret kept /\
                head kept = Some system_turn /\ length kept = 15%nat).
Proof.
  cbv zeta.
  do 7 (split; [vm_compute; reflexivity|]).
  eexists. split; [vm_compute; reflexivity|].
  split; vm_compute; reflexivity.
Qed.

(** ** [load_memory] and [chat], step by step *)

Ltac run_se :=
  unfold sbind, try_except, when, ret, raise, lift, get, modify,
    AIModel.self_history, AIModel.assign_history, AIModel.emit_ev,
    AIModel.read_memory, AIModel.write_memory; cbn.

(** [load_memory] changes the history only, and leaves the faults of the
    disk as they are. *)
Lemma load_memory_frame m w :
  let s := snd (AIModel.load_memory (m, w)) in
  AIModel.model_name (fst s) = AIModel.model_name m /\
  AIModel.system_instruction (fst s) = AIModel.system_instruction m /\
  AIModel.max_history_length (fst s) = AIModel.max_history_length m /\
  read_fault (w_disk (snd s)) = read_fault (w_disk w) /\
  write_fault (w_disk (snd s)) = write_fault (w_disk w).
Proof.
  destruct m as [name instr max_len h], w as [[file rf wf] tr].
  unfold AIModel.load_memory. run_se.
  destruct rf as [e|]; cbn.
  - destruct (is_FileNotFoundError e); cbn.
    + destruct wf; cbn; auto.
    + auto.
  - destruct file as [h0|]; cbn.
    + destruct (AIModel.size_of_memory h0 >? max_len)%Z; cbn; [|auto].
      destruct wf as [e|]; cbn; [|auto].
      destruct (is_FileNotFoundError e); cbn; auto.
    + destruct wf; cbn; auto.
Qed.

(** Without a write fault, [load_memory] returns. *)
Lemma load_memory_returns m w :
  write_fault (w_disk w) = None ->
  exists b, fst (AIModel.load_memory (m, w)) = Ret b.
Proof.
  destruct m as [name instr max_len h], w as [[file rf wf] tr].
  cbn. intros ->.
  unfold AIModel.load_memory. run_se.
  destruct rf as [e|]; cbn.
  - destruct (is_FileNotFoundError e); cbn; eauto.
  - destruct file as [h0|]; cbn; eauto.
    destruct (AIModel.size_of_memory h0 >? max_len)%Z; cbn; eauto.
Qed.

(** [load_memory] on a file that can be read and written. *)
Lemma load_memory_readable m file tr :
  AIModel.load_memory (m, World (Disk file None None) tr) =
    match file with
    | Some h =>
        if (AIModel.size_of_memory h >? AIModel.max_history_length m)%Z then
          let h' := slice_from (- AIModel.max_history_length m) h in
          (Ret true,
           (AIModel.set_history h' m,
            World (Disk (Some h') None None) ((tr ++ [EvReadMemory]) ++ [EvWriteMemory h'])))
        else
          (Ret true,
           (AIModel.set_history h m, World (Disk (Some h) None None) (tr ++ [EvReadMemory])))
    | None =>
        (Ret true,
         (AIModel.set_history [] m,
          World (Disk (Some []) None None) ((tr ++ [EvReadMemory]) ++ [EvWriteMemory []])))
    end.
Proof.
  destruct m as [name instr max_len h0].
  unfold AIModel.load_memory. run_se.
  destruct file as [h|]; cbn; [|reflexivity].
  destruct (AIModel.size_of_memory h >? max_len)%Z; reflexivity.
Qed.

(** A run of [chat] on a non-empty message: the memory is loaded, the
    system turn ensured, the user turn appended, the runtime called; then,
    under the handler, the content of turn 1 is overwritten with the token
    count, the assistant turn appended, the history truncated and
    written. *)
Lemma chat_run E message m w :
  message <> [] ->
  AIModel.chat E message false (m, w) =
    match AIModel.load_memory (m, w) with
    | (Raise e, s) => (Raise e, s)
    | (Ret _, (m0, w0)) =>
        let sent :=
          AIModel.ensure_system (AIModel.system_instruction m0) (AIModel.history m0)
            ++ [Turn (str "user") message] in
        let tr1 := w_trace w0 ++ [EvChat (AIModel.model_name m0) sent] in
        match ollama_chat E (AIModel.model_name m0) sent with
        | Raise e => (Raise e, (AIModel.set_history sent m0, World (w_disk w0) tr1))
        | Ret response =>
            let h4 :=
              AIModel.set_content_1 (AIModel.str_of_count (eval_count response)) sent
                ++ [Turn (str "assistant") (message_content response)] in
            match AIModel.truncate_after_append (AIModel.max_history_length m0) h4 with
            | Raise _ =>
                (Ret AIModel.chat_failure,
                 (AIModel.set_history h4 m0, World (w_disk w0) tr1))
            | Ret h5 =>
                let tr2 := tr1 ++ [EvWriteMemory h5] in
                match write_fault (w_disk w0) with
                | Some _ =>
                    (Ret AIModel.chat_failure,
                     (AIModel.set_history h5 m0, World (w_disk w0) tr2))
                | None =>
                    (Ret (message_content response),
                     (AIModel.set_history h5 m0,
                      World (Disk (Some h5) (read_fault (w_disk w0)) None) tr2))
                end
            end
        end
    end.
Proof.
  intros Hne. unfold AIModel.chat.
  destruct (pystr_eqb message []) eqn:Hm.
  { apply pystr_eqb_eq in Hm. contradiction. }
  unfold sbind at 1. unfold when at 1. unfold ret at 1.
  unfold sbind at 1.
  destruct (AIModel.load_memory (m, w)) as [[b|e] [m0 w0]]; [|reflexivity].
  run_se.
  destruct (ollama_chat E (AIModel.model_name m0) _) as [response|e]; [|reflexivity].
  cbn.
  destruct (AIModel.truncate_after_append _ _) as [h5|e]; [|reflexivity].
  cbn.
  destruct (write_fault (w_disk w0)) eqn:Hw; cbn; [reflexivity|].
  reflexivity.
Qed.

(** ** The turns across a run of [chat] *)

Lemma ensure_system_cases instruction h :
  (AIModel.has_system_role h = true /\ AIModel.ensure_system instruction h = h) \/
  (AIModel.has_system_role h = false /\
   AIModel.ensure_system instruction h = Turn (str "system") instruction :: h).
Proof.
  unfold AIModel.ensure_system.
  destruct (AIModel.has_system_role h); auto.
Qed.

(** The in-place update of [chat] touches the content of turn 1 only. *)
Lemma set_content_1_same c h :
  TurnLog.same_but_content_1 h (AIModel.set_content_1 c h).
Proof.
  unfold TurnLog.same_but_content_1, AIModel.set_content_1.
  destruct (1 <? length h)%nat; [|auto].
  split; [apply length_alter|]. split.
  - intros i Hi. apply list_lookup_alter_ne. congruence.
  - rewrite (list_fmap_alter role _ (fun x => x)).
    + now apply list_alter_id.
    + now apply Forall_forall.
Qed.

Lemma set_content_1_content c h t :
  (1 < length h)%nat ->
  AIModel.set_content_1 c h !! 1%nat = Some t -> content t = c.
Proof.
  intros Hl. unfold AIModel.set_content_1.
  destruct (Nat.ltb_spec 1 (length h)) as [_|]; [|lia].
  rewrite list_lookup_alter_eq.
  destruct (h !! 1%nat); cbn; [|discriminate].
  intros H. injection H as <-. reflexivity.
Qed.

(** The history sent to the runtime has at least two turns: the update of
    turn 1 always applies. *)
Lemma sent_has_two_turns instruction h x :
  (1 < length (AIModel.ensure_system instruction h ++ [x]))%nat.
Proof.
  rewrite length_app. cbn [length].
  destruct (ensure_system_cases instruction h) as [[Hs ->]|[_ ->]].
  - destruct h; [discriminate|]. cbn [length]. lia.
  - cbn [length]. lia.
Qed.

(** A subsequence as long as the whole sequence is the whole sequence. *)
Lemma sublist_same_length {A : Type} (l1 l2 : list A) :
  sublist l1 l2 -> length l1 = length l2 -> l1 = l2.
Proof.
  induction 1 as [|x l1 l2 _ IH|x l1 l2 Hs _]; cbn [length]; intros Hl.
  - reflexivity.
  - f_equal. apply IH. lia.
  - apply sublist_length in Hs. lia.
Qed.

(** C5 (the code departs from the claim). The memory file holds a system
    turn, a second turn [t1] and further turns, with room for two more
    under the bound; no fault occurs and the runtime answers.  Then
    [chat] returns the reply, and the history and the file are the stored
    turns with the two new turns appended, except that the content of
    the stored turn [t1] has been replaced by the token count of the
    reply.  Unless that was its content already, the log is not
    append-only except for truncation. *)
Theorem chat_overwrites_stored_content (E : env) (message : pystr) (m : AIModel.t)
    (tr : list event) (t0 t1 : turn) (rest : list turn) (response : chat_response) :
  message <> [] ->
  role t0 = str "system" ->
  (Z.of_nat (length rest) + 4 <= AIModel.max_history_length m)%Z ->
  ollama_chat E (AIModel.model_name m) (t0 :: t1 :: rest ++ [Turn (str "user") message])
    = Ret response ->
  let stored := t0 :: t1 :: rest in
  let user := Turn (str "user") message in
  let assistant := Turn (str "assistant") (message_content response) in
  let r := AIModel.chat E message false (m, World (Disk (Some stored) None None) tr) in
  let after :=
    t0 :: Turn (role t1) (AIModel.str_of_count (eval_count response))
       :: rest ++ [user; assistant] in
  fst r = Ret (message_content response) /\
  AIModel.history (fst (snd r)) = after /\
  memory_file (w_disk (snd (snd r))) = Some after /\
  (content t1 <> AIModel.str_of_count (eval_count response) ->
   ~ TurnLog.append_only_except_truncation (AIModel.system_instruction m)
       stored user assistant after).
Proof.
  intros Hne Hrole Hlen Hchat stored user assistant r after.
  assert (Hsys : AIModel.ensure_system (AIModel.system_instruction m) stored = stored).
  { unfold AIModel.ensure_system, AIModel.has_system_role, stored. cbn [existsb].
    rewrite Hrole, pystr_eqb_refl. reflexivity. }
  assert (Hr : r = (Ret (message_content response),
                    (AIModel.set_history after m,
                     World (Disk (Some after) None None)
                       (((tr ++ [EvReadMemory])
                           ++ [EvChat (AIModel.model_name m) (stored ++ [user])])
                          ++ [EvWriteMemory after])))).
  { subst r stored user assistant after.
    rewrite (chat_run E message m _ Hne), load_memory_readable.
    assert (Hsize : (AIModel.size_of_memory (t0 :: t1 :: rest)
                       >? AIModel.max_history_length m)%Z = false).
    { rewrite Z.gtb_ltb. apply Z.ltb_ge. unfold AIModel.size_of_memory.
      cbn [length]. lia. }
    rewrite Hsize. destruct m as [name instr max_len h0].
    cbn [AIModel.set_history AIModel.system_instruction AIModel.history
         AIModel.model_name AIModel.max_history_length w_disk w_trace
         write_fault read_fault] in *.
    cbv zeta. rewrite Hsys. cbn [app]. rewrite Hchat.
    assert (Hset : AIModel.set_content_1 (AIModel.str_of_count (eval_count response))
                     (t0 :: t1 :: rest ++ [Turn (str "user") message])
                     ++ [Turn (str "assistant") (message_content response)]
                   = t0 :: Turn (role t1) (AIModel.str_of_count (eval_count response))
                        :: rest ++ [Turn (str "user") message;
                                    Turn (str "assistant") (message_content response)]).
    { unfold AIModel.set_content_1. cbn [length Nat.ltb Nat.leb].
      cbn [alter list_alter]. cbn [app]. rewrite <- app_assoc. reflexivity. }
    rewrite Hset.
    rewrite truncate_after_append_within.
    - reflexivity.
    - unfold AIModel.size_of_memory. cbn [length]. rewrite length_app.
      cbn [length]. lia. }
  rewrite Hr. cbn [fst snd w_disk memory_file].
  split; [reflexivity|]. split; [destruct m; reflexivity|]. split; [reflexivity|].
  intros Hc Hsub. unfold TurnLog.append_only_except_truncation in Hsub.
  rewrite Hsys in Hsub. apply sublist_same_length in Hsub.
  - unfold after, stored in Hsub. cbn [app] in Hsub.
    injection Hsub as Ht. apply Hc. rewrite <- Ht. reflexivity.
  - unfold after, stored. cbn [length app]. rewrite !length_app. reflexivity.
Qed.

Lemma chat_overwrites_stored_content_witness :
  let E := Scenario.runtime (ChatResponse (str "Hi there") (Some 7%Z) []) (Ret None) [] in
  let w := World (Disk (Some Scenario.stored) None None) [] in
  let r := AIModel.chat E (str "How are you?") false (Scenario.big_model, w) in
  let after :=
    [Turn (str "system") (str "Be brief."); Turn (str "user") (str "7");
     Turn (str "user") (str "How are you?"); Turn (str "assistant") (str "Hi there")] in
  fst r = Ret (str "Hi there") /\
  AIModel.history (fst (snd r)) = after /\
  memory_file (w_disk (snd (snd r))) = Some after /\
  ~ TurnLog.append_only_except_truncation (str "Be brief.") Scenario.stored
      (Turn (str "user") (str "How are you?")) (Turn (str "assistant") (str "Hi there"))
      after.
Proof.
  cbv zeta.
  destruct (chat_overwrites_stored_content
              (Scenario.runtime (ChatResponse (str "Hi there") (Some 7%Z) []) (Ret None) [])
              (str "How are you?") Scenario.big_model []
              (Turn (str "system") (str "Be brief.")) (Turn (str "user") (str "hello")) []
              (ChatResponse (str "Hi there") (Some 7%Z) []))
    as (H1 & H2 & H3 & H4).
  - vm_compute. discriminate.
  - reflexivity.
  - vm_compute. discriminate.
  - reflexivity.
  - split; [exact H1|]. split; [exact H2|]. split; [exact H3|].
    apply H4. vm_compute. discriminate.
Defined.

(** The rest of a run of [chat] (with a bound of at least 2, as the
    default 15) is as the log is described: starting from the turns that
    [load_memory] leaves in the history, it puts the system turn in
    front when no turn has the system role, appends the user turn,
    overwrites the content, not the role, of the turn at index 1 with the
    token count of the reply, appends the assistant turn, and discards
    whole turns by truncation. *)
Lemma chat_keeps_turns_but_content_1 (E : env) (message : pystr)
    (m : AIModel.t) (w : world) (reply : pystr) (m' : AIModel.t) (w' : world) :
  (2 <= AIModel.max_history_length m)%Z ->
  AIModel.chat E message false (m, w) = (Ret reply, (m', w')) ->
  let loaded := AIModel.history (fst (snd (AIModel.load_memory (m, w)))) in
  let sent :=
    AIModel.ensure_system (AIModel.system_instruction m) loaded
      ++ [Turn (str "user") message] in
  (sent = loaded ++ [Turn (str "user") message] \/
   AIModel.has_system_role loaded = false /\
   sent = Turn (str "system") (AIModel.system_instruction m) :: loaded
            ++ [Turn (str "user") message]) /\
  exists response mid,
    ollama_chat E (AIModel.model_name m) sent = Ret response /\
    TurnLog.same_but_content_1 sent mid /\
    (forall t, mid !! 1%nat = Some t ->
               content t = AIModel.str_of_count (eval_count response)) /\
    sublist (AIModel.history m')
      (mid ++ [Turn (str "assistant") (message_content response)]).
Proof.
  intros Hmax H loaded sent.
  assert (Hne : message <> []).
  { intros ->. unfold AIModel.chat in H. cbn in H. discriminate. }
  rewrite (chat_run E message m w Hne) in H.
  pose proof (load_memory_frame m w) as (Hn & Hi & Hm & _ & _).
  subst loaded sent.
  destruct (AIModel.load_memory (m, w)) as [[b|e] [m0 w0]]; [|discriminate].
  cbn [fst snd] in *. rewrite Hn, Hi, Hm in H.
  split.
  { destruct (ensure_system_cases (AIModel.system_instruction m) (AIModel.history m0))
      as [[_ ->]|[Hs ->]]; auto. }
  set (sent := AIModel.ensure_system _ _ ++ _) in *.
  cbv zeta in H.
  destruct (ollama_chat E (AIModel.model_name m) sent) as [response|e]; [|discriminate].
  exists response, (AIModel.set_content_1 (AIModel.str_of_count (eval_count response)) sent).
  split; [reflexivity|].
  split; [apply set_content_1_same|].
  split; [intros t; apply set_content_1_content; apply sent_has_two_turns|].
  set (h4 := AIModel.set_content_1 _ sent ++ _) in *.
  assert (Hh : exists h5, AIModel.truncate_after_append (AIModel.max_history_length m) h4
                          = Ret h5 /\ sublist h5 h4).
  { destruct (Z.gtb_spec (AIModel.size_of_memory h4) (AIModel.max_history_length m))
      as [Hgt|Hle].
    - destruct (truncate_after_append_exceeding _ h4 Hmax) as (h5 & -> & _ & _ & Hs);
        [lia|eauto].
    - rewrite truncate_after_append_within by assumption. eauto. }
  destruct Hh as (h5 & Hh5 & Hsub). rewrite Hh5 in H.
  destruct (write_fault (w_disk w0)); injection H as _ <- _; exact Hsub.
Qed.

(** With a system turn and one user turn stored, a query whose reply
    reports 7 tokens leaves the stored user turn with the content [7]:
    the turns after the run are not a subsequence of the stored and the
    new turns. *)
Example chat_overwrites_stored_turn :
  let E := Scenario.runtime (ChatResponse (str "Hi there") (Some 7%Z) []) (Ret None) [] in
  let w := World (Disk (Some Scenario.stored) None None) [] in
  let r := AIModel.chat E (str "How are you?") false (Scenario.big_model, w) in
  fst r = Ret (str "Hi there") /\
  AIModel.history (fst (snd r)) =
    [Turn (str "system") (str "Be brief."); Turn (str "user") (str "7");
     Turn (str "user") (str "How are you?"); Turn (str "assistant") (str "Hi there")] /\
  memory_file (w_disk (snd (snd r))) = Some (AIModel.history (fst (snd r))) /\
  ~ TurnLog.append_only_except_truncation (str "Be brief.") Scenario.stored
      (Turn (str "user") (str "How are you?")) (Turn (str "assistant") (str "Hi there"))
      (AIModel.history (fst (snd r))).
Proof.
  cbv zeta.
  do 3 (split; [vm_compute; reflexivity|]).
  unfold TurnLog.append_only_except_truncation. intros Hsub.
  apply sublist_subseteq in Hsub.
  assert (Hin : Turn (str "user") (str "7") ∈
                AIModel.ensure_system (str "Be brief.") Scenario.stored
                  ++ [Turn (str "user") (str "How are you?");
                      Turn (str "assistant") (str "Hi there")]).
  { apply Hsub. vm_compute. apply list_elem_of_further, list_elem_of_here. }
  apply list_elem_of_In in Hin. vm_compute in Hin.
  repeat (destruct Hin as [Hin|Hin]; [discriminate Hin|]). exact Hin.
Qed.

Lemma chat_keeps_turns_but_content_1_witness :
  let E := Scenario.runtime (ChatResponse (str "Hi there") (Some 7%Z) []) (Ret None) [] in
  let w := World (Disk (Some Scenario.stored) None None) [] in
  let r := AIModel.chat E (str "How are you?") false (Scenario.big_model, w) in
  let loaded := AIModel.history (fst (snd (AIModel.load_memory (Scenario.big_model, w)))) in
  let sent :=
    AIModel.ensure_system (AIModel.system_instruction Scenario.big_model) loaded
      ++ [Turn (str "user") (str "How are you?")] in
  (sent = loaded ++ [Turn (str "user") (str "How are you?")] \/
   AIModel.has_system_role loaded = false /\
   sent = Turn (str "system") (AIModel.system_instruction Scenario.big_model) :: loaded
            ++ [Turn (str "user") (str "How are you?")]) /\
  exists response mid,
    ollama_chat E (AIModel.model_name Scenario.big_model) sent = Ret response /\
    TurnLog.same_but_content_1 sent mid /\
    (forall t, mid !! 1%nat = Some t ->
               content t = AIModel.str_of_count (eval_count response)) /\
    sublist (AIModel.history (fst (snd r)))
      (mid ++ [Turn (str "assistant") (message_content response)]).
Proof.
  cbv zeta.
  apply (chat_keeps_turns_but_content_1 _ _ _ _ (str "Hi there")
           _ (snd (snd (AIModel.chat
                          (Scenario.runtime (ChatResponse (str "Hi there") (Some 7%Z) [])
                             (Ret None) [])
                          (str "How are you?") false
                          (Scenario.big_model,
                           World (Disk (Some Scenario.stored) None None) []))))).
  - vm_compute. discriminate.
  - vm_compute. reflexivity.
Defined.

(** ** [handle_user_query]: native tool calls *)

(** C3 (the code departs from the claim). A reply of the runtime that
    carries a native tool call, with an empty content as such replies
    have, is answered as a direct response: [chat] returns the content
    only, so the tool is not dispatched and the second pass does not run.
    And the branch of the source that dispatches native tool calls, when
    it is given the reply as a [dict], returns the raw dispatch result
    under the tag of a tool call without the second pass. *)
Theorem native_tool_call_skips_second_pass :
  let call := (str "google_search", JDict [(str "query", JStr (str "AI news"))]) in
  let E := Scenario.runtime (ChatResponse [] (Some 12%Z) [call])
             (Ret (Some (Scenario.text_result (str "42")))) (str "formatted") in
  let w := World (Disk (Some Scenario.stored) None None) [] in
  let r := Agent.handle_user_query E Scenario.agent (str "Any AI news?") w in
  let as_dict :=
    JDict [(str "message",
            JDict [(str "content", JStr []);
                   (str "tool_calls",
                    JList [JDict [(str "function",
                                   JDict [(str "name", JStr (fst call));
                                          (str "arguments", snd call)])]])])] in
  let r' := Agent.interpret_response E Scenario.agent true (str "Any AI news?") as_dict w in
  fst r = Ret (str "💭 **Direct Response:**" ++ [newline; newline]) /\
  Forall (fun ev => match ev with
                    | EvCallTool _ _ | EvGenerate _ _ _ => False
                    | _ => True
                    end) (w_trace (snd r)) /\
  fst r' = Ret (str "🔍 **Tool Call Result:**" ++ [newline; newline] ++ str "42") /\
  w_trace (snd r') = [EvCallTool (JStr (fst call)) (snd call)].
Proof.
  cbv zeta.
  split; [vm_compute; reflexivity|].
  split; [vm_compute; repeat constructor|].
  split; vm_compute; reflexivity.
Qed.

(** On the path of text extraction, a tool name that is not [None] leads
    to the dispatch, then to the second pass on what the dispatch
    returned, then to the tagged answer. *)
Lemma extracted_call_is_dispatched_then_formatted E self q text tool_name args w :
  handle_json_fields text = Ret (tool_name, args) -> tool_name <> JNull ->
  Agent.extract_and_answer E self q (JStr text) w =
    (tool_result <~ Agent.handle_tool_call E tool_name args ;;
     formatted <~ Agent.small_model_handle_tool_response E self tool_result
                    (Agent.Small_model self) q ;;
     ret (Agent.tool_tag ++ formatted)) w.
Proof.
  intros Hx Hn. unfold Agent.extract_and_answer.
  unfold sbind at 1. unfold lift. rewrite Hx. cbn [fst snd].
  destruct tool_name; [contradiction| | | | | |]; reflexivity.
Qed.

Example extracted_tool_call_is_formatted :
  let E := Scenario.runtime
             (ChatResponse (qstr "{'tool_name': 'google_search', 'args': {'query': 'AI news'}}")
                (Some 12%Z) [])
             (Ret None) (str "Nothing relevant was found.") in
  let w := World (Disk (Some Scenario.stored) None None) [] in
  let r := Agent.handle_user_query E Scenario.agent (str "Any AI news?") w in
  fst r = Ret (str "🔍 **Tool Call Result:**" ++ [newline; newline]
               ++ str "Nothing relevant was found.") /\
  drop 5 (w_trace (snd r)) =
    [EvCallTool (JStr (str "google_search")) (JDict [(str "query", JStr (str "AI news"))]);
     EvReadMemory;
     EvGenerate (str "gemma3:1b") (str "🚫 No relevant results from tool call.")
       (str "<formatter instruction>")].
Proof. cbv zeta. split; vm_compute; reflexivity. Qed.

(** ** [handle_user_query]: faults *)

Lemma handle_user_query_returns E self q w :
  exists answer, fst (Agent.handle_user_query E self q w) = Ret answer.
Proof.
  unfold Agent.handle_user_query, try_except, ret.
  destruct (Agent.handle_user_query_body E self q w) as [[a|e] w']; cbn; eauto.
Qed.

Lemma handle_user_query_catches E self q w e :
  fst (Agent.handle_user_query_body E self q w) = Raise e ->
  fst (Agent.handle_user_query E self q w) = Ret (Agent.error_tag ++ exn_str e).
Proof.
  unfold Agent.handle_user_query, try_except, ret.
  destruct (Agent.handle_user_query_body E self q w) as [[a|e'] w']; cbn;
    [discriminate|].
  intros H. injection H as ->. reflexivity.
Qed.

Lemma handle_user_query_passes E self q w a :
  fst (Agent.handle_user_query_body E self q w) = Ret a ->
  fst (Agent.handle_user_query E self q w) = Ret a.
Proof.
  unfold Agent.handle_user_query, try_except, ret.
  destruct (Agent.handle_user_query_body E self q w) as [[a'|e'] w']; cbn;
    [|discriminate].
  intros H. injection H as ->. reflexivity.
Qed.

(** The probe lets the body go on unless it fails with something else
    than a [ResponseError]. *)
Lemma body_after_probe E self q w :
  let w1 := World (w_disk w) (w_trace w ++ [EvProbe (Agent.Big_model self)]) in
  Agent.handle_user_query_body E self q w =
    match ollama_probe E (Agent.Big_model self) with
    | Ret _ => Agent.run_branch E self true (native_instruction E) q w1
    | Raise e =>
        if is_ResponseError e
        then Agent.run_branch E self false
               (text_instruction E (Agent.list_of_tools self)) q w1
        else (Raise e, w1)
    end.
Proof.
  unfold Agent.handle_user_query_body, AIModel.function_call_avaliablity.
  unfold sbind at 1 2. unfold try_except, modify, lift. cbn.
  destruct (ollama_probe E (Agent.Big_model self)) as [u|e]; cbn; [reflexivity|].
  destruct (is_ResponseError e); reflexivity.
Qed.

(** A branch whose runtime fails raises that failure. *)
Lemma run_branch_model_fault E self native instruction q w e :
  write_fault (w_disk w) = None -> q <> [] ->
  (forall model messages, ollama_chat E model messages = Raise e) ->
  fst (Agent.run_branch E self native instruction q w) = Raise e.
Proof.
  intros Hw Hq Hc. unfold Agent.run_branch, AIModel.init, AIModel.call.
  unfold sbind at 1.
  pose proof (load_memory_returns
                (AIModel.Make (Agent.Big_model self) instruction
                   AIModel.default_max_history_length []) w Hw) as [b Hb].
  pose proof (load_memory_frame
                (AIModel.Make (Agent.Big_model self) instruction
                   AIModel.default_max_history_length []) w) as (_ & _ & _ & _ & Hwf).
  destruct (AIModel.load_memory _) as [[b'|e'] [m0 w0]]; [|discriminate].
  cbn [fst snd] in Hwf. rewrite Hw in Hwf.
  unfold sbind at 1. rewrite (chat_run E q m0 w0 Hq).
  pose proof (load_memory_returns m0 w0 Hwf) as [b2 Hb2].
  destruct (AIModel.load_memory (m0, w0)) as [[b''|e''] [m1 w1]]; [|discriminate].
  cbv zeta. rewrite Hc. reflexivity.
Qed.

(** A branch whose runtime replies goes on with the interpretation of the
    content of the reply. *)
Lemma run_branch_reply E self native instruction q w response :
  write_fault (w_disk w) = None -> q <> [] ->
  (forall model messages, ollama_chat E model messages = Ret response) ->
  exists w',
    Agent.run_branch E self native instruction q w
      = Agent.interpret_response E self native q (JStr (message_content response)) w'.
Proof.
  intros Hw Hq Hc. unfold Agent.run_branch, AIModel.init, AIModel.call.
  unfold sbind at 1.
  pose proof (load_memory_returns
                (AIModel.Make (Agent.Big_model self) instruction
                   AIModel.default_max_history_length []) w Hw) as [b Hb].
  pose proof (load_memory_frame
                (AIModel.Make (Agent.Big_model self) instruction
                   AIModel.default_max_history_length []) w) as (_ & _ & Hmax & _ & Hwf).
  destruct (AIModel.load_memory _) as [[b'|e'] [m0 w0]]; [|discriminate].
  cbn [fst snd] in Hwf, Hmax. rewrite Hw in Hwf.
  unfold sbind at 1. rewrite (chat_run E q m0 w0 Hq).
  pose proof (load_memory_returns m0 w0 Hwf) as [b2 Hb2].
  pose proof (load_memory_frame m0 w0) as (_ & _ & Hmax' & _ & Hwf').
  destruct (AIModel.load_memory (m0, w0)) as [[b''|e''] [m1 w1]]; [|discriminate].
  cbn [fst snd] in Hwf', Hmax'. rewrite Hwf in Hwf'.
  cbv zeta. rewrite Hc.
  set (h4 := AIModel.set_content_1 _ _ ++ _).
  destruct (truncate_after_append_sublist (AIModel.max_history_length m1) h4)
    as (h5 & -> & _).
  { subst h4. intros H. apply (f_equal length) in H.
    rewrite length_app in H. cbn in H. lia. }
  rewrite Hwf'. cbn [fst]. eauto.
Qed.

(** A failure of the channel leaves the tail of the branch as raised. *)
Lemma extract_and_answer_dispatch_fault E self q text tool_name args w e :
  handle_json_fields text = Ret (tool_name, args) ->
  truthy tool_name = true -> is_dict args = true ->
  mcp_call_tool E tool_name args = Raise e ->
  fst (Agent.extract_and_answer E self q (JStr text) w) = Raise e.
Proof.
  intros Hx Ht Ha Hc. unfold Agent.extract_and_answer.
  unfold sbind at 1. unfold lift. rewrite Hx. cbn [fst snd].
  assert (Hd : fst (Agent.handle_tool_call E tool_name args w) = Raise e).
  { rewrite handle_tool_call_valid by assumption. now rewrite Hc. }
  destruct tool_name; try discriminate Ht;
    unfold sbind;
    destruct (Agent.handle_tool_call E _ args w) as [[r|e'] w']; cbn in Hd;
      try discriminate Hd; injection Hd as ->; reflexivity.
Qed.

(** A missing memory file that cannot be created stops the branch. *)
Lemma run_branch_cannot_create_memory E self native instruction q w e :
  memory_file (w_disk w) = None -> read_fault (w_disk w) = None ->
  write_fault (w_disk w) = Some e ->
  fst (Agent.run_branch E self native instruction q w) = Raise e.
Proof.
  destruct w as [[file rf wf] tr]. cbn. intros -> -> ->.
  unfold Agent.run_branch, AIModel.init. unfold sbind at 1.
  unfold AIModel.load_memory. run_se. reflexivity.
Qed.

(** A fault that [load_memory] absorbs: a read that fails with anything
    but [FileNotFoundError] gives [False] and leaves the history as it
    was. *)
Lemma load_memory_read_fault m w e :
  read_fault (w_disk w) = Some e -> is_FileNotFoundError e = false ->
  AIModel.load_memory (m, w)
    = (Ret false, (m, World (w_disk w) (w_trace w ++ [EvReadMemory]))).
Proof.
  destruct w as [[file rf wf] tr]. cbn. intros -> He.
  unfold AIModel.load_memory. run_se. rewrite He. reflexivity.
Qed.

(** C6, the claim as worded fails. With a memory file that cannot be
    decoded, the read raises in [load_memory], which absorbs the fault;
    the query goes on with an empty history and is answered as a direct
    response: the answer is not an error line and does not carry the
    description of the fault. *)
Lemma read_fault_is_not_reported :
  let E := Scenario.runtime (ChatResponse (str "Hi there") (Some 7%Z) []) (Ret None) [] in
  let w := World (Disk (Some Scenario.stored) (Some Scenario.corrupt) None) [] in
  let r := Agent.handle_user_query E Scenario.agent (str "How are you?") w in
  read_fault (w_disk w) = Some Scenario.corrupt /\
  w_trace (snd r) !! 1%nat = Some EvReadMemory /\
  fst r = Ret (str "💭 **Direct Response:**" ++ [newline; newline] ++ str "Hi there") /\
  fst r <> Ret (Agent.error_tag ++ exn_str Scenario.corrupt).
Proof.
  cbv zeta.
  split; [reflexivity|].
  split; [vm_compute; reflexivity|].
  split; [vm_compute; reflexivity|].
  vm_compute. discriminate.
Qed.

(** A failed write at the end of [chat] is absorbed by the handler of
    [chat], whose fixed text is then answered as a direct response. *)
Example write_fault_in_chat :
  let E := Scenario.runtime (ChatResponse (str "Hi there") (Some 7%Z) []) (Ret None) [] in
  let w := World (Disk (Some Scenario.stored) None (Some Scenario.disk_full)) [] in
  let r := Agent.handle_user_query E Scenario.agent (str "How are you?") w in
  (exists h, last (w_trace (snd r)) = Some (EvWriteMemory h)) /\
  fst r = Ret (str "💭 **Direct Response:**" ++ [newline; newline]
               ++ str "Error: Failed to get response from model").
Proof.
  cbv zeta. split; [eexists; vm_compute; reflexivity|].
  vm_compute. reflexivity.
Qed.

(** C6, as amended. [handle_user_query] never raises: it returns an
    answer, and whenever a fault escapes the body of its [try] the answer
    is the error line followed by the description of the fault.  This is
    the case for a failure of the probe other than a [ResponseError], for
    a failure of the model invocation, for a failure of the tool channel
    during dispatch, and for a missing memory file that cannot be
    created.  A read of the memory file that fails otherwise is absorbed
    by [load_memory] and does not end the query. *)
Theorem handle_user_query_converts_faults (E : env) (self : Agent.t) (q : pystr)
    (w : world) :
  let answer := fst (Agent.handle_user_query E self q w) in
  let error_line (e : exn) := Ret (Agent.error_tag ++ exn_str e) in
  (exists a, answer = Ret a) /\
  (forall e, fst (Agent.handle_user_query_body E self q w) = Raise e ->
             answer = error_line e) /\
  (forall e, ollama_probe E (Agent.Big_model self) = Raise e ->
             is_ResponseError e = false ->
             answer = error_line e) /\
  (forall e, Agent.probe_passes E self -> write_fault (w_disk w) = None -> q <> [] ->
             (forall model messages, ollama_chat E model messages = Raise e) ->
             answer = error_line e) /\
  (forall e response text tool_name args,
             Agent.probe_passes E self -> write_fault (w_disk w) = None -> q <> [] ->
             (forall model messages, ollama_chat E model messages = Ret response) ->
             Agent.content_of_text (message_content response) = Ret (JStr text) ->
             handle_json_fields text = Ret (tool_name, args) ->
             truthy tool_name = true -> is_dict args = true ->
             mcp_call_tool E tool_name args = Raise e ->
             answer = error_line e) /\
  (forall e, Agent.probe_passes E self ->
             memory_file (w_disk w) = None -> read_fault (w_disk w) = None ->
             write_fault (w_disk w) = Some e ->
             answer = error_line e) /\
  (forall e m tr, read_fault (w_disk w) = Some e -> is_FileNotFoundError e = false ->
             AIModel.load_memory (m, World (w_disk w) tr)
               = (Ret false, (m, World (w_disk w) (tr ++ [EvReadMemory])))).
Proof.
  cbv zeta.
  split; [apply handle_user_query_returns|].
  split; [apply handle_user_query_catches|].
  split; [|split; [|split; [|split]]].
  - intros e Hp Hr. apply handle_user_query_catches.
    rewrite body_after_probe. cbv zeta. rewrite Hp, Hr. reflexivity.
  - intros e Hp Hw Hq Hc. apply handle_user_query_catches.
    rewrite body_after_probe. cbv zeta.
    destruct (ollama_probe E (Agent.Big_model self)) as [u|e0] eqn:Hprobe.
    + now apply run_branch_model_fault.
    + rewrite (Hp e0 Hprobe). now apply run_branch_model_fault.
  - intros e response text tool_name args Hp Hw Hq Hc Hcontent Hx Ht Ha Hcall.
    apply handle_user_query_catches.
    rewrite body_after_probe. cbv zeta.
    assert (Hbranch : forall native instruction,
               fst (Agent.run_branch E self native instruction q
                      (World (w_disk w) (w_trace w ++ [EvProbe (Agent.Big_model self)])))
               = Raise e).
    { intros native instruction.
      destruct (run_branch_reply E self native instruction q
                  (World (w_disk w) (w_trace w ++ [EvProbe (Agent.Big_model self)]))
                  response Hw Hq Hc) as [w' ->].
      unfold Agent.interpret_response. unfold sbind at 1. unfold lift.
      rewrite Hcontent.
      now apply (extract_and_answer_dispatch_fault E self q text tool_name args). }
    destruct (ollama_probe E (Agent.Big_model self)) as [u|e0] eqn:Hprobe.
    + apply Hbranch.
    + rewrite (Hp e0 Hprobe). apply Hbranch.
  - intros e Hp Hf Hr Hw. apply handle_user_query_catches.
    rewrite body_after_probe. cbv zeta.
    destruct (ollama_probe E (Agent.Big_model self)) as [u|e0] eqn:Hprobe.
    + now apply run_branch_cannot_create_memory.
    + rewrite (Hp e0 Hprobe). now apply run_branch_cannot_create_memory.
  - intros e m tr Hr He.
    now apply (load_memory_read_fault m (World (w_disk w) tr) e).
Qed.

Lemma handle_user_query_converts_faults_witness :
  let w := World (Disk (Some Scenario.stored) None None) [] in
  let down :=
    Env (fun _ => Ret tt) (fun _ _ => Raise Scenario.unreachable)
        (fun _ _ _ => Raise Scenario.unreachable) (fun _ _ => Ret None)
        (fun _ => []) [] (fun x => x) [] in
  let calling :=
    Scenario.runtime
      (ChatResponse (qstr "{'tool_name': 'google_search', 'args': {'query': 'AI news'}}")
         (Some 12%Z) [])
      (Raise Scenario.channel_closed) [] in
  fst (Agent.handle_user_query down Scenario.agent (str "How are you?") w)
    = Ret (Agent.error_tag ++ exn_str Scenario.unreachable) /\
  fst (Agent.handle_user_query calling Scenario.agent (str "Any AI news?") w)
    = Ret (Agent.error_tag ++ exn_str Scenario.channel_closed).
Proof.
  cbv zeta. split.
  - destruct (handle_user_query_converts_faults
                (Env (fun _ => Ret tt) (fun _ _ => Raise Scenario.unreachable)
                   (fun _ _ _ => Raise Scenario.unreachable) (fun _ _ => Ret None)
                   (fun _ => []) [] (fun x => x) [])
                Scenario.agent (str "How are you?")
                (World (Disk (Some Scenario.stored) None None) []))
      as (_ & _ & _ & Hmodel & _).
    apply Hmodel.
    + intros e H. discriminate H.
    + reflexivity.
    + discriminate.
    + reflexivity.
  - destruct (handle_user_query_converts_faults
                (Scenario.runtime
                   (ChatResponse
                      (qstr "{'tool_name': 'google_search', 'args': {'query': 'AI news'}}")
                      (Some 12%Z) [])
                   (Raise Scenario.channel_closed) [])
                Scenario.agent (str "Any AI news?")
                (World (Disk (Some Scenario.stored) None None) []))
      as (_ & _ & _ & _ & Hdispatch & _).
    apply (Hdispatch Scenario.channel_closed
             (ChatResponse
                (qstr "{'tool_name': 'google_search', 'args': {'query': 'AI news'}}")
                (Some 12%Z) [])
             (qstr "{'tool_name': 'google_search', 'args': {'query': 'AI news'}}")
             (JStr (str "google_search"))
             (JDict [(str "query", JStr (str "AI news"))])).
    + intros e H. discriminate H.
    + reflexivity.
    + discriminate.
    + reflexivity.
    + vm_compute. reflexivity.
    + vm_compute. reflexivity.
    + reflexivity.
    + reflexivity.
    + reflexivity.
Defined.

(** * Further properties of the code *)

(** ** [handle_json_fields]: when it raises *)

Lemma scan_members_dict (fuel : nat) :
  forall depth s acc v r,
    scan_members fuel depth s acc = Scanned v r -> is_dict v = true.
Proof.
  induction fuel as [|f IH]; intros depth s acc v r H; [discriminate|].
  cbn [scan_members] in H.
  destruct s as [|c s]; [discriminate|].
  destruct (c =? 34); [|discriminate].
  destruct (scanstring s) as [[key r1]|]; [|discriminate].
  destruct (skip_ws r1) as [|c1 r2]; [discriminate|].
  destruct (c1 =? 58); [|discriminate].
  destruct (scan_once f depth (skip_ws r2)) as [v0 r3| | |]; try discriminate.
  destruct (skip_ws r3) as [|c3 r4]; [discriminate|].
  destruct (c3 =? 125); [injection H as <- <-; reflexivity|].
  destruct (c3 =? 44); [|discriminate].
  now apply IH in H.
Qed.

(** A text that starts with an opening brace parses, if at all, to a
    dictionary. *)
Lemma json_loads_brace x v :
  json_loads (lbrace :: x) = Decoded v -> is_dict v = true.
Proof.
  unfold json_loads.
  change (startswith [65279] (lbrace :: x)) with false. cbv iota.
  change (skip_ws (lbrace :: x)) with (lbrace :: x).
  destruct (2 * length (lbrace :: x) + 2)%nat as [|f] eqn:Hf;
    [cbn [length] in Hf; lia|].
  cbn [scan_once].
  change (lbrace =? 34) with false. change (lbrace =? 123) with true. cbv iota.
  destruct recursion_budget as [|d]; [discriminate|].
  destruct (skip_ws x) as [|c' r']; [discriminate|].
  destruct (c' =? 125).
  - destruct (skip_ws r'); [|discriminate]. intros H. injection H as <-. reflexivity.
  - destruct (scan_members _ _ _ _) as [v0 rest| | |] eqn:Hm; try discriminate.
    apply scan_members_dict in Hm.
    destruct (skip_ws rest); [|discriminate]. intros H. injection H as <-. exact Hm.
Qed.

Lemma sub_head close repl c s :
  c <> comma ->
  sub (Seq [Chr comma; Star isspace; Chr close]) repl (c :: s)
    = c :: sub (Seq [Chr comma; Star isspace; Chr close]) repl s.
Proof.
  intros Hc. unfold sub. cbn [sub_from].
  now rewrite (match_at_not_comma close c s Hc).
Qed.

Lemma clean_json_text_brace x :
  exists y, clean_json_text (lbrace :: x) = lbrace :: y.
Proof.
  unfold clean_json_text, comma_brace_pattern, comma_bracket_pattern.
  rewrite (sub_head rbrace) by discriminate.
  rewrite (sub_head rbracket) by discriminate. eauto.
Qed.

Lemma lstrip_head c s : isspace c = false -> lstrip (c :: s) = c :: s.
Proof. intros H. cbn [lstrip]. now rewrite H. Qed.

(** [strip] leaves a text alone whose first and last characters are not
    blank. *)
Lemma strip_enclosed c mid d :
  isspace c = false -> isspace d = false ->
  strip (c :: mid ++ [d]) = c :: mid ++ [d].
Proof.
  intros Hc Hd. unfold strip. rewrite (lstrip_head c _ Hc).
  change (c :: mid ++ [d]) with ((c :: mid) ++ [d]).
  rewrite rev_app_distr. cbn [rev app].
  rewrite (lstrip_head d _ Hd).
  change (d :: rev mid ++ [c]) with ([d] ++ (rev mid ++ [c])).
  rewrite rev_app_distr, rev_app_distr, rev_involutive. reflexivity.
Qed.

(** A match of one of the two brace patterns starts with an opening and
    ends with a closing brace. *)
Lemma search_brace_shape (cls1 cls2 : N -> bool) text m :
  search (Seq [Chr lbrace; Star cls1; Lit key_tool_name; Star cls2; Chr rbrace]) text
    = Some m ->
  exists mid, group0 m = lbrace :: mid ++ [rbrace].
Proof.
  intros H. apply search_sound in H as (pre & _ & Hl).
  destruct Hl as (w1 & r1 & Hw & Hw1 & Hl). change (w1 = [lbrace]) in Hw1. subst w1.
  destruct Hl as (w2 & r2 & -> & _ & Hl).
  destruct Hl as (w3 & r3 & -> & _ & Hl).
  destruct Hl as (w4 & r4 & -> & _ & Hl).
  destruct Hl as (w5 & r5 & -> & Hw5 & Hr5).
  change (w5 = [rbrace]) in Hw5. change (r5 = []) in Hr5. subst w5 r5.
  exists (w2 ++ w3 ++ w4). rewrite Hw. cbn [app].
  rewrite <- !app_assoc. reflexivity.
Qed.

Lemma brace_candidate_parses_to_dict (cls1 cls2 : N -> bool) text m v :
  search (Seq [Chr lbrace; Star cls1; Lit key_tool_name; Star cls2; Chr rbrace]) text
    = Some m ->
  json_loads (clean_json_text (strip (group0 m))) = Decoded v ->
  is_dict v = true.
Proof.
  intros Hs Hv. apply search_brace_shape in Hs as [mid Hg].
  rewrite Hg, strip_enclosed in Hv by reflexivity.
  destruct (clean_json_text_brace (mid ++ [rbrace])) as [y Hy].
  rewrite Hy in Hv. now apply json_loads_brace in Hv.
Qed.

Lemma limit_exn_class l :
  exn_cls (limit_exn l) = ValueError \/
  exn_cls (limit_exn l) = Other (str "RecursionError").
Proof. destruct l; [left|right]; reflexivity. Qed.

(** X1. [handle_json_fields] raises in two situations only.  Either no
    flat object with the key is in the text, a fenced block is, and the
    body of the block parses as JSON to something that is not an object:
    the exception is the [AttributeError] of the call of [get].  Or the
    parser stops on the cleaned candidate at a limit of the interpreter:
    the exception is the [ValueError] of an integer of more than 4300
    digits or the [RecursionError] of the nesting. *)
Theorem extractor_raise_cases text e :
  handle_json_fields text = Raise e ->
  (exists cand v,
     contains fence text = true /\
     search json_pattern text = None /\
     find_candidate text = Some cand /\
     json_loads (clean_json_text cand) = Decoded v /\
     is_dict v = false /\
     exn_cls e = AttributeError) \/
  (exists cand l,
     find_candidate text = Some cand /\
     json_loads (clean_json_text cand) = Exceeded l /\
     e = limit_exn l /\
     (exn_cls e = ValueError \/ exn_cls e = Other (str "RecursionError"))).
Proof.
  intros H.
  destruct (find_candidate text) as [cand|] eqn:Hc.
  2:{ rewrite has_json_markers_unused in H by assumption. discriminate. }
  rewrite (handle_json_fields_candidate text cand Hc) in H.
  destruct (json_loads (clean_json_text cand)) as [v| |l] eqn:Hv; [|discriminate|].
  2:{ right. exists cand, l. injection H as <-.
      split; [reflexivity|]. split; [exact Hv|]. split; [reflexivity|].
      apply limit_exn_class. }
  left. exists cand, v.
  assert (Hnd : is_dict v = false).
  { destruct v; try reflexivity. cbn in H. discriminate. }
  assert (He : exn_cls e = AttributeError).
  { destruct v; try discriminate Hnd; cbn in H; injection H as <-; reflexivity. }
  pose proof Hc as Hfound.
  unfold find_candidate in Hc.
  destruct (search json_pattern text) as [m|] eqn:H1.
  { injection Hc as <-.
    rewrite (brace_candidate_parses_to_dict _ _ text m v H1 Hv) in Hnd. discriminate. }
  destruct (search code_block_pattern text) as [m|] eqn:H2.
  { apply search_code_block_found in H2. repeat split; assumption. }
  destruct (search flexible_pattern text) as [m|] eqn:H3; [|discriminate].
  injection Hc as <-.
  rewrite (brace_candidate_parses_to_dict _ _ text m v H3 Hv) in Hnd. discriminate.
Qed.

Lemma extractor_raise_cases_witness :
  let text := str "```" ++ [newline] ++ str "[1, 2]" ++ [newline] ++ str "```" in
  let e := Exn AttributeError (str "'list' object has no attribute 'get'") in
  handle_json_fields text = Raise e /\
  ((exists cand v,
      contains fence text = true /\
      search json_pattern text = None /\
      find_candidate text = Some cand /\
      json_loads (clean_json_text cand) = Decoded v /\
      is_dict v = false /\
      exn_cls e = AttributeError) \/
   (exists cand l,
      find_candidate text = Some cand /\
      json_loads (clean_json_text cand) = Exceeded l /\
      e = limit_exn l /\
      (exn_cls e = ValueError \/ exn_cls e = Other (str "RecursionError")))).
Proof.
  cbv zeta.
  assert (H : handle_json_fields
                (str "```" ++ [newline] ++ str "[1, 2]" ++ [newline] ++ str "```")
              = Raise (Exn AttributeError (str "'list' object has no attribute 'get'")))
    by (vm_compute; reflexivity).
  split; [exact H|]. exact (extractor_raise_cases _ _ H).
Defined.

(** ** [handle_tool_call]: what it returns *)

Lemma no_signal_not_empty_looking :
  Agent.in_list Agent.no_signal Agent.empty_looking = false.
Proof. vm_compute. reflexivity. Qed.

Lemma last_resort_not_empty_looking result s :
  Agent.last_resort result = JStr s -> Agent.in_list s Agent.empty_looking = false.
Proof.
  unfold Agent.last_resort.
  destruct (Agent.in_list (tr_str result) Agent.empty_looking) eqn:Hr; cbn.
  - intros H. injection H as <-. apply no_signal_not_empty_looking.
  - intros H. injection H as <-. exact Hr.
Qed.

(** X2. [handle_tool_call] returns one of the empty-looking texts only
    when the channel result has no content parts and its structured
    content is a dictionary whose entry [result] is that text: every
    other path gives a text that does not look empty. *)
Theorem empty_looking_only_from_structured_result (E : env) tool_name args w s :
  fst (Agent.handle_tool_call E tool_name args w) = Ret (JStr s) ->
  Agent.in_list s Agent.empty_looking = true ->
  exists result d,
    mcp_call_tool E tool_name args = Ret (Some result) /\
    (tr_content result = None \/ tr_content result = Some []) /\
    tr_structured result = Some (JDict d) /\
    dict_get (str "result") d = Some (JStr s).
Proof.
  intros H Hs.
  destruct (negb (truthy tool_name) || negb (is_dict args)) eqn:Hg.
  - unfold Agent.handle_tool_call in H. rewrite Hg in H. cbn in H.
    injection H as <-. vm_compute in Hs. discriminate.
  - apply orb_false_iff in Hg as [Ht Ha].
    apply negb_false_iff in Ht, Ha.
    rewrite handle_tool_call_valid in H by assumption. cbn [fst] in H.
    destruct (mcp_call_tool E tool_name args) as [[result|]|e]; try discriminate.
    2:{ cbn in H. injection H as <-. rewrite no_signal_not_empty_looking in Hs.
        discriminate. }
    exists result. injection H as H. unfold Agent.normalize in H.
    assert (Hlr : Agent.last_resort result = JStr s -> False).
    { intros Hl. apply last_resort_not_empty_looking in Hl. congruence. }
    destruct (tr_content result) as [[|item items]|] eqn:Hcont.
    + destruct (tr_structured result) as [structured|]; [|contradiction (Hlr H)].
      destruct (truthy structured); [|contradiction (Hlr H)].
      destruct structured as [| | | | | |d]; try contradiction (Hlr H).
      destruct (dict_get (str "result") d) as [r|] eqn:Hd; [|contradiction (Hlr H)].
      subst r. exists d. auto.
    + match type of H with
      | (if ?c then _ else _) = _ => destruct c eqn:Hx
      end.
      * injection H as <-. apply andb_true_iff in Hx as [_ Hx].
        apply negb_true_iff in Hx.
        unfold Agent.in_list, Agent.empty_looking in Hs. cbn [existsb] in Hs.
        congruence.
      * contradiction (Hlr H).
    + destruct (tr_structured result) as [structured|]; [|contradiction (Hlr H)].
      destruct (truthy structured); [|contradiction (Hlr H)].
      destruct structured as [| | | | | |d]; try contradiction (Hlr H).
      destruct (dict_get (str "result") d) as [r|] eqn:Hd; [|contradiction (Hlr H)].
      subst r. exists d. auto.
Qed.

Lemma empty_looking_only_from_structured_result_witness :
  let result :=
    ToolResult None (Some (JDict [(str "result", JStr (str "[]"))])) (str "...") in
  let E := Scenario.runtime (ChatResponse [] None []) (Ret (Some result)) [] in
  exists result' d,
    mcp_call_tool E (JStr (str "google_search")) (JDict []) = Ret (Some result') /\
    (tr_content result' = None \/ tr_content result' = Some []) /\
    tr_structured result' = Some (JDict d) /\
    dict_get (str "result") d = Some (JStr (str "[]")).
Proof.
  cbv zeta.
  apply (empty_looking_only_from_structured_result _ _ _
           (World (Disk None None None) [])).
  - vm_compute. reflexivity.
  - vm_compute. reflexivity.
Defined.

(** ** The loop over native tool calls *)

(** X3. The loop over the native tool calls dispatches every call, in
    order, and keeps the result of the last one; the results of the
    earlier calls are dropped. *)
Theorem dispatch_all_keeps_last (E : env) (answer : json -> json -> option tool_result)
    (calls : list (json * json)) (r0 : json) (w : world) :
  (forall n a, mcp_call_tool E n a = Ret (answer n a)) ->
  Forall (fun c => truthy (fst c) = true /\ is_dict (snd c) = true) calls ->
  Agent.dispatch_all E (map View.tool_call calls) r0 w =
    (Ret (match last calls with
          | Some c => Agent.normalize (answer (fst c) (snd c))
          | None => r0
          end),
     World (w_disk w) (w_trace w ++ map View.call_event calls)).
Proof.
  intros Hch Hv. revert r0 w.
  induction Hv as [|c calls [Ht Ha] _ IH]; intros r0 w.
  - cbn. rewrite app_nil_r. now destruct w.
  - cbn [map Agent.dispatch_all]. unfold sbind at 1.
    change (lift (Agent.py_index (View.tool_call c) (str "function")) w)
      with (Ret (JDict [(str "name", fst c); (str "arguments", snd c)]), w).
    cbv iota. unfold sbind at 1.
    change (lift (Agent.py_index (JDict [(str "name", fst c); (str "arguments", snd c)])
                    (str "name")) w) with (Ret (fst c), w).
    cbv iota. unfold sbind at 1.
    change (lift (Agent.py_index (View.tool_call c) (str "function")) w)
      with (Ret (JDict [(str "name", fst c); (str "arguments", snd c)]), w).
    cbv iota. unfold sbind at 1.
    change (lift (Agent.py_index (JDict [(str "name", fst c); (str "arguments", snd c)])
                    (str "arguments")) w) with (Ret (snd c), w).
    cbv iota. unfold sbind at 1.
    rewrite handle_tool_call_valid by assumption. rewrite Hch.
    rewrite IH. cbn [w_disk w_trace].
    rewrite <- app_assoc. cbn [app].
    destruct calls as [|c' calls']; [reflexivity|].
    change (last (c :: c' :: calls')) with (last (c' :: calls')).
    destruct (last (c' :: calls')) eqn:Hl; [reflexivity|].
    apply last_None in Hl. discriminate.
Qed.

Lemma dispatch_all_keeps_last_witness :
  let answer := fun (n _ : json) =>
    match n with
    | JStr name => Some (Scenario.text_result name)
    | _ => None
    end in
  let E := Env (fun _ => Ret tt) (fun _ _ => Ret (ChatResponse [] None []))
               (fun _ _ _ => Ret []) (fun n a => Ret (answer n a))
               (fun _ => []) [] (fun x => x) [] in
  let calls := [(JStr (str "google_search"), JDict [(str "query", JStr (str "AI news"))]);
                (JStr (str "list_directory"), JDict [])] in
  let w := World (Disk None None None) [] in
  Agent.dispatch_all E (map View.tool_call calls) JNull w =
    (Ret (JStr (str "list_directory")),
     World (w_disk w) (w_trace w ++ map View.call_event calls)).
Proof.
  cbv zeta.
  apply (dispatch_all_keeps_last _
           (fun (n _ : json) =>
              match n with
              | JStr name => Some (Scenario.text_result name)
              | _ => None
              end)).
  - reflexivity.
  - repeat constructor.
Defined.

(** X4. The loop stops at the first call on which the channel fails: the
    failure is raised and no later call reaches the channel. *)
Theorem dispatch_all_stops_at_failure (E : env) (done : list (json * json))
    (failing : json * json) (later : list (json * json)) (e : exn) (r0 : json)
    (w : world) :
  Forall (fun c => truthy (fst c) = true /\ is_dict (snd c) = true /\
                   exists r, mcp_call_tool E (fst c) (snd c) = Ret r) done ->
  truthy (fst failing) = true -> is_dict (snd failing) = true ->
  mcp_call_tool E (fst failing) (snd failing) = Raise e ->
  Agent.dispatch_all E (map View.tool_call (done ++ failing :: later)) r0 w =
    (Raise e,
     World (w_disk w) (w_trace w ++ map View.call_event (done ++ [failing]))).
Proof.
  intros Hd Ht Ha He. revert r0 w.
  induction Hd as [|c done (Hct & Hca & r & Hr) _ IH]; intros r0 w.
  - cbn [app map Agent.dispatch_all]. unfold sbind at 1.
    change (lift (Agent.py_index (View.tool_call failing) (str "function")) w)
      with (Ret (JDict [(str "name", fst failing); (str "arguments", snd failing)]), w).
    cbv iota. unfold sbind at 1.
    change (lift (Agent.py_index
                    (JDict [(str "name", fst failing); (str "arguments", snd failing)])
                    (str "name")) w) with (Ret (fst failing), w).
    cbv iota. unfold sbind at 1.
    change (lift (Agent.py_index (View.tool_call failing) (str "function")) w)
      with (Ret (JDict [(str "name", fst failing); (str "arguments", snd failing)]), w).
    cbv iota. unfold sbind at 1.
    change (lift (Agent.py_index
                    (JDict [(str "name", fst failing); (str "arguments", snd failing)])
                    (str "arguments")) w) with (Ret (snd failing), w).
    cbv iota. unfold sbind at 1.
    rewrite handle_tool_call_valid by assumption. rewrite He. reflexivity.
  - cbn [app map Agent.dispatch_all]. unfold sbind at 1.
    change (lift (Agent.py_index (View.tool_call c) (str "function")) w)
      with (Ret (JDict [(str "name", fst c); (str "arguments", snd c)]), w).
    cbv iota. unfold sbind at 1.
    change (lift (Agent.py_index (JDict [(str "name", fst c); (str "arguments", snd c)])
                    (str "name")) w) with (Ret (fst c), w).
    cbv iota. unfold sbind at 1.
    change (lift (Agent.py_index (View.tool_call c) (str "function")) w)
      with (Ret (JDict [(str "name", fst c); (str "arguments", snd c)]), w).
    cbv iota. unfold sbind at 1.
    change (lift (Agent.py_index (JDict [(str "name", fst c); (str "arguments", snd c)])
                    (str "arguments")) w) with (Ret (snd c), w).
    cbv iota. unfold sbind at 1.
    rewrite handle_tool_call_valid by assumption. rewrite Hr.
    change (map View.tool_call (done ++ failing :: later))
      with (map View.tool_call (done ++ failing :: later)).
    rewrite IH. cbn [w_disk w_trace]. rewrite <- app_assoc. reflexivity.
Qed.

Lemma dispatch_all_stops_at_failure_witness :
  let E := Env (fun _ => Ret tt) (fun _ _ => Ret (ChatResponse [] None []))
               (fun _ _ _ => Ret [])
               (fun n _ => match n with
                           | JStr _ => Ret None
                           | _ => Raise Scenario.channel_closed
                           end)
               (fun _ => []) [] (fun x => x) [] in
  let first := (JStr (str "google_search"), JDict []) in
  let second := (JInt 7, JDict []) in
  let w := World (Disk None None None) [] in
  Agent.dispatch_all E (map View.tool_call ([first] ++ second :: [first])) JNull w =
    (Raise Scenario.channel_closed,
     World (w_disk w) (w_trace w ++ map View.call_event ([first] ++ [second]))).
Proof.
  cbv zeta. apply dispatch_all_stops_at_failure.
  - repeat constructor. eexists. reflexivity.
  - reflexivity.
  - reflexivity.
  - reflexivity.
Defined.

(** ** [load_memory]: what it leaves in the object and in the file *)


(** The events of [load_memory] are events of the memory file. *)
Lemma load_memory_trace m w :
  exists evs,
    w_trace (snd (snd (AIModel.load_memory (m, w)))) = w_trace w ++ evs /\
    Forall View.memory_event evs.
Proof.
  destruct m as [name instr max_len h], w as [[file rf wf] tr].
  unfold AIModel.load_memory. run_se.
  destruct rf as [e|]; cbn.
  - destruct (is_FileNotFoundError e); cbn.
    + destruct wf; cbn; rewrite <- app_assoc; eexists; (split; [reflexivity|]);
        repeat constructor.
    + eexists; split; [reflexivity|]. repeat constructor.
  - destruct file as [h0|]; cbn.
    + destruct (AIModel.size_of_memory h0 >? max_len)%Z; cbn.
      * destruct wf as [e|]; cbn.
        -- destruct (is_FileNotFoundError e); cbn; rewrite <- ?app_assoc;
             eexists; (split; [reflexivity|]); repeat constructor.
        -- rewrite <- app_assoc. eexists; split; [reflexivity|]. repeat constructor.
      * eexists; split; [reflexivity|]. repeat constructor.
    + destruct wf; cbn; rewrite <- app_assoc; eexists; (split; [reflexivity|]);
        repeat constructor.
Qed.

(** With a file that can be read, the history that the object held before
    plays no part. *)
Lemma load_memory_forgets h m w :
  read_fault (w_disk w) = None ->
  AIModel.load_memory (AIModel.set_history h m, w) = AIModel.load_memory (m, w).
Proof.
  destruct m as [name instr max_len h0], w as [[file rf wf] tr].
  cbn. intros ->.
  unfold AIModel.load_memory, AIModel.set_history. run_se.
  destruct file as [hf|]; cbn; [|destruct wf; reflexivity].
  destruct (AIModel.size_of_memory hf >? max_len)%Z; cbn; [|reflexivity].
  destruct wf as [e|]; cbn; [|reflexivity].
  destruct (is_FileNotFoundError e); reflexivity.
Qed.

Lemma last_drop {A : Type} (k : nat) (l : list A) :
  (k < length l)%nat -> last (drop k l) = last l.
Proof.
  intros Hk. rewrite !last_lookup, lookup_drop, length_drop.
  f_equal. lia.
Qed.

(** X5. With a memory file that can be read and written and a bound of at
    least 1, [load_memory] returns [True] and leaves, in the object and
    in the file alike, the last [max_history_length] turns of the file
    (all of them when there are no more). *)
Theorem load_memory_keeps_last_turns (m : AIModel.t) (w : world) (h : list turn) :
  read_fault (w_disk w) = None ->
  write_fault (w_disk w) = None ->
  memory_file (w_disk w) = Some h ->
  (1 <= AIModel.max_history_length m)%Z ->
  let r := AIModel.load_memory (m, w) in
  let kept := drop (length h - Z.to_nat (AIModel.max_history_length m)) h in
  fst r = Ret true /\
  AIModel.history (fst (snd r)) = kept /\
  memory_file (w_disk (snd (snd r))) = Some kept /\
  (Z.of_nat (length kept) <= AIModel.max_history_length m)%Z.
Proof.
  destruct w as [[file rf wf] tr]. cbn [w_disk read_fault write_fault memory_file].
  intros -> -> -> Hmax. cbv zeta.
  rewrite load_memory_readable.
  assert (Hlen : (Z.of_nat (length (drop (length h - Z.to_nat (AIModel.max_history_length m)) h))
                  <= AIModel.max_history_length m)%Z).
  { rewrite length_drop. lia. }
  unfold AIModel.size_of_memory.
  destruct (Z.gtb_spec (Z.of_nat (length h)) (AIModel.max_history_length m)) as [Hgt|Hle].
  - cbv zeta. cbn [fst snd w_disk memory_file].
    replace (- AIModel.max_history_length m)%Z
      with (- Z.of_nat (Z.to_nat (AIModel.max_history_length m)))%Z by lia.
    rewrite slice_from_last by lia.
    destruct m; cbn. auto.
  - cbn [fst snd w_disk memory_file].
    replace (length h - Z.to_nat (AIModel.max_history_length m))%nat with 0%nat in * by lia.
    destruct m; cbn. auto.
Qed.

Lemma load_memory_keeps_last_turns_witness :
  let m := AIModel.Make (str "gemma3:12b") [] 2 [] in
  let h := [Turn (str "system") (str "S"); Turn (str "user") (str "a");
            Turn (str "assistant") (str "b")] in
  let r := AIModel.load_memory (m, World (Disk (Some h) None None) []) in
  fst r = Ret true /\
  AIModel.history (fst (snd r)) = [Turn (str "user") (str "a"); Turn (str "assistant") (str "b")] /\
  memory_file (w_disk (snd (snd r))) =
    Some [Turn (str "user") (str "a"); Turn (str "assistant") (str "b")] /\
  (Z.of_nat 2 <= 2)%Z.
Proof.
  cbv zeta.
  apply (load_memory_keeps_last_turns
           (AIModel.Make (str "gemma3:12b") [] 2 [])
           (World (Disk (Some [Turn (str "system") (str "S"); Turn (str "user") (str "a");
                               Turn (str "assistant") (str "b")]) None None) [])
           [Turn (str "system") (str "S"); Turn (str "user") (str "a");
            Turn (str "assistant") (str "b")]);
    [reflexivity|reflexivity|reflexivity|cbn; lia].
Defined.

(** X6. When the memory file does not exist, [load_memory] creates it
    empty and returns [True] with an empty history; when it cannot be
    created either, the fault of the write is raised out of
    [load_memory], with the history emptied and no file. *)
Theorem load_memory_creates_missing_file (m : AIModel.t) (w : world) :
  read_fault (w_disk w) = None ->
  memory_file (w_disk w) = None ->
  let r := AIModel.load_memory (m, w) in
  AIModel.history (fst (snd r)) = [] /\
  match write_fault (w_disk w) with
  | None => fst r = Ret true /\ memory_file (w_disk (snd (snd r))) = Some []
  | Some e => fst r = Raise e /\ memory_file (w_disk (snd (snd r))) = None
  end.
Proof.
  destruct m as [name instr max_len h], w as [[file rf wf] tr].
  cbn [w_disk read_fault write_fault memory_file].
  intros -> ->. cbv zeta.
  unfold AIModel.load_memory. run_se.
  destruct wf; cbn; auto.
Qed.

Lemma load_memory_creates_missing_file_witness :
  let r := AIModel.load_memory
             (Scenario.big_model, World (Disk None None (Some Scenario.disk_full)) []) in
  AIModel.history (fst (snd r)) = [] /\
  fst r = Raise Scenario.disk_full /\ memory_file (w_disk (snd (snd r))) = None.
Proof.
  cbv zeta.
  apply (load_memory_creates_missing_file Scenario.big_model
           (World (Disk None None (Some Scenario.disk_full)) [])); reflexivity.
Defined.

Lemma slice_from_idem {A : Type} (k : Z) (l : list A) :
  (0 <= k)%Z -> slice_from (- k) (slice_from (- k) l) = slice_from (- k) l.
Proof.
  intros Hk. unfold slice_from.
  rewrite length_drop.
  destruct (Z.ltb_spec (- k) 0) as [Hneg|Hz].
  - rewrite drop_drop.
    replace (Z.to_nat (Z.max (Z.of_nat (length l) + - k) 0) +
             Z.to_nat (Z.max (Z.of_nat (length l -
               Z.to_nat (Z.max (Z.of_nat (length l) + - k) 0)) + - k) 0))%nat
      with (Z.to_nat (Z.max (Z.of_nat (length l) + - k) 0)) by lia.
    reflexivity.
  - rewrite drop_drop. f_equal. lia.
Qed.

(** X7. Loading twice is loading once: on a disk without faults and for a
    bound that is not negative, a second [load_memory] changes neither the
    history nor the file. *)
Theorem load_memory_idempotent (m : AIModel.t) (w : world) :
  read_fault (w_disk w) = None ->
  write_fault (w_disk w) = None ->
  (0 <= AIModel.max_history_length m)%Z ->
  let once := snd (AIModel.load_memory (m, w)) in
  let twice := snd (AIModel.load_memory once) in
  fst twice = fst once /\ w_disk (snd twice) = w_disk (snd once).
Proof.
  destruct w as [[file rf wf] tr]. cbn [w_disk read_fault write_fault].
  intros -> -> Hmax. cbv zeta.
  rewrite load_memory_readable.
  destruct file as [h|].
  - destruct (AIModel.size_of_memory h >? AIModel.max_history_length m)%Z eqn:Hs.
    + cbv zeta. cbn [snd]. rewrite load_memory_readable.
      destruct m as [name instr max_len h0]. cbn [AIModel.max_history_length] in *.
      unfold AIModel.set_history. cbn [AIModel.max_history_length AIModel.model_name
        AIModel.system_instruction].
      destruct (AIModel.size_of_memory (slice_from (- max_len) h) >? max_len)%Z.
      * cbv zeta. cbn. rewrite slice_from_idem by assumption. auto.
      * cbn. auto.
    + cbn [snd]. rewrite load_memory_readable.
      destruct m as [name instr max_len h0]. cbn [AIModel.max_history_length] in *.
      unfold AIModel.set_history. cbn [AIModel.max_history_length AIModel.model_name
        AIModel.system_instruction].
      rewrite Hs. cbn. auto.
  - cbn [snd]. rewrite load_memory_readable.
    destruct m as [name instr max_len h0]. cbn [AIModel.max_history_length] in *.
    unfold AIModel.set_history. cbn [AIModel.max_history_length AIModel.model_name
      AIModel.system_instruction].
    unfold AIModel.size_of_memory. cbn [length].
    destruct (Z.gtb_spec (Z.of_nat 0) max_len) as [Hgt|_]; [lia|].
    cbn. auto.
Qed.

Lemma load_memory_idempotent_witness :
  let m := AIModel.Make (str "gemma3:12b") [] 2 [] in
  let h := [Turn (str "system") (str "S"); Turn (str "user") (str "a");
            Turn (str "assistant") (str "b")] in
  let once := snd (AIModel.load_memory (m, World (Disk (Some h) None None) [])) in
  let twice := snd (AIModel.load_memory once) in
  fst twice = fst once /\ w_disk (snd twice) = w_disk (snd once).
Proof.
  cbv zeta.
  apply (load_memory_idempotent
           (AIModel.Make (str "gemma3:12b") [] 2 [])
           (World (Disk (Some [Turn (str "system") (str "S"); Turn (str "user") (str "a");
                               Turn (str "assistant") (str "b")]) None None) []));
    [reflexivity|reflexivity|cbn; lia].
Defined.

(** ** [chat]: the flag, the file, the request *)

(** X8. The flag [isCallTool] replaces the last turn of the history
    before the memory is loaded.  On an empty history this raises an
    [IndexError] before anything is read or sent; otherwise, with a
    memory file that can be read (or is missing), the load overwrites the
    replaced turn and the flag changes nothing. *)
Theorem call_tool_flag_is_overwritten (E : env) (message : pystr)
    (m : AIModel.t) (w : world) :
  message <> [] ->
  read_fault (w_disk w) = None ->
  AIModel.chat E message true (m, w) =
    match AIModel.history m with
    | [] => (Raise (Exn IndexError (str "list assignment index out of range")), (m, w))
    | _ :: _ => AIModel.chat E message false (m, w)
    end.
Proof.
  intros Hne Hrf.
  destruct (AIModel.history m) as [|t0 rest] eqn:Hh.
  - unfold AIModel.chat.
    destruct (pystr_eqb message []) eqn:Hm.
    { apply pystr_eqb_eq in Hm. contradiction. }
    unfold sbind at 1. unfold when. unfold sbind at 1.
    unfold AIModel.self_history. cbn [fst]. rewrite Hh.
    unfold sbind at 1. unfold lift. cbn [AIModel.set_last]. reflexivity.
  - transitivity (AIModel.chat E message false
                    (AIModel.set_history
                       (take (length (t0 :: rest) - 1) (t0 :: rest)
                          ++ [Turn (str "assistant") message]) m, w)).
    + unfold AIModel.chat.
      destruct (pystr_eqb message []) eqn:Hm.
      { apply pystr_eqb_eq in Hm. contradiction. }
      unfold sbind at 1. unfold when. unfold sbind at 1.
      unfold AIModel.self_history at 1. cbn [fst]. rewrite Hh.
      unfold sbind at 1. unfold lift at 1. cbn [AIModel.set_last].
      unfold AIModel.assign_history at 1. unfold modify at 1. cbn [fst snd].
      unfold sbind at 3. unfold ret at 1. reflexivity.
    + rewrite !chat_run by assumption.
      rewrite load_memory_forgets by assumption. reflexivity.
Qed.

Lemma call_tool_flag_is_overwritten_witness :
  let E := Scenario.runtime (ChatResponse (str "Hi there") (Some 7%Z) []) (Ret None) [] in
  let w := World (Disk (Some Scenario.stored) None None) [] in
  AIModel.chat E (str "tool text") true (Scenario.big_model, w) =
    (Raise (Exn IndexError (str "list assignment index out of range")),
     (Scenario.big_model, w)).
Proof.
  cbv zeta.
  apply (call_tool_flag_is_overwritten
           (Scenario.runtime (ChatResponse (str "Hi there") (Some 7%Z) []) (Ret None) [])
           (str "tool text") Scenario.big_model
           (World (Disk (Some Scenario.stored) None None) [])).
  - vm_compute. discriminate.
  - reflexivity.
Defined.

(** The truncation of [chat] on a history that ends with [x], for a bound
    of at least 2. *)
Lemma truncate_after_append_snoc max_len h x :
  (2 <= max_len)%Z ->
  exists h',
    AIModel.truncate_after_append max_len (h ++ [x]) = Ret h' /\
    last h' = Some x /\
    (Z.of_nat (length h') <= max_len)%Z /\
    head h' = head (h ++ [x]).
Proof.
  intros Hm. unfold AIModel.truncate_after_append, AIModel.size_of_memory.
  destruct (Z.gtb_spec (Z.of_nat (length (h ++ [x]))) max_len) as [Hgt|Hle].
  - destruct (h ++ [x]) as [|h0 t] eqn:Hhx.
    { destruct h; discriminate. }
    eexists. split; [reflexivity|].
    replace (max_len - 1)%Z with (Z.of_nat (Z.to_nat (max_len - 1))) by lia.
    assert (Hk : (0 < Z.to_nat (max_len - 1) <= length (h0 :: t))%nat) by lia.
    rewrite slice_from_last by assumption.
    split; [|split].
    + rewrite last_app, last_drop by lia.
      rewrite <- Hhx, last_snoc. reflexivity.
    + rewrite length_app, length_drop. cbn [length] in *. lia.
    + reflexivity.
  - eexists. split; [reflexivity|].
    split; [apply last_snoc|]. split; [lia|reflexivity].
Qed.

(** X9. A [chat] that returns on a disk that can be written, with a
    bound of at least 2, has written the history to the memory file: the
    file and the object hold the same turns, at most the bound, and the
    last one is the assistant turn with the returned reply. *)
Theorem chat_persists_reply (E : env) (message : pystr)
    (m : AIModel.t) (w : world) (reply : pystr) (m' : AIModel.t) (w' : world) :
  (2 <= AIModel.max_history_length m)%Z ->
  write_fault (w_disk w) = None ->
  AIModel.chat E message false (m, w) = (Ret reply, (m', w')) ->
  memory_file (w_disk w') = Some (AIModel.history m') /\
  last (AIModel.history m') = Some (Turn (str "assistant") reply) /\
  (Z.of_nat (length (AIModel.history m')) <= AIModel.max_history_length m)%Z.
Proof.
  intros Hmax Hwf H.
  assert (Hne : message <> []).
  { intros ->. unfold AIModel.chat in H. cbn in H. discriminate. }
  rewrite (chat_run E message m w Hne) in H.
  pose proof (load_memory_frame m w) as (_ & _ & Hm & _ & Hw).
  destruct (AIModel.load_memory (m, w)) as [[b|e] [m0 w0]]; [|discriminate].
  cbn [fst snd] in *. rewrite Hm, Hw, Hwf in H. cbv zeta in H.
  destruct (ollama_chat E (AIModel.model_name m0) _) as [response|e]; [|discriminate].
  destruct (truncate_after_append_snoc (AIModel.max_history_length m)
              (AIModel.set_content_1 (AIModel.str_of_count (eval_count response))
                 (AIModel.ensure_system (AIModel.system_instruction m0) (AIModel.history m0)
                    ++ [Turn (str "user") message]))
              (Turn (str "assistant") (message_content response)) Hmax)
    as (h5 & Hh5 & Hlast & Hlen & _).
  rewrite Hh5 in H. injection H as <- <- <-.
  destruct m0; cbn. auto.
Qed.

Lemma chat_persists_reply_witness :
  let E := Scenario.runtime (ChatResponse (str "Hi there") (Some 7%Z) []) (Ret None) [] in
  let w := World (Disk (Some Scenario.stored) None None) [] in
  let r := AIModel.chat E (str "How are you?") false (Scenario.big_model, w) in
  memory_file (w_disk (snd (snd r))) = Some (AIModel.history (fst (snd r))) /\
  last (AIModel.history (fst (snd r))) = Some (Turn (str "assistant") (str "Hi there")) /\
  (Z.of_nat (length (AIModel.history (fst (snd r))))
   <= AIModel.max_history_length Scenario.big_model)%Z.
Proof.
  cbv zeta.
  apply (chat_persists_reply
           (Scenario.runtime (ChatResponse (str "Hi there") (Some 7%Z) []) (Ret None) [])
           (str "How are you?") Scenario.big_model
           (World (Disk (Some Scenario.stored) None None) [])
           (str "Hi there")).
  - vm_compute. discriminate.
  - reflexivity.
  - vm_compute. reflexivity.
Defined.

Lemma head_set_content_1 c h : head (AIModel.set_content_1 c h) = head h.
Proof.
  unfold AIModel.set_content_1.
  destruct (1 <? length h)%nat; [|reflexivity].
  destruct h as [|a [|b l]]; reflexivity.
Qed.

Lemma has_system_role_head t rest :
  role t = str "system" -> AIModel.has_system_role (t :: rest) = true.
Proof.
  intros Hr. unfold AIModel.has_system_role. cbn [existsb].
  rewrite Hr, pystr_eqb_refl. reflexivity.
Qed.

(** X10. The memory that [chat] writes stays well kept.  On a disk
    without faults whose memory file is missing, empty, or within the
    bound with a system turn in front, a [chat] that returns (bound at
    least 2) leaves a file that is again within the bound with a system
    turn in front, equal to the history of the object: the next
    [load_memory] does not truncate it, and the system turn is not lost. *)
Theorem chat_keeps_memory_well_kept (E : env) (message : pystr)
    (m : AIModel.t) (w : world) (reply : pystr) (m' : AIModel.t) (w' : world) :
  (2 <= AIModel.max_history_length m)%Z ->
  read_fault (w_disk w) = None ->
  write_fault (w_disk w) = None ->
  match memory_file (w_disk w) with
  | None => True
  | Some h => h = [] \/ View.well_kept (AIModel.max_history_length m) h
  end ->
  AIModel.chat E message false (m, w) = (Ret reply, (m', w')) ->
  View.well_kept (AIModel.max_history_length m) (AIModel.history m') /\
  w_disk w' = Disk (Some (AIModel.history m')) None None /\
  AIModel.truncate_on_load (AIModel.max_history_length m) (AIModel.history m')
    = AIModel.history m'.
Proof.
  intros Hmax Hrf Hwf Hfile H.
  assert (Hne : message <> []).
  { intros ->. unfold AIModel.chat in H. cbn in H. discriminate. }
  rewrite (chat_run E message m w Hne) in H.
  destruct w as [[file rf wf] tr]. cbn [w_disk read_fault write_fault memory_file] in *.
  subst rf wf.
  assert (Hload : exists h0 tr0 file0,
            (h0 = [] \/ View.well_kept (AIModel.max_history_length m) h0) /\
            AIModel.load_memory (m, World (Disk file None None) tr)
              = (Ret true, (AIModel.set_history h0 m, World (Disk file0 None None) tr0))).
  { rewrite load_memory_readable. destruct file as [h|].
    - assert (Hs : (AIModel.size_of_memory h >? AIModel.max_history_length m)%Z = false).
      { destruct Hfile as [->|[Hs _]].
        - unfold AIModel.size_of_memory. cbn [length].
          destruct (Z.gtb_spec (Z.of_nat 0) (AIModel.max_history_length m)); [lia|reflexivity].
        - destruct (Z.gtb_spec (AIModel.size_of_memory h) (AIModel.max_history_length m));
            [lia|reflexivity]. }
      rewrite Hs. eauto 6.
    - eauto 6. }
  destruct Hload as (h0 & tr0 & file0 & Hh0 & Hload). rewrite Hload in H.
  cbv zeta in H.
  cbn [AIModel.set_history AIModel.model_name AIModel.system_instruction
       AIModel.max_history_length AIModel.history w_disk w_trace write_fault read_fault] in H.
  destruct (ollama_chat E (AIModel.model_name m) _) as [response|e]; [|discriminate].
  set (sent := AIModel.ensure_system (AIModel.system_instruction m) h0
                 ++ [Turn (str "user") message]) in *.
  assert (Hhead : exists t rest, head sent = Some t /\ role t = str "system"
                                 /\ sent = t :: rest).
  { subst sent. unfold AIModel.ensure_system.
    destruct Hh0 as [->|[_ (t & rest & -> & Hr)]].
    - cbn. eexists _, _. split; [reflexivity|]. split; reflexivity.
    - rewrite (has_system_role_head t rest Hr). cbn. eauto. }
  destruct Hhead as (t & rest & Hhd & Hrole & _).
  destruct (truncate_after_append_snoc (AIModel.max_history_length m)
              (AIModel.set_content_1 (AIModel.str_of_count (eval_count response)) sent)
              (Turn (str "assistant") (message_content response)) Hmax)
    as (h5 & Hh5 & _ & Hlen & Hhd5).
  rewrite Hh5 in H. injection H as <- <- <-.
  change (AIModel.history (AIModel.set_history h5 (AIModel.set_history h0 m))) with h5.
  assert (Hk : View.well_kept (AIModel.max_history_length m) h5).
  { split; [exact Hlen|].
    assert (Hh : head h5 = Some t).
    { rewrite Hhd5.
      destruct (AIModel.set_content_1 (AIModel.str_of_count (eval_count response)) sent)
        as [|a l] eqn:Hsc.
      - pose proof (head_set_content_1 (AIModel.str_of_count (eval_count response)) sent)
          as Hx. rewrite Hsc, Hhd in Hx. discriminate.
      - pose proof (head_set_content_1 (AIModel.str_of_count (eval_count response)) sent)
          as Hx. rewrite Hsc, Hhd in Hx. exact Hx. }
    destruct h5 as [|t5 rest5]; [discriminate|].
    injection Hh as ->. eauto. }
  split; [exact Hk|]. split; [reflexivity|].
  unfold AIModel.truncate_on_load.
  destruct Hk as [Hs _].
  destruct (Z.gtb_spec (AIModel.size_of_memory h5) (AIModel.max_history_length m));
    [lia|reflexivity].
Qed.

Lemma chat_keeps_memory_well_kept_witness :
  let E := Scenario.runtime (ChatResponse (str "Hi there") (Some 7%Z) []) (Ret None) [] in
  let w := World (Disk None None None) [] in
  let r := AIModel.chat E (str "How are you?") false (Scenario.big_model, w) in
  View.well_kept (AIModel.max_history_length Scenario.big_model)
    (AIModel.history (fst (snd r))) /\
  w_disk (snd (snd r)) = Disk (Some (AIModel.history (fst (snd r)))) None None /\
  AIModel.truncate_on_load (AIModel.max_history_length Scenario.big_model)
    (AIModel.history (fst (snd r))) = AIModel.history (fst (snd r)).
Proof.
  cbv zeta.
  apply (chat_keeps_memory_well_kept
           (Scenario.runtime (ChatResponse (str "Hi there") (Some 7%Z) []) (Ret None) [])
           (str "How are you?") Scenario.big_model
           (World (Disk None None None) [])
           (str "Hi there")).
  - vm_compute. discriminate.
  - reflexivity.
  - reflexivity.
  - exact I.
  - vm_compute. reflexivity.
Defined.

Lemma new_events_app w d evs :
  View.new_events w (World d (w_trace w ++ evs)) = evs.
Proof. unfold View.new_events. cbn [w_trace]. apply drop_app_length. Qed.

(** X11. Whatever the memory holds, every request that [chat] sends to
    the runtime names the model of the object, carries a turn with the
    role [system], and ends with the user turn of the message. *)
Theorem chat_request_shape (E : env) (message : pystr) (m : AIModel.t) (w : world)
    (model : pystr) (messages : list turn) :
  In (EvChat model messages)
     (View.new_events w (snd (snd (AIModel.chat E message false (m, w))))) ->
  model = AIModel.model_name m /\
  AIModel.has_system_role messages = true /\
  last messages = Some (Turn (str "user") message).
Proof.
  destruct (pystr_eqb message []) eqn:Hm.
  { unfold AIModel.chat. rewrite Hm. unfold raise. cbn [snd].
    unfold View.new_events. rewrite drop_all. intros []. }
  assert (Hne : message <> []).
  { intros ->. rewrite pystr_eqb_refl in Hm. discriminate. }
  rewrite (chat_run E message m w Hne).
  pose proof (load_memory_frame m w) as (Hn & _ & _ & _ & _).
  pose proof (load_memory_trace m w) as (evs & Htr & Hev).
  destruct (AIModel.load_memory (m, w)) as [[b|e] [m0 [d0 tr0]]];
    cbn [fst snd w_trace w_disk] in *; subst tr0.
  2:{ rewrite new_events_app. intros Hin.
      rewrite Forall_forall in Hev. apply list_elem_of_In, Hev in Hin. destruct Hin. }
  cbv zeta.
  assert (Hshape : forall tail,
            In (EvChat model messages)
              (evs ++ [EvChat (AIModel.model_name m0)
                         (AIModel.ensure_system (AIModel.system_instruction m0)
                            (AIModel.history m0) ++ [Turn (str "user") message])] ++ tail) ->
            Forall View.memory_event tail ->
            model = AIModel.model_name m /\
            AIModel.has_system_role messages = true /\
            last messages = Some (Turn (str "user") message)).
  { intros tail Hin Htail.
    rewrite !in_app_iff in Hin. destruct Hin as [Hin|[Hin|Hin]].
    - rewrite Forall_forall in Hev. apply list_elem_of_In, Hev in Hin. destruct Hin.
    - destruct Hin as [Hin|[]]. injection Hin as <- <-.
      split; [exact Hn|]. split; [|apply last_snoc].
      unfold AIModel.has_system_role. rewrite existsb_app.
      apply orb_true_iff. left.
      destruct (ensure_system_cases (AIModel.system_instruction m0) (AIModel.history m0))
        as [[Hs ->]|[_ ->]]; [exact Hs|].
      cbn [existsb role]. rewrite pystr_eqb_refl. reflexivity.
    - rewrite Forall_forall in Htail. apply list_elem_of_In, Htail in Hin. destruct Hin. }
  destruct (ollama_chat E (AIModel.model_name m0) _) as [response|e].
  2:{ cbn [snd]. rewrite <- app_assoc, new_events_app.
      intros Hin. apply (Hshape []); [exact Hin|constructor]. }
  destruct (AIModel.truncate_after_append _ _) as [h5|e].
  2:{ cbn [snd]. rewrite <- app_assoc, new_events_app.
      intros Hin. apply (Hshape []); [exact Hin|constructor]. }
  destruct (write_fault d0); cbn [snd]; rewrite <- !app_assoc, new_events_app;
    intros Hin; apply (Hshape [EvWriteMemory h5]); try exact Hin;
    repeat constructor.
Qed.

Lemma chat_request_shape_witness :
  let E := Scenario.runtime (ChatResponse (str "Hi there") (Some 7%Z) []) (Ret None) [] in
  let w := World (Disk None None None) [] in
  let sent := [Turn (str "system") (AIModel.system_instruction Scenario.big_model);
               Turn (str "user") (str "How are you?")] in
  AIModel.model_name Scenario.big_model = AIModel.model_name Scenario.big_model /\
  AIModel.has_system_role sent = true /\
  last sent = Some (Turn (str "user") (str "How are you?")).
Proof.
  cbv zeta.
  apply (chat_request_shape
           (Scenario.runtime (ChatResponse (str "Hi there") (Some 7%Z) []) (Ret None) [])
           (str "How are you?") Scenario.big_model
           (World (Disk None None None) [])).
  vm_compute. right. right. left. reflexivity.
Defined.

(** ** The system instruction and the stored system turn *)

(** [load_memory] does not read the system instruction. *)
Lemma load_memory_instruction i m w :
  AIModel.load_memory (View.with_instruction i m, w) =
    let r := AIModel.load_memory (m, w) in
    (fst r, (View.with_instruction i (fst (snd r)), snd (snd r))).
Proof.
  destruct m as [name instr max_len h], w as [[file rf wf] tr].
  unfold View.with_instruction. cbn [AIModel.model_name AIModel.max_history_length
    AIModel.history].
  unfold AIModel.load_memory. run_se.
  destruct rf as [e|]; cbn.
  - destruct (is_FileNotFoundError e); cbn.
    + destruct wf; reflexivity.
    + reflexivity.
  - destruct file as [h0|]; cbn.
    + destruct (AIModel.size_of_memory h0 >? max_len)%Z; cbn; [|reflexivity].
      destruct wf as [e|]; cbn; [|reflexivity].
      destruct (is_FileNotFoundError e); reflexivity.
    + destruct wf; reflexivity.
Qed.

Lemma truncate_on_load_idem max_len h :
  (0 <= max_len)%Z ->
  AIModel.truncate_on_load max_len (AIModel.truncate_on_load max_len h)
    = AIModel.truncate_on_load max_len h.
Proof.
  intros Hm. unfold AIModel.truncate_on_load.
  destruct (AIModel.size_of_memory h >? max_len)%Z eqn:Hs.
  - destruct (AIModel.size_of_memory (slice_from (- max_len) h) >? max_len)%Z;
      [apply slice_from_idem; assumption|reflexivity].
  - rewrite Hs. reflexivity.
Qed.

(** A load that returns on a file that can be read leaves the truncation
    of the file in the object, and the file as it was or truncated. *)
Lemma load_memory_on_file m w h b :
  read_fault (w_disk w) = None ->
  memory_file (w_disk w) = Some h ->
  fst (AIModel.load_memory (m, w)) = Ret b ->
  let s := snd (AIModel.load_memory (m, w)) in
  AIModel.history (fst s) = AIModel.truncate_on_load (AIModel.max_history_length m) h /\
  read_fault (w_disk (snd s)) = None /\
  (memory_file (w_disk (snd s)) = Some h \/
   memory_file (w_disk (snd s))
     = Some (AIModel.truncate_on_load (AIModel.max_history_length m) h)).
Proof.
  destruct m as [name instr max_len h0], w as [[file rf wf] tr].
  cbn [w_disk read_fault memory_file AIModel.max_history_length].
  intros -> ->. unfold AIModel.truncate_on_load.
  unfold AIModel.load_memory. run_se.
  destruct (AIModel.size_of_memory h >? max_len)%Z; cbn; [|auto].
  destruct wf as [e|]; cbn; [|auto].
  destruct (is_FileNotFoundError e); cbn; [discriminate|auto].
Qed.

(** When the loaded history has a system turn, [chat] does not read the
    system instruction. *)
Lemma chat_instruction E message i m w :
  (forall b, fst (AIModel.load_memory (m, w)) = Ret b ->
             AIModel.has_system_role
               (AIModel.history (fst (snd (AIModel.load_memory (m, w))))) = true) ->
  AIModel.chat E message false (View.with_instruction i m, w) =
    let r := AIModel.chat E message false (m, w) in
    (fst r, (View.with_instruction i (fst (snd r)), snd (snd r))).
Proof.
  intros Hsys.
  destruct (pystr_eqb message []) eqn:Hm.
  { unfold AIModel.chat. rewrite Hm. reflexivity. }
  assert (Hne : message <> []).
  { intros ->. rewrite pystr_eqb_refl in Hm. discriminate. }
  rewrite !chat_run by assumption.
  rewrite load_memory_instruction.
  destruct (AIModel.load_memory (m, w)) as [[b|e] [m0 w0]]; [|reflexivity].
  specialize (Hsys b eq_refl). cbn [fst snd] in Hsys.
  destruct m0 as [n0 i0 mx0 h0]. cbn [AIModel.history] in Hsys.
  cbv zeta. unfold View.with_instruction, AIModel.ensure_system, AIModel.set_history.
  cbn [fst snd AIModel.model_name AIModel.system_instruction AIModel.history
       AIModel.max_history_length].
  rewrite Hsys.
  destruct (ollama_chat E n0 _) as [response|e]; [|reflexivity].
  destruct (AIModel.truncate_after_append _ _) as [h5|e]; [|reflexivity].
  destruct (write_fault (w_disk w0)); reflexivity.
Qed.

(** X12. Once the memory file holds a system turn (within the turns that
    the load keeps), the system instruction that the agent selects for a
    query is not used: the branch sends the stored system turn, and its
    answer and its effects are the same for any two instructions. *)
Theorem stored_system_turn_overrides_instruction (E : env) (self : Agent.t)
    (native : bool) (instruction instruction' : pystr) (user_query : pystr)
    (w : world) (h : list turn) :
  read_fault (w_disk w) = None ->
  memory_file (w_disk w) = Some h ->
  AIModel.has_system_role
    (AIModel.truncate_on_load AIModel.default_max_history_length h) = true ->
  Agent.run_branch E self native instruction user_query w =
  Agent.run_branch E self native instruction' user_query w.
Proof.
  intros Hrf Hfile Hsys.
  unfold Agent.run_branch, AIModel.init. unfold sbind.
  change (AIModel.Make (Agent.Big_model self) instruction
            AIModel.default_max_history_length [])
    with (View.with_instruction instruction
            (AIModel.Make (Agent.Big_model self) instruction'
               AIModel.default_max_history_length [])).
  rewrite load_memory_instruction. cbv zeta.
  pose proof (load_memory_on_file
                (AIModel.Make (Agent.Big_model self) instruction'
                   AIModel.default_max_history_length []) w h) as Hon.
  pose proof (load_memory_frame
                (AIModel.Make (Agent.Big_model self) instruction'
                   AIModel.default_max_history_length []) w) as (_ & _ & Hmax & _ & _).
  destruct (AIModel.load_memory _) as [[b|e] [m0 w0]]; cbn [fst snd] in *;
    [|reflexivity].
  destruct (Hon b Hrf Hfile eq_refl) as (_ & Hrf0 & Hfile0).
  cbn [AIModel.max_history_length] in Hfile0, Hmax.
  unfold AIModel.call.
  rewrite chat_instruction.
  - cbv zeta.
    destruct (AIModel.chat E user_query false (m0, w0)) as [[r|e] [m1 w1]];
      reflexivity.
  - intros b2 Hb2.
    destruct Hfile0 as [Hf|Hf].
    + destruct (load_memory_on_file m0 w0 h b2 Hrf0 Hf Hb2) as (-> & _).
      rewrite Hmax. exact Hsys.
    + destruct (load_memory_on_file m0 w0 _ b2 Hrf0 Hf Hb2) as (-> & _).
      rewrite Hmax. rewrite truncate_on_load_idem; [exact Hsys|].
      unfold AIModel.default_max_history_length. lia.
Qed.

Lemma stored_system_turn_overrides_instruction_witness :
  let E := Scenario.runtime (ChatResponse (str "Hi there") (Some 7%Z) []) (Ret None) [] in
  let w := World (Disk (Some Scenario.stored) None None) [] in
  Agent.run_branch E Scenario.agent true (native_instruction E) (str "How are you?") w =
  Agent.run_branch E Scenario.agent true
    (text_instruction E (Agent.list_of_tools Scenario.agent)) (str "How are you?") w.
Proof.
  cbv zeta.
  apply (stored_system_turn_overrides_instruction _ _ _ _ _ _ _ Scenario.stored).
  - reflexivity.
  - reflexivity.
  - vm_compute. reflexivity.
Defined.

(** ** The second pass *)

Lemma init_returns name instruction max_len w :
  write_fault (w_disk w) = None ->
  exists m0 w0 evs,
    AIModel.init name instruction max_len w = (Ret m0, w0) /\
    AIModel.model_name m0 = name /\
    AIModel.system_instruction m0 = instruction /\
    w_trace w0 = w_trace w ++ evs /\ Forall View.memory_event evs.
Proof.
  intros Hw. unfold AIModel.init.
  pose proof (load_memory_returns (AIModel.Make name instruction max_len []) w Hw)
    as [b Hb].
  pose proof (load_memory_frame (AIModel.Make name instruction max_len []) w)
    as (Hn & Hi & _).
  pose proof (load_memory_trace (AIModel.Make name instruction max_len []) w)
    as (evs & Htr & Hev).
  destruct (AIModel.load_memory _) as [[b'|e'] [m0 w0]]; [|discriminate].
  cbn [fst snd] in *. eauto 10.
Qed.

(** X13. The second pass asks the small model once, with the text of the
    tool result as the whole prompt and the formatter instruction as the
    system text; neither the query of the user nor a turn of the memory
    is part of the request, and the answer is what the model generates.
    Besides that request, only the memory file is touched. *)
Theorem second_pass_sends_tool_text_only (E : env) (self : Agent.t)
    (text userprompt : pystr) (w : world) :
  write_fault (w_disk w) = None ->
  Agent.Small_model self <> [] ->
  let r := Agent.small_model_handle_tool_response E self (JStr text)
             (Agent.Small_model self) userprompt w in
  fst r = ollama_generate E (Agent.Small_model self) text (formatter_instruction E) /\
  exists evs,
    View.new_events w (snd r) =
      evs ++ [EvGenerate (Agent.Small_model self) text (formatter_instruction E)] /\
    Forall View.memory_event evs.
Proof.
  intros Hw Hs. cbv zeta.
  destruct (init_returns (Agent.Small_model self) (formatter_instruction E)
              AIModel.default_max_history_length w Hw)
    as (m0 & [d0 tr0] & evs & Hinit & Hn & Hi & Htr & Hev).
  cbn [w_trace] in Htr. subst tr0.
  assert (Hr : Agent.small_model_handle_tool_response E self (JStr text)
                 (Agent.Small_model self) userprompt w =
               (ollama_generate E (Agent.Small_model self) text (formatter_instruction E),
                World d0 ((w_trace w ++ evs)
                          ++ [EvGenerate (Agent.Small_model self) text
                                (formatter_instruction E)]))).
  { unfold Agent.small_model_handle_tool_response.
    destruct (pystr_eqb (Agent.Small_model self) []) eqn:Hm.
    { apply pystr_eqb_eq in Hm. contradiction. }
    cbn [negb]. rewrite Hm.
    unfold sbind at 1. rewrite Hinit.
    unfold sbind at 1. unfold AIModel.call, AIModel.generate_response.
    run_se. rewrite Hn, Hi.
    destruct (ollama_generate E (Agent.Small_model self) text (formatter_instruction E));
      reflexivity. }
  rewrite Hr. cbn [fst snd]. split; [reflexivity|].
  exists evs. rewrite <- app_assoc, new_events_app. auto.
Qed.

Lemma second_pass_sends_tool_text_only_witness :
  let E := Scenario.runtime (ChatResponse [] None []) (Ret None) (str "Nothing found.") in
  let w := World (Disk (Some Scenario.stored) None None) [] in
  let r := Agent.small_model_handle_tool_response E Scenario.agent
             (JStr (str "raw tool text")) (Agent.Small_model Scenario.agent)
             (str "Any AI news?") w in
  fst r = ollama_generate E (Agent.Small_model Scenario.agent) (str "raw tool text")
            (formatter_instruction E) /\
  exists evs,
    View.new_events w (snd r) =
      evs ++ [EvGenerate (Agent.Small_model Scenario.agent) (str "raw tool text")
                (formatter_instruction E)] /\
    Forall View.memory_event evs.
Proof.
  cbv zeta.
  apply (second_pass_sends_tool_text_only
           (Scenario.runtime (ChatResponse [] None []) (Ret None) (str "Nothing found."))
           Scenario.agent (str "raw tool text") (str "Any AI news?")
           (World (Disk (Some Scenario.stored) None None) [])).
  - reflexivity.
  - vm_compute. discriminate.
Defined.

(** X14. A tool whose structured result carries, under [result], a value
    that is not a string stops the text branch: the value is returned by
    the dispatch as it is, the second pass raises a [TypeError] on it
    before any model is asked, and the only call that has left the
    process is the tool call. *)
Theorem structured_non_string_result_raises (E : env) (self : Agent.t)
    (user_query text : pystr) (tool_name args : json) (result : tool_result)
    (d : list (pystr * json)) (v : json) (w : world) :
  handle_json_fields text = Ret (tool_name, args) ->
  truthy tool_name = true -> is_dict args = true ->
  mcp_call_tool E tool_name args = Ret (Some result) ->
  (tr_content result = None \/ tr_content result = Some []) ->
  tr_structured result = Some (JDict d) ->
  dict_get (str "result") d = Some v ->
  (forall s, v <> JStr s) ->
  Agent.Small_model self <> [] ->
  Agent.extract_and_answer E self user_query (JStr text) w =
    (Raise (Agent.concat_type_error v),
     World (w_disk w) (w_trace w ++ [EvCallTool tool_name args])) /\
  exn_cls (Agent.concat_type_error v) = TypeError.
Proof.
  intros Hx Ht Ha Hc Hcontent Hst Hres Hv Hs.
  split.
  2:{ unfold Agent.concat_type_error. destruct v; reflexivity. }
  rewrite (extracted_call_is_dispatched_then_formatted E self user_query text
             tool_name args w Hx).
  2:{ intros ->. discriminate Ht. }
  unfold sbind at 1. rewrite handle_tool_call_valid by assumption.
  rewrite Hc.
  assert (Hn : Agent.normalize (Some result) = v).
  { unfold Agent.normalize. rewrite Hst.
    assert (Htr : truthy (JDict d) = true).
    { destruct d; [discriminate Hres|reflexivity]. }
    destruct Hcontent as [-> | ->]; rewrite Htr, Hres; reflexivity. }
  rewrite Hn.
  unfold sbind at 1. unfold Agent.small_model_handle_tool_response.
  destruct (pystr_eqb (Agent.Small_model self) []) eqn:Hm.
  { apply pystr_eqb_eq in Hm. contradiction. }
  cbn [negb]. rewrite Hm.
  destruct v; try reflexivity.
  exfalso. eapply Hv. reflexivity.
Qed.

Lemma structured_non_string_result_raises_witness :
  let result := ToolResult None (Some (JDict [(str "result", JList [JInt 1])]))
                  (str "meta=None") in
  let E := Scenario.runtime (ChatResponse [] None []) (Ret (Some result)) [] in
  let w := World (Disk None None None) [] in
  let text := qstr "{'tool_name': 'list_directory', 'args': {}}" in
  Agent.extract_and_answer E Scenario.agent (str "What is here?") (JStr text) w =
    (Raise (Agent.concat_type_error (JList [JInt 1])),
     World (w_disk w)
       (w_trace w ++ [EvCallTool (JStr (str "list_directory")) (JDict [])])) /\
  exn_cls (Agent.concat_type_error (JList [JInt 1])) = TypeError.
Proof.
  cbv zeta.
  apply (structured_non_string_result_raises _ _ _ _ _ _
           (ToolResult None (Some (JDict [(str "result", JList [JInt 1])]))
              (str "meta=None"))
           [(str "result", JList [JInt 1])]).
  - vm_compute. reflexivity.
  - reflexivity.
  - reflexivity.
  - reflexivity.
  - left. reflexivity.
  - reflexivity.
  - vm_compute. reflexivity.
  - intros s. discriminate.
  - vm_compute. discriminate.
Defined.

(** ** The empty query *)

(** What [load_memory] does to the file and the trace when the file can
    be opened for writing. *)
Lemma load_memory_writable m d tr :
  write_fault d = None ->
  let bound := AIModel.max_history_length m in
  let effect :=
    match read_fault d with
    | Some e =>
        if is_FileNotFoundError e then (Some [], [EvWriteMemory []])
        else (memory_file d, [])
    | None =>
        match memory_file d with
        | None => (Some [], [EvWriteMemory []])
        | Some h =>
            if (AIModel.size_of_memory h >? bound)%Z
            then (Some (slice_from (- bound) h), [EvWriteMemory (slice_from (- bound) h)])
            else (Some h, [])
        end
    end in
  snd (snd (AIModel.load_memory (m, World d tr))) =
    World (Disk (fst effect) (read_fault d) None) (tr ++ EvReadMemory :: snd effect).
Proof.
  destruct m as [name instr max_len h0], d as [file rf wf].
  cbn [write_fault read_fault memory_file AIModel.max_history_length].
  intros ->. cbv zeta.
  unfold AIModel.load_memory. run_se.
  destruct rf as [e|]; cbn.
  - destruct (is_FileNotFoundError e); cbn; rewrite <- ?app_assoc; reflexivity.
  - destruct file as [h|]; cbn; [|rewrite <- app_assoc; reflexivity].
    destruct (AIModel.size_of_memory h >? max_len)%Z; cbn;
      rewrite <- ?app_assoc; reflexivity.
Qed.

(** X15. An empty query is answered with the error line of the
    [ValueError] of [chat].  After the probe, the memory is loaded by the
    constructor and that is all: nothing is sent to the runtime, the file
    is read once and written only by [load_memory] (emptied when it is
    missing, cut to its last 15 turns when it is longer), and no turn is
    stored: every turn of the file afterwards was in it before. *)
Theorem empty_query_is_rejected (E : env) (self : Agent.t) (w : world) :
  Agent.probe_passes E self ->
  write_fault (w_disk w) = None ->
  let r := Agent.handle_user_query E self [] w in
  let d := w_disk w in
  let bound := AIModel.default_max_history_length in
  let effect :=
    match read_fault d with
    | Some e =>
        if is_FileNotFoundError e then (Some [], [EvWriteMemory []])
        else (memory_file d, [])
    | None =>
        match memory_file d with
        | None => (Some [], [EvWriteMemory []])
        | Some h =>
            if (AIModel.size_of_memory h >? bound)%Z
            then (Some (slice_from (- bound) h), [EvWriteMemory (slice_from (- bound) h)])
            else (Some h, [])
        end
    end in
  fst r = Ret (Agent.error_tag ++ str "Messages string cannot be empty.") /\
  View.new_events w (snd r) =
    EvProbe (Agent.Big_model self) :: EvReadMemory :: snd effect /\
  w_disk (snd r) = Disk (fst effect) (read_fault d) None /\
  (forall h' t, memory_file (w_disk (snd r)) = Some h' -> In t h' ->
     exists h, memory_file d = Some h /\ In t h) /\
  exists evs,
    View.new_events w (snd r) = EvProbe (Agent.Big_model self) :: evs /\
    Forall View.memory_event evs.
Proof.
  intros Hp Hw. cbv zeta.
  set (effect := match read_fault (w_disk w) with
                 | Some e => _
                 | None => _
                 end).
  assert (Hr : Agent.handle_user_query E self [] w =
               (Ret (Agent.error_tag ++ str "Messages string cannot be empty."),
                World (Disk (fst effect) (read_fault (w_disk w)) None)
                  (w_trace w ++ EvProbe (Agent.Big_model self)
                                  :: EvReadMemory :: snd effect))).
  { unfold Agent.handle_user_query, try_except.
    rewrite body_after_probe. cbv zeta.
    assert (Hbranch : forall native instruction,
              Agent.run_branch E self native instruction []
                (World (w_disk w) (w_trace w ++ [EvProbe (Agent.Big_model self)])) =
                (Raise (Exn ValueError (str "Messages string cannot be empty.")),
                 World (Disk (fst effect) (read_fault (w_disk w)) None)
                   (w_trace w ++ EvProbe (Agent.Big_model self)
                                   :: EvReadMemory :: snd effect))).
    { intros native instruction. unfold Agent.run_branch, AIModel.init.
      pose proof (load_memory_returns
                    (AIModel.Make (Agent.Big_model self) instruction
                       AIModel.default_max_history_length [])
                    (World (w_disk w) (w_trace w ++ [EvProbe (Agent.Big_model self)])) Hw)
        as [b Hb].
      pose proof (load_memory_writable
                    (AIModel.Make (Agent.Big_model self) instruction
                       AIModel.default_max_history_length [])
                    (w_disk w) (w_trace w ++ [EvProbe (Agent.Big_model self)]) Hw)
        as Hs.
      cbv zeta in Hs. cbn [AIModel.max_history_length] in Hs. fold effect in Hs.
      unfold sbind at 1.
      destruct (AIModel.load_memory _) as [[b'|e'] [m0 w0]]; [|discriminate].
      cbn [fst snd] in *. subst w0.
      unfold sbind at 1. unfold AIModel.call, AIModel.chat. cbn.
      rewrite <- app_assoc. reflexivity. }
    destruct (ollama_probe E (Agent.Big_model self)) as [u|e] eqn:Hprobe.
    - rewrite (Hbranch true (native_instruction E)). reflexivity.
    - rewrite (Hp e Hprobe).
      rewrite (Hbranch false (text_instruction E (Agent.list_of_tools self))).
      reflexivity. }
  rewrite Hr. cbn [fst snd w_disk memory_file].
  assert (Hev : View.new_events w
                  (World (Disk (fst effect) (read_fault (w_disk w)) None)
                     (w_trace w ++ EvProbe (Agent.Big_model self)
                                     :: EvReadMemory :: snd effect))
                = EvProbe (Agent.Big_model self) :: EvReadMemory :: snd effect)
    by apply new_events_app.
  split; [reflexivity|]. split; [exact Hev|]. split; [reflexivity|]. split.
  - intros h' t Hf Hin. subst effect.
    destruct (read_fault (w_disk w)) as [e|].
    + destruct (is_FileNotFoundError e); cbn [fst] in Hf.
      * injection Hf as <-. destruct Hin.
      * eauto.
    + destruct (memory_file (w_disk w)) as [h|]; cbn [fst] in Hf.
      * exists h. split; [reflexivity|].
        destruct (AIModel.size_of_memory h >? AIModel.default_max_history_length)%Z;
          cbn [fst] in Hf; injection Hf as <-; [|exact Hin].
        apply list_elem_of_In.
        eapply (sublist_subseteq _ _ (slice_from_sublist _ h)).
        apply list_elem_of_In. exact Hin.
      * injection Hf as <-. destruct Hin.
  - exists (EvReadMemory :: snd effect). split; [exact Hev|].
    constructor; [exact I|]. subst effect.
    destruct (read_fault (w_disk w)) as [e|].
    + destruct (is_FileNotFoundError e); repeat constructor.
    + destruct (memory_file (w_disk w)) as [h|]; [|repeat constructor].
      destruct (AIModel.size_of_memory h >? AIModel.default_max_history_length)%Z;
        repeat constructor.
Qed.

Lemma empty_query_is_rejected_witness :
  let E := Scenario.runtime (ChatResponse (str "Hi there") (Some 7%Z) []) (Ret None) [] in
  let w := World (Disk (Some Scenario.stored) None None) [] in
  let r := Agent.handle_user_query E Scenario.agent [] w in
  fst r = Ret (Agent.error_tag ++ str "Messages string cannot be empty.") /\
  View.new_events w (snd r) = [EvProbe (Agent.Big_model Scenario.agent); EvReadMemory] /\
  w_disk (snd r) = Disk (Some Scenario.stored) None None.
Proof.
  cbv zeta.
  destruct (empty_query_is_rejected
              (Scenario.runtime (ChatResponse (str "Hi there") (Some 7%Z) []) (Ret None) [])
              Scenario.agent (World (Disk (Some Scenario.stored) None None) []))
    as (H1 & H2 & H3 & _).
  - intros e He. vm_compute in He. discriminate He.
  - reflexivity.
  - split; [exact H1|]. split; [exact H2|exact H3].
Defined.

(** ** Clearing the memory *)

Lemma reset_count_role t : role (Clearing.reset_count t) = role t.
Proof. unfold Clearing.reset_count. destruct (pystr_eqb _ _); reflexivity. Qed.

Lemma reset_count_system t :
  role t = str "system" -> Clearing.reset_count t = t.
Proof.
  intros Hr. unfold Clearing.reset_count. rewrite Hr.
  replace (pystr_eqb (str "system") (str "token_count")) with false
    by (vm_compute; reflexivity).
  reflexivity.
Qed.

Lemma cleared_system_turns h :
  List.filter (View.has_role (str "system")) (Clearing.cleared h)
  = List.filter (View.has_role (str "system")) h.
Proof.
  induction h as [|t h IH]; [reflexivity|].
  cbn [Clearing.cleared List.filter].
  unfold Clearing.kept_role, View.has_role at 2.
  destruct (pystr_eqb (role t) (str "system")) eqn:Hs.
  - cbn [orb List.filter]. apply pystr_eqb_eq in Hs.
    rewrite (reset_count_system t Hs).
    unfold View.has_role at 1. rewrite Hs, pystr_eqb_refl. rewrite IH. reflexivity.
  - cbn [orb]. destruct (pystr_eqb (role t) (str "token_count")) eqn:Ht.
    + cbn [List.filter]. unfold View.has_role at 1.
      rewrite reset_count_role, Hs. exact IH.
    + exact IH.
Qed.

Lemma cleared_turns h :
  Forall (fun t => role t = str "system" \/
                   (role t = str "token_count" /\ content t = str "0"))
    (Clearing.cleared h).
Proof.
  induction h as [|t h IH]; [constructor|].
  cbn [Clearing.cleared]. unfold Clearing.kept_role.
  destruct (pystr_eqb (role t) (str "system")) eqn:Hs.
  - cbn [orb]. apply pystr_eqb_eq in Hs. constructor; [|exact IH].
    left. rewrite reset_count_role. exact Hs.
  - cbn [orb]. destruct (pystr_eqb (role t) (str "token_count")) eqn:Ht; [|exact IH].
    constructor; [|exact IH]. right.
    unfold Clearing.reset_count. rewrite Ht. cbn [role content].
    apply pystr_eqb_eq in Ht. auto.
Qed.

Lemma has_role_eq r t : View.has_role r t = pystr_eqb (role t) r.
Proof. reflexivity. Qed.

Lemma cleared_count_turns h :
  List.filter (View.has_role (str "token_count")) (Clearing.cleared h)
  = map (fun t => Turn (role t) (str "0"))
      (List.filter (View.has_role (str "token_count")) h).
Proof.
  induction h as [|t h IH]; [reflexivity|].
  cbn [Clearing.cleared List.filter].
  unfold Clearing.kept_role. rewrite (has_role_eq _ t).
  destruct (pystr_eqb (role t) (str "token_count")) eqn:Ht.
  - rewrite orb_true_r. cbn [List.filter map].
    rewrite has_role_eq, reset_count_role, Ht, IH.
    unfold Clearing.reset_count. rewrite Ht. reflexivity.
  - rewrite orb_false_r.
    destruct (pystr_eqb (role t) (str "system")) eqn:Hs; [|exact IH].
    cbn [List.filter]. rewrite has_role_eq, reset_count_role, Ht. exact IH.
Qed.

Lemma cleared_filter_map h :
  Clearing.cleared h
  = map (fun t => if View.has_role (str "token_count") t
                  then Turn (role t) (str "0") else t)
      (List.filter (fun t => View.has_role (str "system") t
                             || View.has_role (str "token_count") t) h).
Proof.
  induction h as [|t h IH]; [reflexivity|].
  cbn [Clearing.cleared List.filter]. unfold Clearing.kept_role.
  rewrite !(has_role_eq _ t).
  destruct (pystr_eqb (role t) (str "system") || pystr_eqb (role t) (str "token_count"));
    [|exact IH].
  cbn [map]. rewrite IH, has_role_eq. reflexivity.
Qed.

Lemma cleared_roles h :
  map role (Clearing.cleared h)
  = List.filter (fun r => pystr_eqb r (str "system") || pystr_eqb r (str "token_count"))
      (map role h).
Proof.
  induction h as [|t h IH]; [reflexivity|].
  cbn [Clearing.cleared List.filter map]. unfold Clearing.kept_role.
  destruct (pystr_eqb (role t) (str "system") || pystr_eqb (role t) (str "token_count"));
    [|exact IH].
  cbn [map]. rewrite reset_count_role, IH. reflexivity.
Qed.

(** X16. [AIModel.clear_memory] keeps the turns whose role is [system] or
    [token_count], in their order, and drops every other turn: the
    system turns stay as they are, and every turn of role [token_count]
    is kept with the content [0].  The write is not guarded: when the
    file opens for writing it then holds the cleared history; when
    opening it raises a fault, the fault is raised by [clear_memory], the
    file is as before, and the history of the object is cleared all the
    same. *)
Theorem clear_memory_keeps_system_turns (m : AIModel.t) (w : world) :
  let r := Clearing.clear_memory (m, w) in
  let h := AIModel.history m in
  let h' := AIModel.history (fst (snd r)) in
  h' = map (fun t => if View.has_role (str "token_count") t
                     then Turn (role t) (str "0") else t)
         (List.filter (fun t => View.has_role (str "system") t
                                || View.has_role (str "token_count") t) h) /\
  List.filter (View.has_role (str "system")) h'
    = List.filter (View.has_role (str "system")) h /\
  List.filter (View.has_role (str "token_count")) h'
    = map (fun t => Turn (role t) (str "0"))
        (List.filter (View.has_role (str "token_count")) h) /\
  map role h'
    = List.filter (fun r => pystr_eqb r (str "system") || pystr_eqb r (str "token_count"))
        (map role h) /\
  Forall (fun t => role t = str "system" \/
                   (role t = str "token_count" /\ content t = str "0")) h' /\
  match write_fault (w_disk w) with
  | None => fst r = Ret tt /\ memory_file (w_disk (snd (snd r))) = Some h'
  | Some e => fst r = Raise e /\ w_disk (snd (snd r)) = w_disk w
  end.
Proof.
  destruct m as [name instr max_len h], w as [[file rf wf] tr].
  cbv zeta. unfold Clearing.clear_memory. run_se.
  destruct wf as [e|]; cbn;
    (split; [apply cleared_filter_map|]);
    (split; [apply cleared_system_turns|]);
    (split; [apply cleared_count_turns|]);
    (split; [apply cleared_roles|]);
    (split; [apply cleared_turns|]); auto.
Qed.

(** A history with a counter turn: the counter is kept and reset, the
    conversation is dropped. *)
Example clear_memory_resets_the_counter :
  let h := [Turn (str "system") (str "Be brief."); Turn (str "token_count") (str "41");
            Turn (str "user") (str "hello"); Turn (str "assistant") (str "Hi there")] in
  let m := AIModel.Make (str "gemma3:12b") (str "Be brief.") 15 h in
  let r := Clearing.clear_memory (m, World (Disk (Some h) None None) []) in
  AIModel.history (fst (snd r)) =
    [Turn (str "system") (str "Be brief."); Turn (str "token_count") (str "0")] /\
  memory_file (w_disk (snd (snd r))) =
    Some [Turn (str "system") (str "Be brief."); Turn (str "token_count") (str "0")].
Proof. cbv zeta. split; vm_compute; reflexivity. Qed.

(** X17. What the result of [MemoryManager.clear_memory] says about its
    file.  [True]: the file now holds the kept turns of the file that was
    read (system and token-count turns when the system prompt is kept,
    nothing otherwise), and is empty when there was no file.  [False]:
    the file is as it was. *)
Theorem manager_clear_memory_outcome (keep_system_prompt : bool) (w : world) (b : bool) :
  fst (MemoryManager.clear_memory keep_system_prompt w) = Ret b ->
  let d' := w_disk (snd (MemoryManager.clear_memory keep_system_prompt w)) in
  if b then
    memory_file d' =
      Some (match read_fault (w_disk w), memory_file (w_disk w) with
            | None, Some h => if keep_system_prompt then Clearing.cleared h else []
            | _, _ => []
            end)
  else d' = w_disk w.
Proof.
  destruct w as [[file rf wf] tr].
  unfold MemoryManager.clear_memory, MemoryManager.read_file, MemoryManager.write_file,
    MemoryManager.emit_ev.
  unfold sbind, try_except, ret, modify. cbn.
  destruct rf as [e|]; cbn.
  - destruct (is_FileNotFoundError e); cbn.
    + destruct wf; cbn; [discriminate|]. intros H. injection H as <-. reflexivity.
    + intros H. injection H as <-. reflexivity.
  - destruct file as [h|]; cbn.
    + destruct wf as [e|]; cbn.
      * destruct (is_FileNotFoundError e); cbn; [discriminate|].
        intros H. injection H as <-. reflexivity.
      * intros H. injection H as <-. reflexivity.
    + destruct wf; cbn; [discriminate|]. intros H. injection H as <-. reflexivity.
Qed.

Lemma manager_clear_memory_outcome_witness :
  let w := World (Disk (Some Scenario.stored) None None) [] in
  memory_file (w_disk (snd (MemoryManager.clear_memory true w))) =
    Some (Clearing.cleared Scenario.stored).
Proof.
  cbv zeta.
  apply (manager_clear_memory_outcome true
           (World (Disk (Some Scenario.stored) None None) []) true).
  vm_compute. reflexivity.
Defined.

Lemma count_roles h :
  length h =
    (MemoryManager.count_role (str "user") h
     + MemoryManager.count_role (str "assistant") h
     + MemoryManager.count_role (str "system") h
     + length (List.filter (fun t => negb (View.chat_role t)) h))%nat.
Proof.
  unfold MemoryManager.count_role.
  induction h as [|t h IH]; [reflexivity|].
  cbn [List.filter length]. unfold View.chat_role, View.has_role.
  destruct (pystr_eqb (role t) (str "user")) eqn:Hu.
  - apply pystr_eqb_eq in Hu. rewrite Hu.
    replace (pystr_eqb (str "user") (str "assistant")) with false
      by (vm_compute; reflexivity).
    replace (pystr_eqb (str "user") (str "system")) with false
      by (vm_compute; reflexivity).
    cbn [orb negb length]. rewrite IH at 1. unfold View.chat_role, View.has_role. lia.
  - destruct (pystr_eqb (role t) (str "assistant")) eqn:Ha.
    + apply pystr_eqb_eq in Ha. rewrite Ha.
      replace (pystr_eqb (str "assistant") (str "system")) with false
        by (vm_compute; reflexivity).
      cbn [orb negb length]. rewrite IH at 1. unfold View.chat_role, View.has_role. lia.
    + destruct (pystr_eqb (role t) (str "system")) eqn:Hs;
        cbn [orb negb length]; rewrite IH at 1; unfold View.chat_role, View.has_role; lia.
Qed.

(** X18. [get_memory_stats] never raises and does not change the file.
    When it returns counts, the file could be read, and the total is the
    sum of the three counts plus the number of turns whose role is none
    of [user], [assistant] and [system]: the counts add up to the total
    only when there is no such turn. *)
Theorem memory_stats_total (w : world) :
  exists o,
    MemoryManager.get_memory_stats w =
      (Ret o, World (w_disk w) (w_trace w ++ [EvReadMemory])) /\
    match o with
    | Some st =>
        exists h,
          memory_file (w_disk w) = Some h /\ read_fault (w_disk w) = None /\
          MemoryManager.total_messages st =
            (MemoryManager.user_messages st + MemoryManager.assistant_messages st
             + MemoryManager.system_messages st
             + length (List.filter (fun t => negb (View.chat_role t)) h))%nat
    | None => read_fault (w_disk w) <> None \/ memory_file (w_disk w) = None
    end.
Proof.
  destruct w as [[file rf wf] tr].
  unfold MemoryManager.get_memory_stats, MemoryManager.read_file, MemoryManager.emit_ev.
  unfold sbind, try_except, ret, modify. cbn.
  destruct rf as [e|]; cbn.
  - eexists. split; [reflexivity|]. left. discriminate.
  - destruct file as [h|]; cbn.
    + eexists. split; [reflexivity|]. exists h.
      split; [reflexivity|]. split; [reflexivity|]. cbn. apply count_roles.
    + eexists. split; [reflexivity|]. right. reflexivity.
Qed.

(** ** The files that the modules open *)

Lemma removelast_shorter {A : Type} (l : list A) : l <> [] -> removelast l <> l.
Proof.
  intros Hne Heq. apply (f_equal (@length A)) in Heq.
  destruct (exists_last Hne) as (l' & a & ->).
  rewrite removelast_last, length_app in Heq. cbn in Heq. lia.
Qed.

(** X19. [MemoryManager] and [AIModel] do not open the same memory file.
    Both modules lie in the directory [core] of the package; [AIModel]
    goes up four levels from its file and [MemoryManager] three, so
    unless the package lies directly under the file-system root the two
    paths differ: clearing the memory through [MemoryManager] does not
    touch the memory that the agent loads. *)
Theorem memory_manager_opens_another_file (core : Paths.path) :
  Paths.parent (Paths.parent core) <> [] ->
  Paths.MemoryManager_memory_file (Paths.module_file core (str "memory_manager.py"))
  <> Paths.AIModel_memory_file (Paths.module_file core (str "ai_model_lib.py")).
Proof.
  intros Hne.
  unfold Paths.MemoryManager_memory_file, Paths.AIModel_memory_file, Paths.module_file,
    Paths.joinpath, Paths.parent in *.
  rewrite !removelast_last. cbv zeta. intros Heq.
  apply app_inv_tail in Heq. apply app_inv_tail in Heq.
  symmetry in Heq. exact (removelast_shorter _ Hne Heq).
Qed.

Lemma memory_manager_opens_another_file_witness :
  let core := [str "home"; str "user"; str "ollama-agent"; str "src";
               str "ollama_agent"; str "core"] in
  Paths.MemoryManager_memory_file (Paths.module_file core (str "memory_manager.py"))
  <> Paths.AIModel_memory_file (Paths.module_file core (str "ai_model_lib.py")).
Proof.
  cbv zeta.
  apply (memory_manager_opens_another_file
           [str "home"; str "user"; str "ollama-agent"; str "src";
            str "ollama_agent"; str "core"]).
  vm_compute. discriminate.
Defined.

(** X20. The agent and [ModelConfigLoader] do not read the same
    configuration file, wherever the package is installed: the agent
    opens [model.json] in the package directory, the loader
    [config/models.json]. *)
Theorem agent_and_loader_open_different_files (core : Paths.path) :
  Paths.agent_config_path (Paths.module_file core (str "agent.py"))
  <> Paths.loader_config_path (Paths.module_file core (str "model_loader.py")).
Proof.
  unfold Paths.agent_config_path, Paths.loader_config_path, Paths.module_file,
    Paths.joinpath, Paths.parent, Paths.dirname.
  rewrite !removelast_last. rewrite <- app_assoc. intros Heq.
  apply app_inv_head in Heq. discriminate Heq.
Qed.

(** ** The configuration *)

Lemma dict_get_cons k k' v d :
  dict_get k ((k', v) :: d) = if pystr_eqb k k' then Some v else dict_get k d.
Proof. reflexivity. Qed.

(** Comparisons of literal keys are decided by evaluation. *)
Ltac decide_keys :=
  repeat match goal with
  | |- context [pystr_eqb (str ?a) (str ?b)] =>
      let c := constr:(pystr_eqb (str a) (str b)) in
      let v := eval vm_compute in c in
      replace c with v by (vm_compute; reflexivity)
  end.

Ltac lookup_keys :=
  unfold Agent.py_index, py_get; cbn [bind]; rewrite ?dict_get_cons; decide_keys;
  cbv iota; cbn [bind dict_get].

(** X21. When the configuration file of the loader is missing or is not
    JSON, the loader works on its built-in configuration, and
    [get_model_name] returns for every model type: [gemma3:12b] for
    [big], and [gemma3:1b] for [small] and for every unknown type. *)
Theorem loader_fallback_names (file : outcome pystr) (model_type : pystr) :
  match file with
  | Raise e => is_FileNotFoundError e = true
  | Ret text => json_loads text = NotJson
  end ->
  exists config,
    Config._load_config file = Ret config /\
    Config.get_model_name config model_type =
      Ret (JStr (if pystr_eqb model_type (str "big") then str "gemma3:12b"
                 else str "gemma3:1b")).
Proof.
  intros Hfile. exists Config._get_fallback_config. split.
  - unfold Config._load_config. destruct file as [text|e]; rewrite Hfile; reflexivity.
  - unfold Config.get_model_name, Config.model_entry, Config._get_fallback_config,
      Config.except_KeyError.
    lookup_keys.
    destruct (pystr_eqb model_type (str "big")) eqn:Hb.
    + lookup_keys. reflexivity.
    + destruct (pystr_eqb model_type (str "small")) eqn:Hs.
      * lookup_keys. reflexivity.
      * cbn. lookup_keys. reflexivity.
Qed.

Lemma loader_fallback_names_witness :
  exists config,
    Config._load_config (Raise AIModel.file_not_found) = Ret config /\
    Config.get_model_name config (str "tiny") =
      Ret (JStr (if pystr_eqb (str "tiny") (str "big") then str "gemma3:12b"
                 else str "gemma3:1b")).
Proof.
  apply (loader_fallback_names (Raise AIModel.file_not_found) (str "tiny")).
  reflexivity.
Defined.

Lemma py_index_raises v key e :
  Agent.py_index v key = Raise e -> exn_cls e = KeyError \/ exn_cls e = TypeError.
Proof.
  unfold Agent.py_index.
  destruct v as [|b|z|f|s|l|d]; try (intros H; injection H as <-; auto).
  destruct (dict_get key d); [discriminate|]. intros H. injection H as <-. auto.
Qed.

(** X22. With a [fallback_model] in the settings of the configuration,
    [get_model_name] turns every missing key into that model; what it
    returns is the configured name of the type or the fallback model,
    and the only failure left is the [TypeError] of a configuration
    whose [models] are not dictionaries. *)
Theorem get_model_name_falls_back (c s : list (pystr * json)) (fallback : json)
    (model_type : pystr) :
  dict_get (str "settings") c = Some (JDict s) ->
  dict_get (str "fallback_model") s = Some fallback ->
  match Config.get_model_name (JDict c) model_type with
  | Ret name =>
      name = fallback \/
      exists models entry,
        dict_get (str "models") c = Some models /\
        Agent.py_index models model_type = Ret entry /\
        Agent.py_index entry (str "name") = Ret name
  | Raise e => exn_cls e = TypeError
  end.
Proof.
  intros Hs Hf.
  unfold Config.get_model_name, Config.model_entry, Config.except_KeyError.
  assert (Hhandler : (settings <- Agent.py_index (JDict c) (str "settings") ;;
                      Agent.py_index settings (str "fallback_model")) = Ret fallback).
  { unfold Agent.py_index. rewrite Hs. cbn [bind]. rewrite Hf. reflexivity. }
  rewrite Hhandler.
  change (Agent.py_index (JDict c) (str "models"))
    with (match dict_get (str "models") c with
          | Some x => Ret x
          | None => Raise (Exn KeyError ([39] ++ str "models" ++ [39]))
          end).
  destruct (dict_get (str "models") c) as [models|] eqn:Hm; cbn [bind].
  2:{ cbn. auto. }
  destruct (Agent.py_index models model_type) as [entry|e] eqn:He; cbn [bind].
  2:{ unfold Config.is_KeyError.
      destruct (py_index_raises _ _ _ He) as [-> | Ht]; [auto|].
      rewrite Ht. exact Ht. }
  destruct (Agent.py_index entry (str "name")) as [name|e] eqn:Hn.
  - right. eauto.
  - unfold Config.is_KeyError.
    destruct (py_index_raises _ _ _ Hn) as [-> | Ht]; [auto|].
    rewrite Ht. exact Ht.
Qed.

Lemma get_model_name_falls_back_witness :
  match Config.get_model_name
          (JDict [(str "models", JDict []);
                  (str "settings",
                   JDict [(str "fallback_model", JStr (str "gemma3:1b"))])])
          (str "tiny") with
  | Ret name =>
      name = JStr (str "gemma3:1b") \/
      exists models entry,
        dict_get (str "models")
          [(str "models", JDict []);
           (str "settings", JDict [(str "fallback_model", JStr (str "gemma3:1b"))])]
          = Some models /\
        Agent.py_index models (str "tiny") = Ret entry /\
        Agent.py_index entry (str "name") = Ret name
  | Raise e => exn_cls e = TypeError
  end.
Proof.
  apply (get_model_name_falls_back
           [(str "models", JDict []);
            (str "settings", JDict [(str "fallback_model", JStr (str "gemma3:1b"))])]
           [(str "fallback_model", JStr (str "gemma3:1b"))]).
  - vm_compute. reflexivity.
  - vm_compute. reflexivity.
Defined.

(** X23. Without a configuration file, the constructor of the agent
    returns: a model name that is given (and not empty) is kept, a
    missing one becomes [gemma3:12b] for the big and [gemma3:1b] for the
    small model, and the parameters are the built-in ones. *)
Theorem agent_init_without_config_file (decode_message : pystr) (e : exn)
    (Big_model Small_model avaliable_functions list_of_tools : json) :
  is_FileNotFoundError e = true ->
  Config.agent_init decode_message (Raise e) Big_model Small_model
    avaliable_functions list_of_tools =
    Ret (Config.AgentObject
           (if truthy Big_model then Big_model else JStr (str "gemma3:12b"))
           (if truthy Small_model then Small_model else JStr (str "gemma3:1b"))
           list_of_tools avaliable_functions
           (Config.params (str "0.1") 1000) (Config.params (str "0.1") 500)).
Proof.
  intros He. unfold Config.agent_init, Config._load_model_config. rewrite He.
  cbn [bind]. unfold Config.or_else, Config.model_entry, Config.agent_fallback_config.
  destruct (truthy Big_model), (truthy Small_model); lookup_keys; reflexivity.
Qed.

Lemma agent_init_without_config_file_witness :
  Config.agent_init [] (Raise AIModel.file_not_found) JNull (JStr (str "qwen3:4b"))
    (JList []) JNull =
    Ret (Config.AgentObject (JStr (str "gemma3:12b")) (JStr (str "qwen3:4b"))
           JNull (JList [])
           (Config.params (str "0.1") 1000) (Config.params (str "0.1") 500)).
Proof.
  apply (agent_init_without_config_file [] AIModel.file_not_found JNull
           (JStr (str "qwen3:4b")) (JList []) JNull).
  reflexivity.
Defined.

(** X24. The constructor of the agent is stricter than the loader.  On
    a configuration file that is not JSON it raises the
    [JSONDecodeError], where the loader falls back; and on a
    configuration without the key [models] it raises a [KeyError] even
    when both model names are given. *)
Theorem agent_init_raises_on_bad_config (decode_message text : pystr)
    (Big_model Small_model avaliable_functions list_of_tools : json) :
  (json_loads text = NotJson \/
   exists c, json_loads text = Decoded (JDict c) /\ dict_get (str "models") c = None) ->
  truthy Big_model = true -> truthy Small_model = true ->
  exists e,
    Config.agent_init decode_message (Ret text) Big_model Small_model
      avaliable_functions list_of_tools = Raise e /\
    (json_loads text = NotJson ->
     e = Exn JSONDecodeError decode_message /\
     Config._load_config (Ret text) = Ret Config._get_fallback_config) /\
    (json_loads text <> NotJson -> e = Exn KeyError ([39] ++ str "models" ++ [39])).
Proof.
  intros Hbad Hb Hs.
  unfold Config.agent_init, Config._load_model_config, Config._load_config.
  destruct Hbad as [Hn|(c & Hc & Hm)].
  - rewrite Hn. cbn [bind]. eexists. split; [reflexivity|].
    split; [auto|]. intros H. contradiction.
  - rewrite Hc. cbn [bind]. unfold Config.or_else. rewrite Hb, Hs. cbn [bind].
    unfold Config.model_entry. unfold Agent.py_index at 1. rewrite Hm. cbn [bind].
    eexists. split; [reflexivity|]. split; [discriminate|reflexivity].
Qed.

Lemma agent_init_raises_on_bad_config_witness :
  exists e,
    Config.agent_init (str "Expecting value: line 1 column 1 (char 0)")
      (Ret (str "not json")) (JStr (str "a")) (JStr (str "b")) (JList []) JNull
      = Raise e /\
    (json_loads (str "not json") = NotJson ->
     e = Exn JSONDecodeError (str "Expecting value: line 1 column 1 (char 0)") /\
     Config._load_config (Ret (str "not json")) = Ret Config._get_fallback_config) /\
    (json_loads (str "not json") <> NotJson ->
     e = Exn KeyError ([39] ++ str "models" ++ [39])).
Proof.
  apply (agent_init_raises_on_bad_config
           (str "Expecting value: line 1 column 1 (char 0)") (str "not json")
           (JStr (str "a")) (JStr (str "b")) (JList []) JNull).
  - left. vm_compute. reflexivity.
  - reflexivity.
  - reflexivity.
Defined.

(** ** The tool definitions *)

Lemma tool_definition_name tool tool_def :
  Discovery.tool_definition tool = Ret tool_def ->
  Discovery.definition_name tool_def = Some (JStr (Discovery.t_name tool)).
Proof.
  unfold Discovery.tool_definition.
  destruct (match Discovery.t_inputSchema tool with
            | [] => _
            | _ :: _ => _
            end) as [pr|e]; cbn [bind]; [|discriminate].
  intros H. injection H as <-.
  unfold Discovery.definition_name. rewrite !dict_get_cons. decide_keys.
  cbv iota. rewrite !dict_get_cons. decide_keys. reflexivity.
Qed.

(** A line of the tool list starts with the number of the tool, its name
    and its description. *)
Lemma tool_list_item_shape E i tool item :
  Discovery.tool_list_item E i tool = Ret item ->
  exists texts,
    item = str_of_Z (Z.of_nat i + 1) ++ str ". " ++ Discovery.t_name tool ++ str " : " ++
           match Discovery.t_description tool with Some d => d | None => str "None" end ++
           [newline] ++ str "   Args: " ++ join (str ", ") texts.
Proof.
  unfold Discovery.tool_list_item.
  destruct (match Discovery.t_inputSchema tool with
            | [] => _
            | _ :: _ => _
            end) as [props|e]; cbn [bind]; [|discriminate].
  destruct (Discovery.argument_texts E props) as [texts|e]; cbn [bind]; [|discriminate].
  intros H. injection H as <-. exists texts. reflexivity.
Qed.

(** X25. When the discovery of the tools returns, the tool definitions
    and the lines of the tool list are those of the listed tools, one
    for each tool and in the order of the listing: at the position of a
    tool stand its definition, which carries its name, and its line,
    which is numbered from 1 and starts with the number, the name and
    the description of the tool. *)
Theorem discover_keeps_names_and_order (E : env) (i : nat)
    (tools : list Discovery.mcp_tool) (defs : list json) (items : list pystr) :
  Discovery.discover E i tools = Ret (defs, items) ->
  map Discovery.definition_name defs
    = map (fun tool => Some (JStr (Discovery.t_name tool))) tools /\
  length defs = length tools /\
  length items = length tools /\
  forall (k : nat) (tool : Discovery.mcp_tool),
    tools !! k = Some tool ->
    exists tool_def item texts,
      defs !! k = Some tool_def /\
      Discovery.tool_definition tool = Ret tool_def /\
      items !! k = Some item /\
      Discovery.tool_list_item E (i + k) tool = Ret item /\
      item = str_of_Z (Z.of_nat (i + k) + 1) ++ str ". " ++ Discovery.t_name tool ++
             str " : " ++
             match Discovery.t_description tool with Some d => d | None => str "None" end ++
             [newline] ++ str "   Args: " ++ join (str ", ") texts.
Proof.
  revert i defs items. induction tools as [|tool tools IH]; intros i defs items H.
  - cbn in H. injection H as <- <-. repeat split. intros k tool Hk. discriminate Hk.
  - cbn [Discovery.discover] in H.
    destruct (Discovery.tool_definition tool) as [tool_def|e] eqn:Hd; cbn [bind] in H;
      [|discriminate].
    destruct (Discovery.tool_list_item E i tool) as [item|e] eqn:Hi; cbn [bind] in H;
      [|discriminate].
    destruct (Discovery.discover E (S i) tools) as [[defs' items']|e] eqn:Hm;
      cbn [bind] in H; [|discriminate].
    injection H as <- <-. cbn [fst snd map length].
    destruct (IH _ _ _ Hm) as (Hn & Hld & Hli & Hk).
    rewrite Hn, Hld, Hli, (tool_definition_name _ _ Hd).
    do 3 (split; [reflexivity|]).
    intros [|k] tool' Hl.
    + cbn in Hl. injection Hl as <-. rewrite Nat.add_0_r.
      destruct (tool_list_item_shape _ _ _ _ Hi) as [texts Ht].
      exists tool_def, item, texts. repeat split; assumption.
    + cbn in Hl. destruct (Hk k tool' Hl) as (tool_def' & item' & texts & H1 & H2 & H3 & H4 & H5).
      replace (i + S k)%nat with (S i + k)%nat by lia.
      exists tool_def', item', texts. repeat split; assumption.
Qed.

Lemma discover_keeps_names_and_order_witness :
  let tools := [Discovery.McpTool (str "google_search") (Some (str "Search the web."))
                  [(str "properties",
                    JDict [(str "query", JDict [(str "type", JStr (str "string"))])]);
                   (str "required", JList [JStr (str "query")])];
                Discovery.McpTool (str "get_memory") None []] in
  let found := Discovery.discover (Scenario.runtime (ChatResponse [] None []) (Ret None) [])
                 0 tools in
  exists defs items,
    found = Ret (defs, items) /\
    map Discovery.definition_name defs
      = [Some (JStr (str "google_search")); Some (JStr (str "get_memory"))] /\
    items = [str "1. google_search : Search the web." ++ [newline] ++
               str "   Args: query (string)";
             str "2. get_memory : None" ++ [newline] ++ str "   Args: "] /\
    exists tool_def item texts,
      defs !! 1%nat = Some tool_def /\
      Discovery.tool_definition (Discovery.McpTool (str "get_memory") None [])
        = Ret tool_def /\
      items !! 1%nat = Some item /\
      item = str "2. get_memory : None" ++ [newline] ++ str "   Args: "
             ++ join (str ", ") texts.
Proof.
  cbv zeta. eexists _, _. split; [vm_compute; reflexivity|].
  destruct (discover_keeps_names_and_order
              (Scenario.runtime (ChatResponse [] None []) (Ret None) []) 0
              [Discovery.McpTool (str "google_search") (Some (str "Search the web."))
                 [(str "properties",
                   JDict [(str "query", JDict [(str "type", JStr (str "string"))])]);
                  (str "required", JList [JStr (str "query")])];
               Discovery.McpTool (str "get_memory") None []]
              _ _ ltac:(vm_compute; reflexivity)) as (Hn & _ & _ & Hk).
  split; [exact Hn|]. split; [vm_compute; reflexivity|].
  destruct (Hk 1%nat (Discovery.McpTool (str "get_memory") None []) eq_refl)
    as (tool_def & item & texts & H1 & H2 & H3 & _ & H5).
  exists tool_def, item, texts. repeat split; assumption.
Defined.

Lemma dict_get_set_same k v d : dict_get k (dict_set k v d) = Some v.
Proof.
  induction d as [|[k' v'] d IH]; cbn [dict_set dict_get].
  - rewrite pystr_eqb_refl. reflexivity.
  - destruct (pystr_eqb k k') eqn:Hk; cbn [dict_get].
    + rewrite pystr_eqb_refl. reflexivity.
    + rewrite Hk. exact IH.
Qed.

Lemma dict_get_set_defined k v n d :
  dict_get n d <> None -> dict_get n (dict_set k v d) <> None.
Proof.
  induction d as [|[k' v'] d IH]; cbn [dict_set dict_get]; [contradiction|].
  destruct (pystr_eqb k k') eqn:Hk; cbn [dict_get].
  - apply pystr_eqb_eq in Hk. subst k'.
    destruct (pystr_eqb n k); [discriminate|auto].
  - destruct (pystr_eqb n k'); [discriminate|auto].
Qed.

(** The names that the loop lists as required are properties. *)
Lemma arguments_loop_required schema items properties required_args properties' required' :
  Discovery.arguments_loop schema items properties required_args
    = Ret (properties', required') ->
  Forall (fun x => exists n, x = JStr n /\ dict_get n properties <> None) required_args ->
  Forall (fun x => exists n, x = JStr n /\ dict_get n properties' <> None) required'.
Proof.
  revert properties required_args.
  induction items as [|[arg_name arg_info] items IH]; intros properties required_args H Hreq.
  - cbn in H. injection H as <- <-. exact Hreq.
  - cbn [Discovery.arguments_loop] in H.
    destruct (py_get arg_info (str "type") (JStr (str "string"))) as [ty|e];
      cbn [bind] in H; [|discriminate].
    destruct (py_get arg_info (str "description") (JStr [])) as [description|e];
      cbn [bind] in H; [|discriminate].
    destruct (match dict_get (str "required") schema with
              | Some required => Discovery.py_contains required arg_name
              | None => Ret false
              end) as [is_required|e]; cbn [bind] in H; [|discriminate].
    apply IH in H; [exact H|].
    assert (Hold : Forall (fun x => exists n, x = JStr n /\
                     dict_get n (dict_set arg_name
                       (JDict [(str "type", ty); (str "description", description)])
                       properties) <> None) required_args).
    { eapply Forall_impl; [exact Hreq|].
      intros x (n & -> & Hn). exists n. split; [reflexivity|].
      now apply dict_get_set_defined. }
    destruct is_required; [|exact Hold].
    apply Forall_app. split; [exact Hold|].
    constructor; [|constructor].
    exists arg_name. split; [reflexivity|].
    rewrite dict_get_set_same. discriminate.
Qed.

(** X26. In a tool definition, the parameters always carry the key
    [properties]; the key [required] is present only with a list that is
    not empty, and every name in it is the name of a property of the
    definition. *)
Theorem required_arguments_are_properties (tool : Discovery.mcp_tool) (tool_def : json) :
  Discovery.tool_definition tool = Ret tool_def ->
  exists parameters properties,
    View.definition_parameters tool_def = Some parameters /\
    dict_get (str "properties") parameters = Some (JDict properties) /\
    match dict_get (str "required") parameters with
    | None => True
    | Some (JList required) =>
        required <> [] /\
        Forall (fun x => exists n, x = JStr n /\ dict_get n properties <> None) required
    | Some _ => False
    end.
Proof.
  unfold Discovery.tool_definition.
  destruct (match Discovery.t_inputSchema tool with
            | [] => _
            | _ :: _ => _
            end) as [[properties required]|e] eqn:Hpr; cbn [bind]; [|discriminate].
  intros H. injection H as <-.
  assert (Hreq : Forall (fun x => exists n, x = JStr n /\ dict_get n properties <> None)
                   required).
  { destruct (Discovery.t_inputSchema tool) as [|kv schema] eqn:Hschema.
    - injection Hpr as <- <-. constructor.
    - destruct (dict_get (str "properties") (kv :: schema)) as [props|].
      + destruct (Discovery.py_items props) as [items|e]; cbn [bind] in Hpr;
          [|discriminate].
        eapply arguments_loop_required; [exact Hpr|constructor].
      + injection Hpr as <- <-. constructor. }
  cbn [fst snd].
  eexists _, properties. split.
  { unfold View.definition_parameters. rewrite !dict_get_cons. decide_keys.
    cbv iota. rewrite !dict_get_cons. decide_keys. reflexivity. }
  split.
  { cbn [app]. rewrite !dict_get_cons. decide_keys. reflexivity. }
  cbn [app]. rewrite !dict_get_cons. decide_keys. cbv iota.
  destruct required as [|r required]; cbn [dict_get].
  - exact I.
  - rewrite pystr_eqb_refl. split; [discriminate|exact Hreq].
Qed.

Lemma required_arguments_are_properties_witness :
  let tool := Discovery.McpTool (str "google_search") (Some (str "Search the web."))
                [(str "properties",
                  JDict [(str "query", JDict [(str "type", JStr (str "string"))])]);
                 (str "required", JList [JStr (str "query"); JStr (str "page")])] in
  exists tool_def parameters properties,
    Discovery.tool_definition tool = Ret tool_def /\
    View.definition_parameters tool_def = Some parameters /\
    dict_get (str "properties") parameters = Some (JDict properties) /\
    match dict_get (str "required") parameters with
    | None => True
    | Some (JList required) =>
        required <> [] /\
        Forall (fun x => exists n, x = JStr n /\ dict_get n properties <> None) required
    | Some _ => False
    end.
Proof.
  cbv zeta. eexists.
  destruct (required_arguments_are_properties
              (Discovery.McpTool (str "google_search") (Some (str "Search the web."))
                 [(str "properties",
                   JDict [(str "query", JDict [(str "type", JStr (str "string"))])]);
                  (str "required", JList [JStr (str "query"); JStr (str "page")])])
              _ eq_refl)
    as (parameters & properties & Hp & Hprops & Hreq).
  exists parameters, properties. split; [reflexivity|]. auto.
Defined.




(** ** The tool server *)

(** The lowering of a text ends with the lowering of its end. *)
Lemma lower_from_app before a b :
  exists p, lower_from before (a ++ b) = p ++ lower_from (rev a ++ before) b.
Proof.
  revert before. induction a as [|c a IH]; intros before.
  - exists []. reflexivity.
  - destruct (IH (c :: before)) as [p Hp].
    exists (lower_at before c (a ++ b) ++ p).
    cbn [app lower_from rev]. rewrite Hp, <- !app_assoc. reflexivity.
Qed.

(** A piece of text whose lowering is ASCII is lowered in the same way
    wherever it stands. *)
Lemma lower_from_ascii x :
  forall before before' after f,
    lower_from before x = f ->
    Forall (fun c => c < 128) f ->
    lower_from before' (x ++ after) = f ++ lower_from (rev x ++ before') after.
Proof.
  induction x as [|c x IH]; intros before before' after f Hf Ha.
  - cbn in Hf. subst f. reflexivity.
  - cbn [lower_from] in Hf. cbn [app lower_from rev].
    assert (Hat : forall b r, lower_at b c r = lower_at before c x).
    { intros b r. unfold lower_at in *.
      destruct (c <? 128); [reflexivity|].
      destruct (c =? 304); [reflexivity|].
      destruct (c =? 8490); [reflexivity|].
      exfalso. subst f. cbn [app] in Ha. apply Forall_cons in Ha as [Hh _].
      pose proof (proj2_sig lower_other before c x). lia. }
    rewrite (Hat before' (x ++ after)).
    subst f. apply Forall_app in Ha as [_ Ha].
    rewrite (IH (c :: before) (c :: before') after _ eq_refl Ha).
    rewrite <- !app_assoc. reflexivity.
Qed.

Lemma dangerous_commands_ascii fragment :
  In fragment Server.dangerous_commands -> Forall (fun c => c < 128) fragment.
Proof.
  intros Hin.
  assert (H : forallb (forallb (fun c => c <? 128)) Server.dangerous_commands = true)
    by (vm_compute; reflexivity).
  rewrite forallb_forall in H. specialize (H fragment Hin).
  rewrite forallb_forall in H. apply Forall_forall.
  intros c Hc. apply N.ltb_lt, H. now apply list_elem_of_In.
Qed.

(** X28. A command that holds one of the listed fragments, in any mix of
    upper and lower case, is refused with the security message, and no
    subprocess is started, whatever the system, the directory and the
    timeout. *)
Theorem dangerous_command_is_refused (sys : Server.system)
    (command working_directory : pystr) (timeout : Z)
    (fragment before found after : pystr) :
  In fragment Server.dangerous_commands ->
  lower found = fragment ->
  command = before ++ found ++ after ->
  Server.execute_cli_command sys command working_directory timeout
    = (Server.security_message command, None).
Proof.
  intros Hin Hlow ->. unfold Server.execute_cli_command.
  assert (Hd : Server.is_dangerous (before ++ found ++ after) = true).
  { unfold Server.is_dangerous. apply existsb_exists. exists fragment.
    split; [exact Hin|].
    unfold lower in *.
    destruct (lower_from_app [] before (found ++ after)) as [p ->].
    rewrite (lower_from_ascii found [] _ after fragment Hlow
               (dangerous_commands_ascii fragment Hin)).
    apply contains_infix. }
  rewrite Hd. reflexivity.
Qed.

Lemma dangerous_command_is_refused_witness :
  let sys := Server.System false (fun _ => true) (str "/home/user")
               (fun _ _ _ => Ret (Server.Completed 0 [] [])) in
  Server.execute_cli_command sys (str "git log --Format=oneline") [] 30
    = (Server.security_message (str "git log --Format=oneline"), None).
Proof.
  cbv zeta.
  apply (dangerous_command_is_refused _ (str "git log --Format=oneline") [] 30
           (str "format") (str "git log --") (str "Format") (str "=oneline")).
  - vm_compute. right. right. left. reflexivity.
  - vm_compute. reflexivity.
  - vm_compute. reflexivity.
Defined.

(** The Kelvin sign, U+212A, is lowered to the letter k: a command that
    spells a fragment with it is refused too. *)
Example kelvin_sign_is_lowered :
  let sys := Server.System false (fun _ => true) (str "/home/user")
               (fun _ _ _ => Ret (Server.Completed 0 [] [])) in
  let command := str "m" ++ [8490] ++ str "fs /dev/sda" in
  lower command = str "mkfs /dev/sda" /\
  Server.execute_cli_command sys command [] 30 = (Server.security_message command, None).
Proof. cbv zeta. split; vm_compute; reflexivity. Qed.

Lemma startswith_elem needle hay c :
  startswith needle hay = true -> In c needle -> In c hay.
Proof.
  revert hay. induction needle as [|a needle IH]; intros hay H Hin; [destruct Hin|].
  destruct hay as [|b hay]; [discriminate|].
  cbn [startswith] in H. apply andb_true_iff in H as [Hab H].
  apply N.eqb_eq in Hab. subst b.
  destruct Hin as [->|Hin]; [left; reflexivity|right; eauto].
Qed.

Lemma contains_elem needle hay c :
  contains needle hay = true -> In c needle -> In c hay.
Proof.
  induction hay as [|b hay IH]; intros H Hin.
  - destruct needle; [destruct Hin|discriminate].
  - rewrite contains_cons in H. apply orb_true_iff in H as [H|H].
    + eapply startswith_elem; eassumption.
    + right. auto.
Qed.

Lemma lower_has_no_capital c s : (65 <= c <= 90)%N -> ~ In c (lower s).
Proof.
  intros Hc. unfold lower. generalize (@nil N) as before.
  induction s as [|x s IH]; intros before Hin; [destruct Hin|].
  cbn [lower_from] in Hin. apply in_app_iff in Hin as [Hin|Hin];
    [|exact (IH _ Hin)].
  assert (Hx : lower_char x = c /\ x < 128).
  { unfold lower_at in Hin.
    destruct (N.ltb_spec x 128) as [Hlt|Hge].
    - destruct Hin as [Hin|[]]. auto.
    - exfalso. destruct (x =? 304).
      { destruct Hin as [Hin|[Hin|[]]]; lia. }
      destruct (x =? 8490).
      { destruct Hin as [Hin|[]]; lia. }
      destruct Hin as [Hin|[]].
      pose proof (proj2_sig lower_other before x s). lia. }
  destruct Hx as [Hx _].
  unfold lower_char in Hx.
  destruct (N.leb_spec 65 x); destruct (N.leb_spec x 90); cbn [andb] in Hx; lia.
Qed.

(** X29. The last fragment of the list, [chown -R], is never found: it
    holds a capital letter and is looked for in the lowered command.
    Whether a command is refused depends on the other twelve fragments
    only. *)
Theorem capital_fragment_never_matches (command : pystr) :
  contains (str "chown -R") (lower command) = false /\
  Server.is_dangerous command =
    existsb (fun dangerous => contains dangerous (lower command))
      (removelast Server.dangerous_commands).
Proof.
  assert (Hc : contains (str "chown -R") (lower command) = false).
  { destruct (contains (str "chown -R") (lower command)) eqn:H; [|reflexivity].
    exfalso. apply (lower_has_no_capital 82 command); [lia|].
    apply (contains_elem _ _ 82 H). vm_compute. do 7 right. left. reflexivity. }
  split; [exact Hc|].
  unfold Server.is_dangerous, Server.dangerous_commands.
  cbn [removelast existsb]. rewrite Hc. rewrite !orb_false_r. reflexivity.
Qed.

Example recursive_chown_is_executed :
  let sys := Server.System false (fun _ => true) (str "/home/user")
               (fun _ _ _ => Ret (Server.Completed 0 [] [])) in
  snd (Server.execute_cli_command sys (str "chown -R nobody /etc") [] 30)
    = Some ([str "bash"; str "-c"; str "chown -R nobody /etc"], str "/home/user").
Proof. vm_compute. reflexivity. Qed.

(** ** The accessors of the loader on a partial configuration *)

(** X30. On a configuration that has the key [models] and not the key
    [settings], an unknown model type makes [get_model_name] raise the
    [KeyError] of its own handler, which reads the fallback name with
    [config['settings']]; [get_model_parameters] and
    [get_model_use_cases] return their built-in defaults, and
    [get_default_models], which reads the settings with [get], returns
    its three default names. *)
Theorem unknown_type_without_settings (c models : list (pystr * json))
    (model_type : pystr) :
  dict_get (str "models") c = Some (JDict models) ->
  dict_get model_type models = None ->
  dict_get (str "settings") c = None ->
  Config.get_model_name (JDict c) model_type
    = Raise (Exn KeyError ([39] ++ str "settings" ++ [39])) /\
  Config.get_model_parameters (JDict c) model_type = Ret (Config.params (str "0.1") 500) /\
  Config.get_model_use_cases (JDict c) model_type = Ret (JList []) /\
  Config.get_default_models (JDict c) =
    Ret (JDict [(str "big", JStr (str "gemma3:12b"));
                (str "small", JStr (str "gemma3:1b"));
                (str "fallback", JStr (str "gemma3:1b"))]).
Proof.
  intros Hm Ht Hs.
  assert (He : Config.model_entry (JDict c) model_type
               = Raise (Exn KeyError ([39] ++ model_type ++ [39]))).
  { unfold Config.model_entry, Agent.py_index. rewrite Hm. cbn [bind].
    rewrite Ht. reflexivity. }
  unfold Config.get_model_name, Config.get_model_parameters, Config.get_model_use_cases,
    Config.get_default_models, Config.except_KeyError.
  rewrite He. cbn [bind Config.is_KeyError exn_cls].
  unfold Agent.py_index, py_get. rewrite Hs. cbn [bind dict_get].
  repeat split; reflexivity.
Qed.

Lemma unknown_type_without_settings_witness :
  Config.get_model_name (JDict [(str "models", JDict [])]) (str "tiny")
    = Raise (Exn KeyError ([39] ++ str "settings" ++ [39])) /\
  Config.get_model_parameters (JDict [(str "models", JDict [])]) (str "tiny")
    = Ret (Config.params (str "0.1") 500) /\
  Config.get_model_use_cases (JDict [(str "models", JDict [])]) (str "tiny")
    = Ret (JList []) /\
  Config.get_default_models (JDict [(str "models", JDict [])]) =
    Ret (JDict [(str "big", JStr (str "gemma3:12b"));
                (str "small", JStr (str "gemma3:1b"));
                (str "fallback", JStr (str "gemma3:1b"))]).
Proof.
  apply (unknown_type_without_settings [(str "models", JDict [])] [] (str "tiny")).
  - vm_compute. reflexivity.
  - reflexivity.
  - vm_compute. reflexivity.
Defined.
